(** * bin-genie-panel: the credit-metered generator dashboard

    A shallow embedding of the dashboard component
    ([src/components/Dashboard.tsx], in its two revisions), of the
    statistics fold of the admin panel and of the SQL predicate
    [public.is_admin], followed by the properties proved about them.

    The component exists in two revisions: the one of
    [src/components/Dashboard.tsx], with a prefix and a quantity and a fixed
    generator URL, and a later one that adds a month, a year and a
    configurable URL. They are embedded together, as [Revision].

    Conventions.
    - JavaScript numbers that the program only ever fills with integers
      (credits, quantity, month, year, counters) are [Z].
    - Timestamps ([created_at], [updated_at]) are [Z] (microseconds).
    - UUIDs are strings.
    - An asynchronous function is run to completion, in program order;
      [fetchRecentCalls()], which [makeApiCall] starts without awaiting it,
      is run where it is started.
    - What the program does to the outside (requests to the generator and
      to the store, notifications, console output) is recorded in a trace;
      what the outside answers is given by an environment. *)

From stdpp Require Import base numbers option list strings gmap sorting pretty.

Local Open Scope Z_scope.

(** ** JSON values, as produced by [response.json()]

    Numbers are integers here; the program only tests them for being
    non-zero. *)

#[local] Set Warnings "-register-all".

Inductive Json : Type :=
| JNull
| JBool (b : bool)
| JNum (n : Z)
| JStr (s : string)
| JArr (items : list Json)
| JObj (fields : list (string * Json)).

(** JavaScript truthiness of a JSON value ([v || w] picks [v] exactly when
    this holds). *)
Definition truthy (v : Json) : bool :=
  match v with
  | JNull => false
  | JBool b => b
  | JNum n => negb (n =? 0)
  | JStr s => negb (String.eqb s "")
  | JArr _ | JObj _ => true
  end.

Definition is_null (v : Json) : bool :=
  match v with JNull => true | _ => false end.

(** Own property of a parsed object; a repeated key keeps its last value.
    [None] is JavaScript's [undefined]. *)
Fixpoint assoc_last (k : string) (fields : list (string * Json)) : option Json :=
  match fields with
  | [] => None
  | (k', v) :: rest =>
      match assoc_last k rest with
      | Some v' => Some v'
      | None => if String.eqb k k' then Some v else None
      end
  end.

(** [v?.k]: [undefined] on [null], the property otherwise (the two keys the
    program reads, [error] and [live_cards_found], exist on no primitive
    or array). *)
Definition opt_chain (v : Json) (k : string) : option Json :=
  match v with
  | JObj fields => assoc_last k fields
  | _ => None
  end.

(** [a || b] where [a] may be [undefined]. *)
Definition js_or (a : option Json) (b : Json) : Json :=
  match a with
  | Some v => if truthy v then v else b
  | None => b
  end.

(** ** zod schemas (module level of Dashboard.tsx)

    [safeParse] is modelled by its outcome: [None] for success, [Some m]
    for failure with [m] the message of the first issue
    ([result.error.errors[0].message]). *)

Definition is_digit (c : Ascii.ascii) : bool :=
  ((48 <=? Ascii.nat_of_ascii c) && (Ascii.nat_of_ascii c <=? 57))%nat.

Fixpoint all_digits (s : string) : bool :=
  match s with
  | EmptyString => true
  | String c rest => is_digit c && all_digits rest
  end.

(** The regular expression [/^\d{6,}$/]. *)
Definition bin_regex (s : string) : bool :=
  all_digits s && (6 <=? String.length s)%nat.

Definition binSchema (s : string) : option string :=
  if bin_regex s then None else Some "BIN must be at least 6 digits"%string.

Definition quantitySchema (n : Z) : option string :=
  if n <? 1 then Some "Quantity must be at least 1"%string
  else if 50 <? n then Some "Quantity cannot exceed 50"%string
  else None.

Definition monthSchema (n : Z) : option string :=
  if n <? 1 then Some "Month must be between 1-12"%string
  else if 12 <? n then Some "Month must be between 1-12"%string
  else None.

Definition yearSchema (n : Z) : option string :=
  if n <? 2025 then Some "Year must be 2025 or later"%string
  else if 2035 <? n then Some "Year cannot exceed 2035"%string
  else None.

(** ** The hosted store: tables of the migrations *)

Definition uuid : Type := string.

(** A row of [public.profiles]. *)
Module Profile.
Record t : Type := mk {
  id : uuid;
  user_id : uuid;
  email : option string;
  full_name : option string;
  credits : Z;
  is_admin : bool;
  created_at : Z;
  updated_at : Z
}.
End Profile.

(** A row of [public.api_calls], as a select returns it: [response_data]
    is a JSONB column (a SQL NULL reads as [JNull]), [error_message] a TEXT
    column ([None] is NULL). *)
Module ApiCall.
Record t : Type := mk {
  id : uuid;
  user_id : uuid;
  bin : string;
  quantity : Z;
  credits_used : Z;
  success : bool;
  response_data : Json;
  error_message : option string;
  created_at : Z
}.
End ApiCall.

Record Database : Type := mkDatabase {
  profiles : list Profile.t;
  api_calls : list ApiCall.t
}.

(** The signed-in user of [useAuth()]; [full_name] is
    [user_metadata.full_name]. *)
Module AuthUser.
Record t : Type := mk {
  id : uuid;
  email : option string;
  full_name : option string
}.
End AuthUser.

(** The object literal inserted into [profiles] by [fetchProfile]. *)
Record ProfileInsert : Type := mkProfileInsert {
  pi_user_id : option uuid;
  pi_email : option string;
  pi_full_name : option string;
  pi_credits : Z
}.

(** The object literal inserted into [api_calls] by [makeApiCall]. *)
Record ApiCallInsert : Type := mkApiCallInsert {
  ci_user_id : option uuid;
  ci_bin : string;
  ci_quantity : Z;
  ci_credits_used : Z;
  ci_success : bool;
  ci_response_data : Json;
  ci_error_message : Json
}.

(** The requests the dashboard sends to the store. *)
Inductive Query : Type :=
| SelectProfile (user_id : option uuid)
| InsertProfile (payload : ProfileInsert)
| SelectRecentCalls (user_id : option uuid)
| InsertApiCall (payload : ApiCallInsert)
| UpdateCredits (credits : Z) (user_id : option uuid).

Inductive StoreError : Type :=
| Unavailable        (* the request did not reach the store, or it refused *)
| InvalidFilter      (* [.eq('user_id', undefined)] *)
| MultipleRows       (* [maybeSingle()] over more than one row *)
| NotNullViolation   (* [user_id UUID NOT NULL] *)
| UniqueViolation    (* [user_id UUID NOT NULL UNIQUE] on profiles *)
| OutOfRange.        (* a number that does not fit its INTEGER column *)

(** What a supabase call resolves to: [{ data, error }]. *)
Record PgResponse (A : Type) : Type := mkPgResponse {
  data : option A;
  error : option StoreError
}.
Arguments mkPgResponse {A} _ _.
Arguments data {A} _.
Arguments error {A} _.

Definition pg_ok {A} (a : option A) : PgResponse A := mkPgResponse a None.
Definition pg_err {A} (e : StoreError) : PgResponse A := mkPgResponse None (Some e).

(** ** The dashboard's state and what it does to the outside *)

Inductive ToastText : Type :=
| Text (s : string)
| Generated (n : Json)   (* `Generated ${n} cards successfully` *)
| Value (v : Json).      (* a JavaScript value passed as the description *)

Record ToastMsg : Type := mkToast {
  title : string;
  description : ToastText;
  destructive : bool
}.

Inductive Exn : Type :=
| NetworkError                (* [fetch] rejected *)
| SyntaxError                 (* [response.json()] rejected *)
| TypeError                   (* property read on [null] *)
| PgError (e : StoreError).   (* [throw error] *)

Inductive Event : Type :=
| HttpGet (url : string)
| StoreRequest (q : Query)
| Toast (t : ToastMsg)
| ConsoleError (label : string) (e : Exn).

(** The [useState] cells of the component, with [user] from [useAuth()].
    [month], [year] and [apiUrl] exist in the later revision only. *)
Record Dash : Type := mkDash {
  user : option AuthUser.t;
  profile : option Profile.t;
  recentCalls : list ApiCall.t;
  bin : string;
  quantity : Z;
  month : Z;
  year : Z;
  isLoading : bool;
  errors : gmap string string;
  apiUrl : string
}.

Record World : Type := mkWorld {
  db : Database;
  ui : Dash;
  trace : list Event
}.

(** The two revisions of Dashboard.tsx in the repository. *)
Inductive Revision : Type :=
| FixedUrl          (* bin and quantity; the generator URL is a literal *)
| ConfigurableUrl.  (* adds month, year and the [apiUrl] setting *)

(** What [fetch] resolves to, as far as the program looks at it:
    [response.ok], and the body as [response.json()] parses it ([None]
    when it is not JSON and [json()] rejects). *)
Record Response : Type := mkResponse {
  ok : bool;
  body : option Json
}.

(** What the outside answers during one run. *)
Inductive HttpOutcome : Type :=
| FetchRejects
| FetchResolves (response : Response).

Record Env : Type := mkEnv {
  http : HttpOutcome;
  store_fails : Query → bool;   (* this request is answered with an error, unserved *)
  next_id : uuid;               (* [gen_random_uuid()] *)
  clock : Query → Z;            (* [now()] while this request is served *)
  jsonb : Json → Json;          (* the JSONB normal form of an array or object *)
  as_text : Json → string       (* the text a number, boolean, array or object
                                   becomes in a TEXT column *)
}.

(** ** What the store does with a request it serves

    Every query of the dashboard filters on the caller's own [user_id], so
    the row-level policies (own rows are visible, insertable and updatable)
    let it through; they are not modelled here. The numbers the dashboard
    writes fit their INTEGER columns: a quantity from 1 to 50, a charge of 1,
    a new profile's 0 credits, and a balance that was read from the column,
    minus 1. Whatever else makes the store answer a request with an error,
    a value it cannot keep in a column included, is [store_fails]. *)

Definition profiles_of (u : uuid) (d : Database) : list Profile.t :=
  filter (λ p, Profile.user_id p = u) (profiles d).

Definition calls_of (u : uuid) (d : Database) : list ApiCall.t :=
  filter (λ c, ApiCall.user_id c = u) (api_calls d).

(** [.from('profiles').select('*').eq('user_id', uid).maybeSingle()] *)
Definition select_profile (uid : option uuid) (d : Database) : PgResponse Profile.t :=
  match uid with
  | None => pg_err InvalidFilter
  | Some u =>
      match profiles_of u d with
      | [] => pg_ok None
      | [p] => pg_ok (Some p)
      | _ :: _ :: _ => pg_err MultipleRows
      end
  end.

(** The row a profile literal becomes: the columns it leaves out take
    their defaults ([gen_random_uuid()], [FALSE], [now()]). *)
Definition stored_profile (e : Env) (u : uuid) (x : ProfileInsert) : Profile.t :=
  Profile.mk (next_id e) u (pi_email x) (pi_full_name x) (pi_credits x) false
    (clock e (InsertProfile x)) (clock e (InsertProfile x)).

(** [.from('profiles').insert([x]).select().single()] *)
Definition insert_profile (e : Env) (x : ProfileInsert) (d : Database)
  : PgResponse Profile.t * Database :=
  match pi_user_id x with
  | None => (pg_err NotNullViolation, d)
  | Some u =>
      match profiles_of u d with
      | [] =>
          let row := stored_profile e u x in
          (pg_ok (Some row), mkDatabase (profiles d ++ [row]) (api_calls d))
      | _ :: _ => (pg_err UniqueViolation, d)
      end
  end.

(** What the JSONB column [response_data] keeps of the value sent: [null]
    and the other scalars as they are, an array or object in the store's
    normal form (its keys deduplicated and reordered), which is the
    environment's. *)
Definition jsonb_column (e : Env) (v : Json) : Json :=
  match v with
  | JArr _ | JObj _ => jsonb e v
  | JNull | JBool _ | JNum _ | JStr _ => v
  end.

(** What the TEXT column [error_message] keeps of the value sent: NULL for
    [null], a string as it is, and any other value as the text the store
    makes of it. *)
Definition text_column (e : Env) (v : Json) : option string :=
  match v with
  | JNull => None
  | JStr s => Some s
  | JBool _ | JNum _ | JArr _ | JObj _ => Some (as_text e v)
  end.

(** The row a call literal becomes: the columns it leaves out take their
    defaults ([gen_random_uuid()], [now()]), and the two JSON values are
    stored as their columns keep them. *)
Definition stored_call (e : Env) (u : uuid) (x : ApiCallInsert) : ApiCall.t :=
  ApiCall.mk (next_id e) u (ci_bin x) (ci_quantity x) (ci_credits_used x)
    (ci_success x) (jsonb_column e (ci_response_data x))
    (text_column e (ci_error_message x)) (clock e (InsertApiCall x)).

(** [.from('api_calls').insert([x])] *)
Definition insert_api_call (e : Env) (x : ApiCallInsert) (d : Database)
  : PgResponse unit * Database :=
  match ci_user_id x with
  | None => (pg_err NotNullViolation, d)
  | Some u =>
      let row := stored_call e u x in
      (pg_ok None, mkDatabase (profiles d) (api_calls d ++ [row]))
  end.

(** [p] with the balance [c], stamped by the update that wrote it (which
    filtered on the [user_id] of [p]). *)
Definition set_credits (e : Env) (c : Z) (p : Profile.t) : Profile.t :=
  Profile.mk (Profile.id p) (Profile.user_id p) (Profile.email p)
    (Profile.full_name p) c (Profile.is_admin p) (Profile.created_at p)
    (clock e (UpdateCredits c (Some (Profile.user_id p)))).

(** [UPDATE profiles SET credits = c WHERE user_id = u]; the trigger
    [update_profiles_updated_at] stamps the rows it changes. *)
Definition credited (e : Env) (c : Z) (u : uuid) (rows : list Profile.t)
  : list Profile.t :=
  map (λ p, if bool_decide (Profile.user_id p = u) then set_credits e c p else p) rows.

(** [.from('profiles').update({ credits: c }).eq('user_id', uid)] *)
Definition update_credits (e : Env) (c : Z) (uid : option uuid) (d : Database)
  : PgResponse unit * Database :=
  match uid with
  | None => (pg_err InvalidFilter, d)
  | Some u => (pg_ok None, mkDatabase (credited e c u (profiles d)) (api_calls d))
  end.

(** [ORDER BY created_at DESC]: [a] may come before [b]. *)
Definition newer_first : relation ApiCall.t :=
  λ a b, ApiCall.created_at b ≤ ApiCall.created_at a.

Global Instance newer_first_dec : RelDecision newer_first.
Proof. intros a b. unfold newer_first. apply _. Defined.

(** [.from('api_calls').select('*').eq('user_id', uid)
      .order('created_at', { ascending: false }).limit(5)];
    rows of equal [created_at] come in the order the merge sort leaves
    them in, one of the orders the store may choose. *)
Definition select_recent_calls (uid : option uuid) (d : Database)
  : PgResponse (list ApiCall.t) :=
  match uid with
  | None => pg_err InvalidFilter
  | Some u => pg_ok (Some (take 5 (merge_sort newer_first (calls_of u d))))
  end.

(** ** A monad for the component's code: state, trace and exceptions *)

Inductive Result (A : Type) : Type :=
| Normal (a : A)
| Thrown (e : Exn).
Arguments Normal {A} _.
Arguments Thrown {A} _.

Definition M (A : Type) : Type := World → Result A * World.

Global Instance M_ret : MRet M := λ A a w, (Normal a, w).

Global Instance M_bind : MBind M := λ A B f m w,
  match m w with
  | (Normal a, w') => f a w'
  | (Thrown e, w') => (Thrown e, w')
  end.

Definition throw {A} (e : Exn) : M A := λ w, (Thrown e, w).

(** [try { body } catch (error) { handler }] *)
Definition try_catch {A} (body : M A) (handler : Exn → M A) : M A := λ w,
  match body w with
  | (Normal a, w') => (Normal a, w')
  | (Thrown e, w') => handler e w'
  end.

(** [try { body } catch (error) { handler } finally { final }] *)
Definition try_catch_finally {A} (body : M A) (handler : Exn → M A) (final : M unit)
  : M A := λ w,
  let '(r, w1) := try_catch body handler w in
  match final w1 with
  | (Normal _, w2) => (r, w2)
  | (Thrown e, w2) => (Thrown e, w2)
  end.

Definition emit (ev : Event) : M unit := λ w,
  (Normal (), mkWorld (db w) (ui w) (trace w ++ [ev])).

Definition get_ui : M Dash := λ w, (Normal (ui w), w).

Definition set_ui (f : Dash → Dash) : M unit := λ w,
  (Normal (), mkWorld (db w) (f (ui w)) (trace w)).

Definition toast (t : ToastMsg) : M unit := emit (Toast t).

Definition console_error (label : string) (e : Exn) : M unit :=
  emit (ConsoleError label e).

(** The [useState] setters. *)
Definition with_profile (f : option Profile.t → option Profile.t) (s : Dash) : Dash :=
  mkDash (user s) (f (profile s)) (recentCalls s) (bin s) (quantity s) (month s)
    (year s) (isLoading s) (errors s) (apiUrl s).

Definition with_recentCalls (l : list ApiCall.t) (s : Dash) : Dash :=
  mkDash (user s) (profile s) l (bin s) (quantity s) (month s) (year s)
    (isLoading s) (errors s) (apiUrl s).

Definition with_isLoading (b : bool) (s : Dash) : Dash :=
  mkDash (user s) (profile s) (recentCalls s) (bin s) (quantity s) (month s)
    (year s) b (errors s) (apiUrl s).

Definition with_errors (m : gmap string string) (s : Dash) : Dash :=
  mkDash (user s) (profile s) (recentCalls s) (bin s) (quantity s) (month s)
    (year s) (isLoading s) m (apiUrl s).

Definition setProfile (f : option Profile.t → option Profile.t) : M unit :=
  set_ui (with_profile f).
Definition setRecentCalls (l : list ApiCall.t) : M unit := set_ui (with_recentCalls l).
Definition setIsLoading (b : bool) : M unit := set_ui (with_isLoading b).
Definition setErrors (m : gmap string string) : M unit := set_ui (with_errors m).

(** [{ ...prev, credits: prev.credits - 1 }] *)
Definition spend_one (prev : Profile.t) : Profile.t :=
  Profile.mk (Profile.id prev) (Profile.user_id prev) (Profile.email prev)
    (Profile.full_name prev) (Profile.credits prev - 1) (Profile.is_admin prev)
    (Profile.created_at prev) (Profile.updated_at prev).

(** [s || null] for an optional string. *)
Definition or_null (s : option string) : option string :=
  match s with
  | Some x => if String.eqb x "" then None else Some x
  | None => None
  end.

(** [record.k = m] when the parse failed. *)
Definition note (k : string) (r : option string) (m : gmap string string)
  : gmap string string :=
  match r with
  | Some msg => <[k := msg]> m
  | None => m
  end.

(** ** The component: Dashboard.tsx *)

Section Dashboard.
Context (rev : Revision) (env : Env).

(** What the store answers to a request and the tables it is left with:
    an error and no change, or what serving the request gives. *)
Definition answer {A} (q : Query) (serve : Database → PgResponse A * Database)
  (d : Database) : PgResponse A * Database :=
  if store_fails env q then (pg_err Unavailable, d) else serve d.

(** [await supabase.from(...)...]: the request goes out and the promise
    resolves to the store's answer; it never rejects. *)
Definition supabase {A} (q : Query) (serve : Database → PgResponse A * Database)
  : M (PgResponse A) := λ w,
  let '(r, d) := answer q serve (db w) in
  (Normal r, mkWorld d (ui w) (trace w ++ [StoreRequest q])).

(** [await fetch(url)] *)
Definition fetch (url : string) : M Response :=
  emit (HttpGet url);;
  match http env with
  | FetchRejects => throw NetworkError
  | FetchResolves response => mret response
  end.

(** [await response.json()] *)
Definition json (response : Response) : M Json :=
  match body response with
  | Some v => mret v
  | None => throw SyntaxError
  end.

(** [v.k], which throws on [null]. *)
Definition prop (v : Json) (k : string) : M (option Json) :=
  if is_null v then throw TypeError else mret (opt_chain v k).

(** [user?.id] *)
Definition user_id_of (s : Dash) : option uuid := AuthUser.id <$> user s.

Definition insufficient_credits : ToastMsg :=
  mkToast "Insufficient credits"
    (Text "You need at least 1 credit to make an API call") true.

Definition request_failed : ToastMsg :=
  mkToast "Request failed" (Text "Failed to make API call") true.

Definition profile_load_failed : ToastMsg :=
  mkToast "Error" (Text "Failed to load profile data") true.

(** The literal inserted for a user without a profile. *)
Definition profile_record (s : Dash) : ProfileInsert :=
  mkProfileInsert (user_id_of s) (user s ≫= AuthUser.email)
    (or_null (user s ≫= AuthUser.full_name)) 0.

(** [fetchProfile] (Dashboard.tsx, lines 53-91). *)
Definition fetchProfile : M unit :=
  try_catch
    (s ← get_ui;
     r ← supabase (SelectProfile (user_id_of s))
           (λ d, (select_profile (user_id_of s) d, d));
     match error r with
     | Some e => throw (PgError e)
     | None =>
         match data r with
         | None =>
             (* Create profile if it doesn't exist *)
             let x := profile_record s in
             r' ← supabase (InsertProfile x) (insert_profile env x);
             match error r' with
             | Some e => throw (PgError e)
             | None => setProfile (λ _, data r')
             end
         | Some p => setProfile (λ _, Some p)
         end
     end)
    (λ e,
       console_error "Error fetching profile:" e;;
       toast profile_load_failed).

(** [fetchRecentCalls] (Dashboard.tsx, lines 93-107). *)
Definition fetchRecentCalls : M unit :=
  try_catch
    (s ← get_ui;
     r ← supabase (SelectRecentCalls (user_id_of s))
           (λ d, (select_recent_calls (user_id_of s) d, d));
     match error r with
     | Some e => throw (PgError e)
     | None => setRecentCalls (default [] (data r))
     end)
    (λ e, console_error "Error fetching recent calls:" e).

(** The record [newErrors] that [validateInputs] builds. *)
Definition field_errors (s : Dash) : gmap string string :=
  let newErrors : gmap string string := ∅ in
  let newErrors := note "bin" (binSchema (bin s)) newErrors in
  let newErrors := note "quantity" (quantitySchema (quantity s)) newErrors in
  match rev with
  | FixedUrl => newErrors
  | ConfigurableUrl =>
      let newErrors := note "month" (monthSchema (month s)) newErrors in
      let newErrors := note "year" (yearSchema (year s)) newErrors in
      newErrors
  end.

(** [validateInputs] (Dashboard.tsx, lines 109-124; with month and year in
    the later revision). *)
Definition validateInputs : M bool :=
  s ← get_ui;
  let newErrors := field_errors s in
  setErrors newErrors;;
  mret (size newErrors =? 0)%nat.

(** The template literal passed to [fetch]. The numbers it prints have
    passed validation, so they print as plain decimals. *)
Definition request_url (s : Dash) : string :=
  match rev with
  | FixedUrl =>
      "https://cc.yeasirar.xyz/gen?bin=" +:+ bin s +:+ "&qty=" +:+ pretty (quantity s)
  | ConfigurableUrl =>
      apiUrl s +:+ "?bin=" +:+ bin s +:+ "&qty=" +:+ pretty (quantity s)
        +:+ "&mon=" +:+ pretty (month s) +:+ "&yr=" +:+ pretty (year s)
  end.

(** The literal logged for one call. *)
Definition call_record (s : Dash) (success : bool) (responseData : Json)
  : ApiCallInsert :=
  mkApiCallInsert (user_id_of s) (bin s) (quantity s) 1 success
    (if success then responseData else JNull)
    (if success then JNull
     else js_or (opt_chain responseData "error") (JStr "Unknown error")).

(** [makeApiCall] (Dashboard.tsx, lines 126-194). The results of the two
    writes to the store are not looked at. *)
Definition makeApiCall : M unit :=
  (* [s]: the values of this render, which the closure reads throughout *)
  s ← get_ui;
  valid ← validateInputs;
  if negb valid then mret () else
  match profile s with
  | None => toast insufficient_credits
  | Some p =>
      if Profile.credits p <? 1 then toast insufficient_credits else
      setIsLoading true;;
      try_catch_finally
        ((* Make API call to external service *)
         response ← fetch (request_url s);
         responseData ← json response;
         let success := ok response in
         (* Log the API call *)
         supabase (InsertApiCall (call_record s success responseData))
           (insert_api_call env (call_record s success responseData));;
         (if success then
            (* Deduct credit *)
            supabase (UpdateCredits (Profile.credits p - 1) (user_id_of s))
              (update_credits env (Profile.credits p - 1) (user_id_of s));;
            setProfile (fmap spend_one);;
            found ← prop responseData "live_cards_found";
            toast (mkToast "Success!"
                     (Generated (js_or found (JNum (quantity s)))) false)
          else
            toast (mkToast "API call failed"
                     (Value (js_or (opt_chain responseData "error")
                               (JStr "Unknown error occurred"))) true));;
         fetchRecentCalls)
        (λ e,
           console_error "API call error:" e;;
           toast request_failed)
        (setIsLoading false)
  end.

End Dashboard.

(** ** The admin panel: AdminPanel.tsx, [fetchStats] *)

Record ApiCallStats : Type := mkStats {
  total_calls : Z;
  successful_calls : Z;
  failed_calls : Z;
  total_credits_used : Z
}.

(** A row of [.from('api_calls').select('success, credits_used')]. *)
Module StatRow.
Record t : Type := mk {
  success : bool;
  credits_used : Z
}.
End StatRow.

(** The callback given to [reduce]. *)
Definition tally (acc : ApiCallStats) (call : StatRow.t) : ApiCallStats :=
  let acc := mkStats (total_calls acc + 1) (successful_calls acc) (failed_calls acc)
               (total_credits_used acc) in
  let acc := mkStats (total_calls acc) (successful_calls acc) (failed_calls acc)
               (total_credits_used acc + StatRow.credits_used call) in
  if StatRow.success call then
    mkStats (total_calls acc) (successful_calls acc + 1) (failed_calls acc)
      (total_credits_used acc)
  else
    mkStats (total_calls acc) (successful_calls acc) (failed_calls acc + 1)
      (total_credits_used acc).

Definition no_calls : ApiCallStats := mkStats 0 0 0 0.

(** [fetchStats] (AdminPanel.tsx), given what the query resolved to and the
    [stats] cell; it returns the cell and what it wrote to the console. *)
Definition fetchStats (r : PgResponse (list StatRow.t)) (stats : option ApiCallStats)
  : option ApiCallStats * list Event :=
  match error r with
  | Some e => (stats, [ConsoleError "Error fetching stats:" (PgError e)])
  | None =>
      let stats :=
        match data r with
        | Some rows => fold_left tally rows no_calls
        | None => no_calls
        end in
      (Some stats, [])
  end.

(** ** The migration: [public.is_admin(user_id uuid)]

    [SELECT EXISTS (SELECT 1 FROM public.profiles
       WHERE profiles.user_id = is_admin.user_id AND profiles.is_admin = true)];
    a NULL argument compares equal to nothing. *)
Definition is_admin (d : Database) (user_id : option uuid) : bool :=
  match user_id with
  | None => false
  | Some u =>
      existsb
        (λ p, bool_decide (Profile.user_id p = u) && bool_decide (Profile.is_admin p = true))
        (profiles d)
  end.

(** ** Reading a trace *)

Definition http_of (ev : Event) : option string :=
  match ev with HttpGet url => Some url | _ => None end.

Definition call_insert_of (ev : Event) : option ApiCallInsert :=
  match ev with StoreRequest (InsertApiCall x) => Some x | _ => None end.

Definition credit_update_of (ev : Event) : option (Z * option uuid) :=
  match ev with StoreRequest (UpdateCredits c u) => Some (c, u) | _ => None end.

Definition profile_insert_of (ev : Event) : option ProfileInsert :=
  match ev with StoreRequest (InsertProfile x) => Some x | _ => None end.

Definition store_request_of (ev : Event) : option Query :=
  match ev with StoreRequest q => Some q | _ => None end.

Definition toast_of (ev : Event) : option ToastMsg :=
  match ev with Toast t => Some t | _ => None end.

(** URLs fetched, call records sent for insertion, balance updates sent. *)
Definition http_requests (t : list Event) : list string := omap http_of t.
Definition call_inserts (t : list Event) : list ApiCallInsert := omap call_insert_of t.
Definition credit_updates (t : list Event) : list (Z * option uuid) :=
  omap credit_update_of t.
Definition profile_inserts (t : list Event) : list ProfileInsert :=
  omap profile_insert_of t.
Definition store_requests (t : list Event) : list Query := omap store_request_of t.
Definition toasts (t : list Event) : list ToastMsg := omap toast_of t.

(** The world a run ends in. *)
Definition after {A} (m : M A) (w : World) : World := snd (m w).

(** What the store answers to the query of [fetchRecentCalls]. *)
Definition recent_answer (env : Env) (w : World) : PgResponse (list ApiCall.t) :=
  fst (answer env (SelectRecentCalls (user_id_of (ui w)))
         (λ d, (select_recent_calls (user_id_of (ui w)) d, d)) (db w)).

(** The exception that the two awaited calls to the generator end in, if
    any: [fetch] rejects, or the body is not JSON. *)
Definition call_exception (h : HttpOutcome) : option Exn :=
  match h with
  | FetchRejects => Some NetworkError
  | FetchResolves response =>
      match body response with
      | Some _ => None
      | None => Some SyntaxError
      end
  end.

(** The schema's [UNIQUE] constraint on [profiles.user_id]. *)
Definition unique_user_ids (d : Database) : Prop :=
  NoDup (Profile.user_id <$> profiles d).

Arguments field_errors : simpl never.
Arguments request_url : simpl never.
Arguments user_id_of : simpl never.
Arguments answer : simpl never.
Arguments call_record : simpl never.
Arguments select_recent_calls : simpl never.

Ltac step_component :=
  unfold after, makeApiCall, try_catch_finally, try_catch, fetch, json, prop,
    toast, console_error, emit, setProfile, setIsLoading, setRecentCalls, setErrors,
    set_ui, get_ui, throw, mbind, M_bind, mret, M_ret.

Ltac read_trace :=
  unfold call_inserts, credit_updates, http_requests, toasts, store_requests,
    profile_inserts;
  rewrite ?omap_app; simpl; rewrite ?app_nil_r.

(** ** Vocabulary of the statements *)

(** A string of decimal digits, at least six of them. *)
Definition decimal_digit (c : Ascii.ascii) : Prop :=
  (48 ≤ Ascii.nat_of_ascii c ≤ 57)%nat.

Definition valid_bin (s : string) : Prop :=
  Forall decimal_digit (String.list_ascii_of_string s) ∧ (6 ≤ String.length s)%nat.

(** The constraints of a revision on the form's fields. *)
Definition constraints (rev : Revision) (s : Dash) : Prop :=
  valid_bin (bin s) ∧ 1 ≤ quantity s ≤ 50 ∧
  match rev with
  | FixedUrl => True
  | ConfigurableUrl => 1 ≤ month s ≤ 12 ∧ 2025 ≤ year s ≤ 2035
  end.

(** ** Sample data: one user, with a given balance and form contents *)

Definition alice : AuthUser.t := AuthUser.mk "u-1" (Some "alice@example.org") (Some "Alice").

Definition alice_profile (balance : Z) : Profile.t :=
  Profile.mk "p-1" "u-1" (Some "alice@example.org") (Some "Alice") balance false 100 100.

Definition form (balance : Z) (prefix : string) (qty mon yr : Z) : Dash :=
  mkDash (Some alice) (Some (alice_profile balance)) [] prefix qty mon yr false ∅
    "https://cc.yeasirar.xyz/gen".

Definition world (balance : Z) (prefix : string) (qty mon yr : Z) : World :=
  mkWorld (mkDatabase [alice_profile balance] []) (form balance prefix qty mon yr) [].

(** The sample store: the time of each kind of request, with the balance
    update of a run after its insert; the documents of the samples are in
    normal form already; a value that is no string is not spelled out. *)
Definition served_at (t : Z) (q : Query) : Z :=
  match q with
  | UpdateCredits _ _ => t + 1
  | _ => t
  end.

Definition keep : Json → Json := λ v, v.
Definition unspelled : Json → string := λ _, "(text)"%string.

(** A store that serves every request, and one that serves none. *)
Definition healthy (h : HttpOutcome) : Env :=
  mkEnv h (λ _, false) "c-1" (served_at 200) keep unspelled.
Definition offline : Env :=
  mkEnv FetchRejects (λ _, true) "c-1" (served_at 200) keep unspelled.

Definition generated : Json := JObj [("live_cards_found"%string, JNum 7)].
Definition refused : Json := JObj [("error"%string, JStr "BIN not supported")].

(** More sample data: a second user, and a call of a given user and time. *)
Definition bob_profile : Profile.t :=
  Profile.mk "p-2" "u-2" (Some "bob@example.org") None 5 true 50 50.

Definition call_at (id owner : uuid) (at_time : Z) : ApiCall.t :=
  ApiCall.mk id owner "401658" 10 1 true JNull None at_time.

Definition newcomer : World :=
  mkWorld (mkDatabase [bob_profile] [])
    (mkDash (Some alice) None [] "" 10 12 2028 false ∅ "https://cc.yeasirar.xyz/gen") [].

Definition busy : World :=
  mkWorld
    (mkDatabase [alice_profile 3; bob_profile]
       [call_at "c-1" "u-1" 10; call_at "c-2" "u-2" 20; call_at "c-3" "u-1" 30;
        call_at "c-4" "u-1" 25; call_at "c-5" "u-1" 5; call_at "c-6" "u-1" 40;
        call_at "c-7" "u-1" 35])
    (form 3 "401658" 10 12 2028) [].

(** ** More vocabulary: the balance in memory and the stored balance *)

(** The balance the component shows is the stored balance of the signed-in
    user. *)
Definition in_sync (w : World) : Prop :=
  ∀ u p, user (ui w) = Some u → profile (ui w) = Some p →
    Forall (λ q, Profile.user_id q = AuthUser.id u →
                 Profile.credits q = Profile.credits p)
      (profiles (db w)).

(** What a run sends to the generator and, of the ledger's writes, to the
    store, in the order it is sent. *)
Inductive Sent : Type :=
| ToGenerator (url : string)
| CallRecord (x : ApiCallInsert)
| BalanceUpdate (credits : Z) (user_id : option uuid).

Definition sent_of (ev : Event) : option Sent :=
  match ev with
  | HttpGet url => Some (ToGenerator url)
  | StoreRequest (InsertApiCall x) => Some (CallRecord x)
  | StoreRequest (UpdateCredits c u) => Some (BalanceUpdate c u)
  | _ => None
  end.

Definition sent (t : list Event) : list Sent := omap sent_of t.


(** A store that refuses call records and serves everything else. *)
Definition unlogged (h : HttpOutcome) : Env :=
  mkEnv h (λ q, if q is InsertApiCall _ then true else false) "c-1" (served_at 200)
    keep unspelled.

(** A component whose balance in memory, 3, is behind the stored one, 103. *)
Definition stale : World :=
  mkWorld (mkDatabase [alice_profile 103] []) (form 3 "401658" 10 12 2028) [].

(** The same form with nobody signed in. *)
Definition signed_out : World :=
  mkWorld (mkDatabase [alice_profile 3] [])
    (mkDash None (Some (alice_profile 3)) [] "401658" 10 12 2028 false ∅
       "https://cc.yeasirar.xyz/gen") [].

(** A store that serves every request, at a later time. *)
Definition later (h : HttpOutcome) : Env :=
  mkEnv h (λ _, false) "c-8" (served_at 300) keep unspelled.

(** * The rest of the application: settings, policies, admin panel, page shell *)

(** ** The settings table ([public.api_settings]) *)

Module Setting.
Record t : Type := mk {
  id : uuid;
  setting_key : string;
  setting_value : string;
  description : option string;
  created_at : Z;
  updated_at : Z
}.
End Setting.

Record Store : Type := mkStore {
  tables : Database;
  api_settings : list Setting.t
}.

(** ** The row-level policies of the migrations

    [uid] is [auth.uid()], NULL without a session. Policies on one table and
    command are alternatives. *)

(** [auth.uid() = user_id] *)
Definition is_own (uid : option uuid) (owner : uuid) : bool :=
  bool_decide (uid = Some owner).

(** "Users can view their own profile", "Admins can view all profiles". *)
Definition profile_visible (d : Database) (uid : option uuid) (p : Profile.t) : bool :=
  is_own uid (Profile.user_id p) || is_admin d uid.

(** "Users can update their own profile", "Admins can update any profile";
    neither names a column. *)
Definition profile_updatable (d : Database) (uid : option uuid) (p : Profile.t) : bool :=
  is_own uid (Profile.user_id p) || is_admin d uid.

(** "Users can view their own API calls", "Admins can view all API calls". *)
Definition call_visible (d : Database) (uid : option uuid) (c : ApiCall.t) : bool :=
  is_own uid (ApiCall.user_id c) || is_admin d uid.

(** "Admins can view / insert / update / delete API settings". *)
Definition settings_allowed (d : Database) (uid : option uuid) : bool :=
  is_admin d uid.

Definition visible_profiles (uid : option uuid) (d : Database) : list Profile.t :=
  filter (λ p, profile_visible d uid p = true) (profiles d).

Definition visible_calls (uid : option uuid) (d : Database) : list ApiCall.t :=
  filter (λ c, call_visible d uid c = true) (api_calls d).

Definition visible_settings (uid : option uuid) (st : Store) : list Setting.t :=
  if settings_allowed (tables st) uid then api_settings st else [].

(** ** Requests, notifications and exceptions of the other components *)

Inductive Request : Type :=
| SelectUsers
| UpdateProfileCredits (amount : Z) (target : uuid)
| UpdateProfileAdmin (flag : bool) (target : uuid)
| SelectSettings
| UpdateSetting (value : option string) (key : string)
| SelectApiUrl
| SelectAdminFlag (target : option uuid).

Inductive Notice : Type :=
| Plain (heading text : string) (alarm : bool)
| CreditsAdded (n : Z)      (* "Credits added", `Successfully added ${n} credits to user` *)
| CreditsSet (n : Z)        (* "Credits updated", `Credits set to ${n}` *)
| AdminStatus (granted : bool).
    (* "Admin status updated", `User ${granted ? 'granted' : 'removed'} admin access` *)

Inductive Failure : Type :=
| Rejected (e : StoreError)   (* [throw error] *)
| UserNotFound.               (* [throw new Error('User not found')] *)

Inductive Entry : Type :=
| Asked (r : Request)
| Notified (n : Notice)
| Complained (label : string) (e : Failure).

(** What the outside decides: which requests the store answers with an
    error, unserved; how its collation orders two texts; its clock. *)
Record Conditions : Type := mkConditions {
  refuses : Request → bool;
  collate : string → string → bool;
  now : Z
}.

(** A component with cells of type [C], the store, and the trace. *)
Record Site (C : Type) : Type := mkSite {
  store : Store;
  cells : C;
  notes : list Entry
}.
Arguments mkSite {C} _ _ _.
Arguments store {C} _.
Arguments cells {C} _.
Arguments notes {C} _.

Inductive Outcome (A : Type) : Type :=
| Done (a : A)
| Failed (e : Failure).
Arguments Done {A} _.
Arguments Failed {A} _.

Definition Act (C A : Type) : Type := Site C → Outcome A * Site C.

Global Instance Act_ret C : MRet (Act C) := λ A a w, (Done a, w).

Global Instance Act_bind C : MBind (Act C) := λ A B f m w,
  match m w with
  | (Done a, w') => f a w'
  | (Failed e, w') => (Failed e, w')
  end.

Definition raise {C A} (e : Failure) : Act C A := λ w, (Failed e, w).

(** [try { body } catch (error) { handler }] *)
Definition attempt {C A} (body : Act C A) (handler : Failure → Act C A) : Act C A :=
  λ w,
  match body w with
  | (Done a, w') => (Done a, w')
  | (Failed e, w') => handler e w'
  end.

(** [try { body } catch (error) { handler } finally { final }] *)
Definition attempt_finally {C A} (body : Act C A) (handler : Failure → Act C A)
  (final : Act C unit) : Act C A := λ w,
  let '(r, w1) := attempt body handler w in
  match final w1 with
  | (Done _, w2) => (r, w2)
  | (Failed e, w2) => (Failed e, w2)
  end.

Definition entry {C} (en : Entry) : Act C unit := λ w,
  (Done (), mkSite (store w) (cells w) (notes w ++ [en])).

Definition notify {C} (n : Notice) : Act C unit := entry (Notified n).

Definition complain {C} (label : string) (e : Failure) : Act C unit :=
  entry (Complained label e).

Definition cell {C} : Act C C := λ w, (Done (cells w), w).

Definition assign {C} (f : C → C) : Act C unit := λ w,
  (Done (), mkSite (store w) (f (cells w)) (notes w)).

(** [await supabase.from(...)...] *)
Definition ask {C A} (cond : Conditions) (r : Request)
  (serve : Store → PgResponse A * Store) : Act C (PgResponse A) := λ w,
  let '(a, st) := if refuses cond r then (pg_err Unavailable, store w)
                  else serve (store w) in
  (Done a, mkSite st (cells w) (notes w ++ [Asked r])).

(** The site a run ends in. *)
Definition ending {C A} (m : Act C A) (w : Site C) : Site C := snd (m w).

Definition asked_of (en : Entry) : option Request :=
  match en with Asked r => Some r | _ => None end.

Definition notice_of (en : Entry) : option Notice :=
  match en with Notified n => Some n | _ => None end.

Definition requests (t : list Entry) : list Request := omap asked_of t.
Definition notices (t : list Entry) : list Notice := omap notice_of t.

(** ** What the store does with these requests *)

(** [ORDER BY created_at DESC] on profiles. *)
Definition newest_profile_first : relation Profile.t :=
  λ a b, Profile.created_at b ≤ Profile.created_at a.

Global Instance newest_profile_first_dec : RelDecision newest_profile_first.
Proof. intros a b. unfold newest_profile_first. apply _. Defined.

(** [.from('profiles').select('*').order('created_at', { ascending: false })] *)
Definition select_users (uid : option uuid) (st : Store) : list Profile.t :=
  merge_sort newest_profile_first (visible_profiles uid (tables st)).

Definition stamp_credits (t c : Z) (p : Profile.t) : Profile.t :=
  Profile.mk (Profile.id p) (Profile.user_id p) (Profile.email p)
    (Profile.full_name p) c (Profile.is_admin p) (Profile.created_at p) t.

Definition stamp_admin (t : Z) (b : bool) (p : Profile.t) : Profile.t :=
  Profile.mk (Profile.id p) (Profile.user_id p) (Profile.email p)
    (Profile.full_name p) (Profile.credits p) b (Profile.created_at p) t.

(** [.from('profiles').update(...).eq('user_id', target)]: the rows of
    [target] that the policies let the session update are changed by [f];
    the others are passed over without an error. *)
Definition update_profiles (uid : option uuid) (target : uuid)
  (f : Profile.t → Profile.t) (st : Store) : Store :=
  mkStore
    (mkDatabase
       (map (λ p, if bool_decide (Profile.user_id p = target)
                     && profile_updatable (tables st) uid p
                  then f p else p)
            (profiles (tables st)))
       (api_calls (tables st)))
    (api_settings st).

(** The range of an INTEGER column, which [profiles.credits] is. *)
Definition int4 (n : Z) : bool := (-2147483648 <=? n) && (n <=? 2147483647).

(** [.from('profiles').update({ credits: amount }).eq('user_id', target)].
    An amount outside the range of the column cannot be written: when the
    update has a row to write it to, the store answers with an error and
    changes nothing. When it has none, whether the store answers with that
    error all the same is not settled here; that answer is among those of
    [refuses]. *)
Definition update_profile_credits (t : Z) (uid : option uuid) (target : uuid)
  (amount : Z) (st : Store) : PgResponse unit * Store :=
  if negb (int4 amount)
     && existsb (λ p, bool_decide (Profile.user_id p = target)
                      && profile_updatable (tables st) uid p)
          (profiles (tables st))
  then (pg_err OutOfRange, st)
  else (pg_ok None, update_profiles uid target (stamp_credits t amount) st).

(** [.from('api_calls').select('success, credits_used')] *)
Definition call_stats (uid : option uuid) (st : Store) : list StatRow.t :=
  (λ c, StatRow.mk (ApiCall.success c) (ApiCall.credits_used c))
    <$> visible_calls uid (tables st).

(** [ORDER BY setting_key ASC], in the store's collation. *)
Definition key_order (cond : Conditions) : relation Setting.t :=
  λ a b, collate cond (Setting.setting_key a) (Setting.setting_key b) = true.

Global Instance key_order_dec cond : RelDecision (key_order cond).
Proof. intros a b. unfold key_order. apply _. Defined.

(** [.from('api_settings').select('*').order('setting_key', { ascending: true })] *)
Definition select_settings (cond : Conditions) (uid : option uuid) (st : Store)
  : list Setting.t :=
  merge_sort (key_order cond) (visible_settings uid st).

Definition stamp_value (t : Z) (v : string) (s : Setting.t) : Setting.t :=
  Setting.mk (Setting.id s) (Setting.setting_key s) v (Setting.description s)
    (Setting.created_at s) t.

(** [.from('api_settings').update({ setting_value: v }).eq('setting_key', key)];
    an [undefined] value leaves the literal empty, and nothing is updated. *)
Definition update_setting (cond : Conditions) (uid : option uuid) (v : option string)
  (key : string) (st : Store) : Store :=
  match v with
  | None => st
  | Some v =>
      if settings_allowed (tables st) uid then
        mkStore (tables st)
          (map (λ s, if bool_decide (Setting.setting_key s = key)
                     then stamp_value (now cond) v s else s)
               (api_settings st))
      else st
  end.

(** [.from('api_settings').select('setting_value')
      .eq('setting_key', 'api_base_url').maybeSingle()] *)
Definition select_api_url (uid : option uuid) (st : Store) : PgResponse string :=
  match filter (λ s, Setting.setting_key s = "api_base_url") (visible_settings uid st) with
  | [] => pg_ok None
  | [s] => pg_ok (Some (Setting.setting_value s))
  | _ :: _ :: _ => pg_err MultipleRows
  end.

(** [.from('profiles').select('is_admin').eq('user_id', target).maybeSingle()] *)
Definition select_admin_flag (uid target : option uuid) (st : Store) : PgResponse bool :=
  match target with
  | None => pg_err InvalidFilter
  | Some u =>
      match filter (λ p, Profile.user_id p = u) (visible_profiles uid (tables st)) with
      | [] => pg_ok None
      | [p] => pg_ok (Some (Profile.is_admin p))
      | _ :: _ :: _ => pg_err MultipleRows
      end
  end.

(** ** The admin panel: AdminPanel.tsx *)

Module AdminPanel.

(** The [useState] cells of the component. *)
Record Panel : Type := mkPanel {
  users : list Profile.t;
  stats : option ApiCallStats;
  selectedUser : string;
  creditsToAdd : Z;
  isLoading : bool;
  apiSettings : list Setting.t;
  editingSettings : gmap string string
}.

Definition set_users (l : list Profile.t) (s : Panel) : Panel :=
  mkPanel l (stats s) (selectedUser s) (creditsToAdd s) (isLoading s) (apiSettings s)
    (editingSettings s).

Definition set_selectedUser (v : string) (s : Panel) : Panel :=
  mkPanel (users s) (stats s) v (creditsToAdd s) (isLoading s) (apiSettings s)
    (editingSettings s).

Definition set_creditsToAdd (n : Z) (s : Panel) : Panel :=
  mkPanel (users s) (stats s) (selectedUser s) n (isLoading s) (apiSettings s)
    (editingSettings s).

Definition set_isLoading (b : bool) (s : Panel) : Panel :=
  mkPanel (users s) (stats s) (selectedUser s) (creditsToAdd s) b (apiSettings s)
    (editingSettings s).

Definition set_apiSettings (l : list Setting.t) (s : Panel) : Panel :=
  mkPanel (users s) (stats s) (selectedUser s) (creditsToAdd s) (isLoading s) l
    (editingSettings s).

Definition set_editingSettings (m : gmap string string) (s : Panel) : Panel :=
  mkPanel (users s) (stats s) (selectedUser s) (creditsToAdd s) (isLoading s)
    (apiSettings s) m.

(** [initialValues[setting.setting_key] = setting.setting_value]: an
    assignment, which for the key [__proto__] reaches the prototype's setter
    and is ignored, the value being a string. *)
Definition record_value (m : gmap string string) (s : Setting.t) : gmap string string :=
  if bool_decide (Setting.setting_key s = "__proto__") then m
  else <[Setting.setting_key s := Setting.setting_value s]> m.

(** [initialValues], as the [forEach] fills it. *)
Definition initial_values (rows : list Setting.t) : gmap string string :=
  fold_left record_value rows ∅.

Section Session.
Context (uid : option uuid) (cond : Conditions).

(** [fetchUsers] (lines 55-72). *)
Definition fetchUsers : Act Panel unit :=
  attempt
    (r ← ask cond SelectUsers (λ st, (pg_ok (Some (select_users uid st)), st));
     match error r with
     | Some e => raise (Rejected e)
     | None => assign (set_users (default [] (data r)))
     end)
    (λ e,
       complain "Error fetching users:" e;;
       notify (Plain "Error" "Failed to load users" true)).

(** [addCredits] (lines 109-150). *)
Definition addCredits : Act Panel unit :=
  s ← cell;
  if String.eqb (selectedUser s) "" || (creditsToAdd s <=? 0) then
    notify (Plain "Invalid input"
              "Please select a user and enter a valid credit amount" true)
  else
    assign (set_isLoading true);;
    attempt_finally
      (match list_find (λ u, Profile.user_id u = selectedUser s) (users s) with
       | None => raise UserNotFound
       | Some (_, userToUpdate) =>
           let amount := Profile.credits userToUpdate + creditsToAdd s in
           r ← ask cond (UpdateProfileCredits amount (selectedUser s))
                 (update_profile_credits (now cond) uid (selectedUser s) amount);
           match error r with
           | Some e => raise (Rejected e)
           | None =>
               notify (CreditsAdded (creditsToAdd s));;
               fetchUsers;; (* Refresh the user list *)
               assign (set_selectedUser "");;
               assign (set_creditsToAdd 0)
           end
       end)
      (λ e,
         complain "Error adding credits:" e;;
         notify (Plain "Error" "Failed to add credits" true))
      (assign (set_isLoading false)).

(** [toggleAdmin] (lines 152-175). *)
Definition toggleAdmin (userId : uuid) (currentAdminStatus : bool) : Act Panel unit :=
  attempt
    (r ← ask cond (UpdateProfileAdmin (negb currentAdminStatus) userId)
           (λ st, (pg_ok (None : option unit),
                   update_profiles uid userId
                     (stamp_admin (now cond) (negb currentAdminStatus)) st));
     match error r with
     | Some e => raise (Rejected e)
     | None =>
         notify (AdminStatus (negb currentAdminStatus));;
         fetchUsers
     end)
    (λ e,
       complain "Error updating admin status:" e;;
       notify (Plain "Error" "Failed to update admin status" true)).

(** [fetchApiSettings] (lines 177-200). *)
Definition fetchApiSettings : Act Panel unit :=
  attempt
    (r ← ask cond SelectSettings
           (λ st, (pg_ok (Some (select_settings cond uid st)), st));
     match error r with
     | Some e => raise (Rejected e)
     | None =>
         assign (set_apiSettings (default [] (data r)));;
         let initialValues := initial_values (default [] (data r)) in
         assign (set_editingSettings initialValues)
     end)
    (λ e,
       complain "Error fetching API settings:" e;;
       notify (Plain "Error" "Failed to load API settings" true)).

(** [updateApiSetting] (lines 202-225). [editingSettings[settingKey]] is the
    entry of the key, [undefined] without one; the one key that reads the
    prototype instead, [__proto__] without an entry of its own, is outside
    this model. *)
Definition updateApiSetting (settingKey : string) : Act Panel unit :=
  attempt
    (s ← cell;
     let value := editingSettings s !! settingKey in
     r ← ask cond (UpdateSetting value settingKey)
           (λ st, (pg_ok (None : option unit),
                   update_setting cond uid value settingKey st));
     match error r with
     | Some e => raise (Rejected e)
     | None =>
         notify (Plain "Setting updated"
                   "API setting has been updated successfully" false);;
         fetchApiSettings
     end)
    (λ e,
       complain "Error updating API setting:" e;;
       notify (Plain "Error" "Failed to update API setting" true)).

(** [setCreditsToAmount] (lines 227-263). *)
Definition setCreditsToAmount (userId : uuid) (amount : Z) : Act Panel unit :=
  if amount <? 0 then
    notify (Plain "Invalid input" "Credits cannot be negative" true)
  else
    assign (set_isLoading true);;
    attempt_finally
      (r ← ask cond (UpdateProfileCredits amount userId)
             (update_profile_credits (now cond) uid userId amount);
       match error r with
       | Some e => raise (Rejected e)
       | None =>
           notify (CreditsSet amount);;
           fetchUsers
       end)
      (λ e,
         complain "Error setting credits:" e;;
         notify (Plain "Error" "Failed to set credits" true))
      (assign (set_isLoading false)).

End Session.
End AdminPanel.

(** ** The dashboard's setting: [fetchApiUrl] (later revision, lines 866-881) *)

Definition with_apiUrl (v : string) (s : Dash) : Dash :=
  mkDash (user s) (profile s) (recentCalls s) (bin s) (quantity s) (month s)
    (year s) (isLoading s) (errors s) v.

Definition fetchApiUrl (uid : option uuid) (cond : Conditions) : Act Dash unit :=
  attempt
    (r ← ask cond SelectApiUrl (λ st, (select_api_url uid st, st));
     match error r with
     | Some e => raise (Rejected e)
     | None =>
         match data r with
         | Some setting_value =>
             if String.eqb setting_value "" then mret ()
             else assign (with_apiUrl setting_value)
         | None => mret ()
         end
     end)
    (λ e, complain "Error fetching API URL:" e).

(** ** The page shell: Index.tsx

    The [profile] cell holds [{ is_admin }] or [null]. *)

Module Index.

Definition fetchProfile (uid : option uuid) (cond : Conditions)
  : Act (option bool) unit :=
  attempt
    (r ← ask cond (SelectAdminFlag uid) (λ st, (select_admin_flag uid uid st, st));
     match error r with
     | Some e => raise (Rejected e)
     | None => assign (λ _, data r)
     end)
    (λ e, complain "Error fetching profile:" e).

Inductive View : Type :=
| DashboardView
| AdminPanelView
| SettingsSoon.

(** [searchParams.get('tab') || 'dashboard'] *)
Definition activeTab (tab : option string) : string :=
  match tab with
  | Some t => if String.eqb t "" then "dashboard" else t
  | None => "dashboard"
  end.

(** What the page renders: [profile?.is_admin ? ... : <Dashboard />]. *)
Definition page (profile : option bool) (tab : option string) : list View :=
  if default false profile then
    (if String.eqb (activeTab tab) "admin" then [AdminPanelView] else [])
    ++ (if String.eqb (activeTab tab) "settings" then [SettingsSoon] else [])
    ++ (if String.eqb (activeTab tab) "dashboard" || String.eqb (activeTab tab) ""
        then [DashboardView] else [])
  else [DashboardView].

End Index.

(** ** The sidebar: AppSidebar.tsx *)

Module AppSidebar.

Definition items : list (string * string) :=
  [("Dashboard", "/"); ("Admin Panel", "/?tab=admin"); ("Settings", "/?tab=settings")].

Definition isActive (currentPath url : string) : bool :=
  if String.eqb url "/" then
    String.eqb currentPath "/" || String.eqb currentPath "/?tab=dashboard"
  else String.eqb currentPath url.

End AppSidebar.

(** ** Sample data for the admin panel: Bob is an administrator, Alice is
    not; one setting *)

Definition url_setting (v : string) : Setting.t :=
  Setting.mk "s-1" "api_base_url" v (Some "Base URL for the card generation API") 1 1.

Definition office : Store :=
  mkStore (db busy) [url_setting "https://cc.yeasirar.xyz/gen"].

Definition calm : Conditions := mkConditions (λ _, false) (λ a b, String.leb a b) 500.

Definition desk (selected : string) (amount : Z) : AdminPanel.Panel :=
  AdminPanel.mkPanel (profiles (db busy)) None selected amount false [] ∅.

Definition admin_site (selected : string) (amount : Z) : Site AdminPanel.Panel :=
  mkSite office (desk selected amount) [].

(** ** Sessions at the admin panel

    What can be done at the panel: the operations above, and the edits of
    the form ([setSelectedUser], [setCreditsToAdd(parseInt(...) || 0)],
    [setEditingSettings({ ...editingSettings, [key]: value })]). *)

Inductive Action : Type :=
| Select (userId : string)
| TypeAmount (n : Z)
| EditSetting (key value : string)
| FetchUsers
| AddCredits
| SetCredits (userId : uuid) (amount : Z)
| ToggleAdmin (userId : uuid) (currentAdminStatus : bool)
| FetchApiSettings
| UpdateApiSetting (settingKey : string).

Definition perform (uid : option uuid) (cond : Conditions) (a : Action)
  : Act AdminPanel.Panel unit :=
  match a with
  | Select userId => assign (AdminPanel.set_selectedUser userId)
  | TypeAmount n => assign (AdminPanel.set_creditsToAdd n)
  | EditSetting key value =>
      assign (λ s, AdminPanel.set_editingSettings
                     (<[key := value]> (AdminPanel.editingSettings s)) s)
  | FetchUsers => AdminPanel.fetchUsers uid cond
  | AddCredits => AdminPanel.addCredits uid cond
  | SetCredits userId amount => AdminPanel.setCreditsToAmount uid cond userId amount
  | ToggleAdmin userId currentAdminStatus =>
      AdminPanel.toggleAdmin uid cond userId currentAdminStatus
  | FetchApiSettings => AdminPanel.fetchApiSettings uid cond
  | UpdateApiSetting settingKey => AdminPanel.updateApiSetting uid cond settingKey
  end.

(** The site after a sequence of actions, one after the other. *)
Fixpoint session (uid : option uuid) (cond : Conditions) (acts : list Action)
  (w : Site AdminPanel.Panel) : Site AdminPanel.Panel :=
  match acts with
  | [] => w
  | a :: rest => session uid cond rest (ending (perform uid cond a) w)
  end.

Definition balances_nonneg (rows : list Profile.t) : Prop :=
  Forall (λ q, 0 ≤ Profile.credits q) rows.

(** What an operation can have done to the store and to the list of users. *)
Definition store_step (uid : option uuid) (cond : Conditions)
  (w w' : Site AdminPanel.Panel) : Prop :=
  (store w' = store w ∨
   (∃ target amount,
      (balances_nonneg (AdminPanel.users (cells w)) → 0 ≤ amount) ∧
      store w' = update_profiles uid target (stamp_credits (now cond) amount) (store w)) ∨
   (∃ target flag,
      store w' = update_profiles uid target (stamp_admin (now cond) flag) (store w)) ∨
   (∃ v key, store w' = update_setting cond uid v key (store w))) ∧
  (AdminPanel.users (cells w') = AdminPanel.users (cells w) ∨
   AdminPanel.users (cells w') = select_users uid (store w')).

Arguments select_users : simpl never.
Arguments update_profiles : simpl never.
Arguments update_profile_credits : simpl never.
Arguments select_settings : simpl never.
Arguments update_setting : simpl never.
Arguments select_api_url : simpl never.
Arguments select_admin_flag : simpl never.

Ltac step_panel :=
  unfold ending, AdminPanel.addCredits, AdminPanel.setCreditsToAmount,
    AdminPanel.toggleAdmin, AdminPanel.updateApiSetting, AdminPanel.fetchApiSettings,
    AdminPanel.fetchUsers, attempt_finally, attempt, ask, notify, complain, entry,
    cell, assign, raise, mbind, Act_bind, mret, Act_ret.

(** * Properties *)

(** ** Validation *)

Lemma is_digit_spec c : is_digit c = true ↔ decimal_digit c.
Proof.
  unfold is_digit, decimal_digit.
  rewrite andb_true_iff, !Nat.leb_le. tauto.
Qed.

Lemma all_digits_spec s :
  all_digits s = true ↔ Forall decimal_digit (String.list_ascii_of_string s).
Proof.
  induction s as [|c s IH]; simpl.
  - split; [constructor | reflexivity].
  - rewrite andb_true_iff, Forall_cons, IH, is_digit_spec. tauto.
Qed.

Lemma bin_regex_spec s : bin_regex s = true ↔ valid_bin s.
Proof.
  unfold bin_regex, valid_bin.
  rewrite andb_true_iff, all_digits_spec, Nat.leb_le. tauto.
Qed.

Lemma binSchema_None s : binSchema s = None ↔ valid_bin s.
Proof.
  rewrite <- bin_regex_spec. unfold binSchema.
  destruct (bin_regex s); split; congruence.
Qed.

Lemma quantitySchema_None n : quantitySchema n = None ↔ 1 ≤ n ≤ 50.
Proof.
  unfold quantitySchema.
  destruct (Z.ltb_spec n 1), (Z.ltb_spec 50 n); split; (congruence || lia).
Qed.

Lemma monthSchema_None n : monthSchema n = None ↔ 1 ≤ n ≤ 12.
Proof.
  unfold monthSchema.
  destruct (Z.ltb_spec n 1), (Z.ltb_spec 12 n); split; (congruence || lia).
Qed.

Lemma yearSchema_None n : yearSchema n = None ↔ 2025 ≤ n ≤ 2035.
Proof.
  unfold yearSchema.
  destruct (Z.ltb_spec n 2025), (Z.ltb_spec 2035 n); split; (congruence || lia).
Qed.

Lemma lookup_note k k' r (m : gmap string string) :
  note k r m !! k' = if decide (k = k') then (if r is Some x then Some x else m !! k')
                     else m !! k'.
Proof.
  unfold note. destruct r as [x|].
  - case_decide; subst; [apply lookup_insert_eq | by apply lookup_insert_ne].
  - by case_decide.
Qed.

Lemma size_note_0 k r (m : gmap string string) :
  size (note k r m) = 0%nat ↔ r = None ∧ size m = 0%nat.
Proof.
  unfold note. destruct r as [x|].
  - rewrite map_size_empty_iff. split; [|intros [? _]; done].
    intros H. by apply insert_non_empty in H.
  - tauto.
Qed.

Lemma field_errors_empty rev s :
  size (field_errors rev s) = 0%nat ↔ constraints rev s.
Proof.
  unfold field_errors, constraints. destruct rev; cbv zeta.
  - rewrite !size_note_0, map_size_empty, binSchema_None, quantitySchema_None. tauto.
  - rewrite !size_note_0, map_size_empty, binSchema_None, quantitySchema_None,
      monthSchema_None, yearSchema_None. tauto.
Qed.

Lemma validateInputs_run rev w :
  validateInputs rev w =
    (Normal (size (field_errors rev (ui w)) =? 0)%nat,
     mkWorld (db w) (with_errors (field_errors rev (ui w)) (ui w)) (trace w)).
Proof. reflexivity. Qed.

Lemma validateInputs_true rev w :
  fst (validateInputs rev w) = Normal true ↔ constraints rev (ui w).
Proof.
  rewrite validateInputs_run, <- field_errors_empty. simpl.
  destruct (Nat.eqb_spec (size (field_errors rev (ui w))) 0); split; congruence.
Qed.

Lemma field_errors_bin rev s : field_errors rev s !! "bin" = binSchema (bin s).
Proof.
  unfold field_errors. destruct rev; cbv zeta; rewrite !lookup_note;
    repeat (case_decide; try discriminate); rewrite ?lookup_empty;
    by destruct (binSchema _).
Qed.

Lemma field_errors_quantity rev s :
  field_errors rev s !! "quantity" = quantitySchema (quantity s).
Proof.
  unfold field_errors. destruct rev; cbv zeta; rewrite !lookup_note;
    repeat (case_decide; try discriminate); rewrite ?lookup_empty;
    by destruct (quantitySchema _).
Qed.

Lemma field_errors_month rev s :
  field_errors rev s !! "month" =
    match rev with FixedUrl => None | ConfigurableUrl => monthSchema (month s) end.
Proof.
  unfold field_errors. destruct rev; cbv zeta; rewrite !lookup_note;
    repeat (case_decide; try discriminate); rewrite ?lookup_empty;
    try reflexivity; by destruct (monthSchema _).
Qed.

Lemma field_errors_year rev s :
  field_errors rev s !! "year" =
    match rev with FixedUrl => None | ConfigurableUrl => yearSchema (year s) end.
Proof.
  unfold field_errors. destruct rev; cbv zeta; rewrite !lookup_note;
    repeat (case_decide; try discriminate); rewrite ?lookup_empty;
    try reflexivity; by destruct (yearSchema _).
Qed.

(** C5 (amended). [validateInputs] never throws and touches nothing but the
    [errors] cell. It returns [true] exactly when every constraint of the
    revision holds: the prefix is a string of at least six digits, the
    quantity lies in [1,50] and, in the revision with month and year, the
    month lies in [1,12] and the year in [2025,2035]. The record it stores has
    the field's own message under the key of each violated constraint and no
    entry for a satisfied one. *)
Theorem validateInputs_spec (rev : Revision) (w : World) :
  ∃ b w',
    validateInputs rev w = (Normal b, w') ∧
    db w' = db w ∧ trace w' = trace w ∧
    (b = true ↔ constraints rev (ui w)) ∧
    (valid_bin (bin (ui w)) → errors (ui w') !! "bin" = None) ∧
    (¬ valid_bin (bin (ui w)) →
       errors (ui w') !! "bin" = Some "BIN must be at least 6 digits") ∧
    (1 ≤ quantity (ui w) ≤ 50 → errors (ui w') !! "quantity" = None) ∧
    (quantity (ui w) < 1 →
       errors (ui w') !! "quantity" = Some "Quantity must be at least 1") ∧
    (50 < quantity (ui w) →
       errors (ui w') !! "quantity" = Some "Quantity cannot exceed 50") ∧
    match rev with
    | FixedUrl => errors (ui w') !! "month" = None ∧ errors (ui w') !! "year" = None
    | ConfigurableUrl =>
        (1 ≤ month (ui w) ≤ 12 → errors (ui w') !! "month" = None) ∧
        (¬ 1 ≤ month (ui w) ≤ 12 →
           errors (ui w') !! "month" = Some "Month must be between 1-12") ∧
        (2025 ≤ year (ui w) ≤ 2035 → errors (ui w') !! "year" = None) ∧
        (year (ui w) < 2025 →
           errors (ui w') !! "year" = Some "Year must be 2025 or later") ∧
        (2035 < year (ui w) →
           errors (ui w') !! "year" = Some "Year cannot exceed 2035")
    end.
Proof.
  eexists _, _. split; [apply validateInputs_run|].
  split; [reflexivity|]. split; [reflexivity|].
  split.
  { rewrite <- field_errors_empty.
    destruct (Nat.eqb_spec (size (field_errors rev (ui w))) 0); split; congruence. }
  simpl.
  rewrite field_errors_bin, field_errors_quantity, field_errors_month,
    field_errors_year.
  pose proof (bin_regex_spec (bin (ui w))) as Hb.
  split; [|split].
  { intros H. unfold binSchema. apply Hb in H. by rewrite H. }
  { intros H. unfold binSchema. destruct (bin_regex _); [|done].
    exfalso. by apply H, Hb. }
  unfold quantitySchema.
  split; [|split; [|split]].
  { intros H. destruct (Z.ltb_spec (quantity (ui w)) 1), (Z.ltb_spec 50 (quantity (ui w)));
      (done || lia). }
  { intros H. by destruct (Z.ltb_spec (quantity (ui w)) 1); [|lia]. }
  { intros H. destruct (Z.ltb_spec (quantity (ui w)) 1), (Z.ltb_spec 50 (quantity (ui w)));
      (done || lia). }
  destruct rev; [done|].
  unfold monthSchema, yearSchema.
  split; [|split; [|split; [|split]]]; intros H.
  - destruct (Z.ltb_spec (month (ui w)) 1), (Z.ltb_spec 12 (month (ui w))); (done || lia).
  - destruct (Z.ltb_spec (month (ui w)) 1), (Z.ltb_spec 12 (month (ui w))); (done || lia).
  - destruct (Z.ltb_spec (year (ui w)) 2025), (Z.ltb_spec 2035 (year (ui w))); (done || lia).
  - by destruct (Z.ltb_spec (year (ui w)) 2025); [|lia].
  - destruct (Z.ltb_spec (year (ui w)) 2025), (Z.ltb_spec 2035 (year (ui w))); (done || lia).
Qed.

(** C5, as stated, fails in the revision with month and year: a six-digit
    prefix and a quantity of 10 are rejected when the month is 13. *)
Lemma validateInputs_rejects_month_13 :
  valid_bin "401658" ∧ 1 ≤ 10 ≤ 50 ∧
  fst (validateInputs ConfigurableUrl (world 3 "401658" 10 13 2028)) = Normal false.
Proof.
  split; [|split].
  - apply bin_regex_spec. reflexivity.
  - lia.
  - vm_compute. reflexivity.
Qed.

(** ** The ledger operation *)

Lemma validateInputs_false rev w :
  fst (validateInputs rev w) = Normal false →
  (size (field_errors rev (ui w)) =? 0)%nat = false.
Proof. rewrite validateInputs_run. simpl. congruence. Qed.

Lemma validateInputs_passes rev w :
  fst (validateInputs rev w) = Normal true →
  (size (field_errors rev (ui w)) =? 0)%nat = true.
Proof. rewrite validateInputs_run. simpl. congruence. Qed.

Lemma makeApiCall_rejected rev env w :
  fst (validateInputs rev w) = Normal false →
  makeApiCall rev env w =
    (Normal (), mkWorld (db w) (with_errors (field_errors rev (ui w)) (ui w)) (trace w)).
Proof.
  intros H%validateInputs_false.
  unfold makeApiCall, mbind, M_bind, get_ui.
  by rewrite validateInputs_run, H.
Qed.

(** C6. When validation fails, [makeApiCall] returns at once: the run ends
    normally, nothing is added to the trace (no request to the generator, no
    request to the store, hence no call record and no balance update), the
    store is as before, and the component's state differs only by the
    recorded field errors. *)
Theorem makeApiCall_invalid_inputs (rev : Revision) (env : Env) (w : World) :
  fst (validateInputs rev w) = Normal false →
  fst (makeApiCall rev env w) = Normal () ∧
  trace (after (makeApiCall rev env) w) = trace w ∧
  db (after (makeApiCall rev env) w) = db w ∧
  ui (after (makeApiCall rev env) w) = with_errors (field_errors rev (ui w)) (ui w).
Proof.
  intros H. unfold after. by rewrite (makeApiCall_rejected rev env w H).
Qed.

(** The prefix "12345" has five digits: nothing leaves the component. *)
Lemma makeApiCall_invalid_inputs_witness :
  fst (validateInputs FixedUrl (world 3 "12345" 10 12 2028)) = Normal false ∧
  trace (after (makeApiCall FixedUrl (healthy FetchRejects)) (world 3 "12345" 10 12 2028))
    = [] ∧
  errors (ui (after (makeApiCall FixedUrl (healthy FetchRejects))
                (world 3 "12345" 10 12 2028))) !! "bin"
    = Some "BIN must be at least 6 digits".
Proof.
  assert (Hv : fst (validateInputs FixedUrl (world 3 "12345" 10 12 2028)) = Normal false)
    by (vm_compute; reflexivity).
  destruct (makeApiCall_invalid_inputs FixedUrl (healthy FetchRejects)
              (world 3 "12345" 10 12 2028) Hv) as (_ & Ht & _ & Hu).
  split; [exact Hv|]. split; [exact Ht|].
  rewrite Hu. exact (field_errors_bin FixedUrl _).
Defined.

Lemma supabase_run {A} env q (serve : Database → PgResponse A * Database) w :
  supabase env q serve w =
    (Normal (fst (answer env q serve (db w))),
     mkWorld (snd (answer env q serve (db w))) (ui w) (trace w ++ [StoreRequest q])).
Proof. unfold supabase. by destruct (answer env q serve (db w)). Qed.

Lemma answer_read_only {A} env q (f : Database → PgResponse A) d :
  snd (answer env q (λ d, (f d, d)) d) = d.
Proof. unfold answer. by destruct (store_fails env q). Qed.

Lemma answer_insert_api_call_profiles env x d :
  profiles (snd (answer env (InsertApiCall x) (insert_api_call env x) d)) = profiles d.
Proof.
  unfold answer, insert_api_call.
  by destruct (store_fails env _), (ci_user_id x).
Qed.

Lemma answer_insert_api_call_served env x u d :
  store_fails env (InsertApiCall x) = false →
  ci_user_id x = Some u →
  snd (answer env (InsertApiCall x) (insert_api_call env x) d)
    = mkDatabase (profiles d) (api_calls d ++ [stored_call env u x]).
Proof. intros Hs Hu. unfold answer, insert_api_call. by rewrite Hs, Hu. Qed.

Lemma answer_update_credits_served env c u d :
  store_fails env (UpdateCredits c (Some u)) = false →
  snd (answer env (UpdateCredits c (Some u)) (update_credits env c (Some u)) d)
    = mkDatabase (credited env c u (profiles d)) (api_calls d).
Proof. intros Hs. unfold answer, update_credits. by rewrite Hs. Qed.

Lemma fetchRecentCalls_run env w :
  fetchRecentCalls env w =
    (Normal (),
     match error (recent_answer env w) with
     | Some e =>
         mkWorld (db w) (ui w)
           (trace w ++ [StoreRequest (SelectRecentCalls (user_id_of (ui w)));
                        ConsoleError "Error fetching recent calls:" (PgError e)])
     | None =>
         mkWorld (db w)
           (with_recentCalls (default [] (data (recent_answer env w))) (ui w))
           (trace w ++ [StoreRequest (SelectRecentCalls (user_id_of (ui w)))])
     end).
Proof.
  unfold fetchRecentCalls, try_catch, mbind, M_bind, get_ui.
  rewrite supabase_run, answer_read_only. fold (recent_answer env w).
  destruct (error (recent_answer env w)); simpl; [|reflexivity].
  unfold console_error, emit. simpl. by rewrite <- app_assoc.
Qed.

(** Validation passed, but there is no profile or its balance is below 1:
    the only effect is the notification. *)
Lemma makeApiCall_insufficient rev env w :
  fst (validateInputs rev w) = Normal true →
  (∀ p, profile (ui w) = Some p → Profile.credits p < 1) →
  makeApiCall rev env w =
    (Normal (),
     mkWorld (db w) (with_errors (field_errors rev (ui w)) (ui w))
       (trace w ++ [Toast insufficient_credits])).
Proof.
  intros Hv%validateInputs_passes Hp.
  step_component. rewrite validateInputs_run, Hv. simpl.
  destruct (profile (ui w)) as [p|]; [|reflexivity].
  specialize (Hp p eq_refl).
  by destruct (Z.ltb_spec (Profile.credits p) 1); [|lia].
Qed.

(** The call to the generator throws: the error is caught at the boundary
    and nothing reaches the store. *)
Lemma makeApiCall_throws rev env w p e :
  fst (validateInputs rev w) = Normal true →
  profile (ui w) = Some p →
  1 ≤ Profile.credits p →
  call_exception (http env) = Some e →
  makeApiCall rev env w =
    (Normal (),
     mkWorld (db w)
       (with_isLoading false (with_isLoading true
          (with_errors (field_errors rev (ui w)) (ui w))))
       (trace w ++ [HttpGet (request_url rev (ui w));
                    ConsoleError "API call error:" e;
                    Toast request_failed])).
Proof.
  intros Hv%validateInputs_passes Hp Hc He.
  step_component. rewrite validateInputs_run, Hv. simpl. rewrite Hp.
  destruct (Z.ltb_spec (Profile.credits p) 1); [lia|]. simpl.
  unfold call_exception in He.
  destruct (http env) as [|response]; simpl.
  - injection He as <-. by rewrite <- !app_assoc.
  - destruct (body response); [discriminate|]. injection He as <-. simpl.
    by rewrite <- !app_assoc.
Qed.

(** The generator answered with a JSON body, whatever the status. *)
Lemma makeApiCall_resolved rev env w p response responseData :
  fst (validateInputs rev w) = Normal true →
  profile (ui w) = Some p →
  1 ≤ Profile.credits p →
  http env = FetchResolves response →
  body response = Some responseData →
  let w' := after (makeApiCall rev env) w in
  let x := call_record (ui w) (ok response) responseData in
  let d := snd (answer env (InsertApiCall x) (insert_api_call env x) (db w)) in
  let c := Profile.credits p - 1 in
  fst (makeApiCall rev env w) = Normal () ∧
  http_requests (trace w') = http_requests (trace w) ++ [request_url rev (ui w)] ∧
  call_inserts (trace w') = call_inserts (trace w) ++ [x] ∧
  credit_updates (trace w') =
    credit_updates (trace w) ++ (if ok response then [(c, user_id_of (ui w))] else []) ∧
  profile (ui w') = Some (if ok response then spend_one p else p) ∧
  db w' =
    (if ok response
     then snd (answer env (UpdateCredits c (user_id_of (ui w)))
                 (update_credits env c (user_id_of (ui w))) d)
     else d).
Proof.
  intros Hv%validateInputs_passes Hp Hc Hh Hb.
  step_component. rewrite validateInputs_run, Hv. simpl. rewrite Hp.
  destruct (Z.ltb_spec (Profile.credits p) 1); [lia|].
  simpl. rewrite Hh. simpl. rewrite Hb. simpl.
  rewrite !supabase_run. simpl.
  destruct (ok response); simpl.
  - rewrite !supabase_run. simpl.
    destruct (is_null responseData); simpl.
    + read_trace. rewrite Hp. auto 10.
    + rewrite fetchRecentCalls_run.
      destruct (error _); simpl; read_trace; rewrite Hp; auto 10.
  - rewrite fetchRecentCalls_run.
    destruct (error _); simpl; read_trace; rewrite Hp; auto 10.
Qed.

Lemma js_or_not_null a s : is_null (js_or a (JStr s)) = false.
Proof.
  destruct a as [v|]; [|reflexivity]. unfold js_or.
  destruct (truthy v) eqn:E; [|reflexivity].
  by destruct v.
Qed.

Lemma validateInputs_decides rev w :
  fst (validateInputs rev w) = Normal true ∨ fst (validateInputs rev w) = Normal false.
Proof. rewrite validateInputs_run. simpl. destruct (_ =? _)%nat; auto. Qed.

(** C1 (amended). With a balance below 1 [makeApiCall] ends normally having
    sent nothing to the generator and nothing to the store: the tables and
    the profile in memory are as before, so the balance is not decremented.
    The insufficient-credit notification is what it shows when the form
    passes validation; when the form fails validation it has already
    returned, and shows nothing. *)
Theorem makeApiCall_insufficient_credits (rev : Revision) (env : Env) (w : World)
  (p : Profile.t) :
  profile (ui w) = Some p →
  Profile.credits p < 1 →
  let w' := after (makeApiCall rev env) w in
  fst (makeApiCall rev env w) = Normal () ∧
  db w' = db w ∧
  profile (ui w') = Some p ∧
  http_requests (trace w') = http_requests (trace w) ∧
  store_requests (trace w') = store_requests (trace w) ∧
  (fst (validateInputs rev w) = Normal true →
     trace w' = trace w ++ [Toast insufficient_credits]) ∧
  (fst (validateInputs rev w) = Normal false → trace w' = trace w).
Proof.
  intros Hp Hc. cbv zeta. unfold after.
  destruct (validateInputs_decides rev w) as [Hv|Hv].
  - rewrite (makeApiCall_insufficient rev env w Hv); simpl.
    + read_trace. repeat split; auto.
      intros Hv'. rewrite validateInputs_run in Hv. simpl in Hv. congruence.
    + intros p' Hp'. congruence.
  - rewrite (makeApiCall_rejected rev env w Hv); simpl.
    repeat split; auto.
    intros Hv'. rewrite validateInputs_run in Hv. simpl in Hv. congruence.
Qed.

(** A valid form and an empty balance: one notification, nothing else. *)
Lemma makeApiCall_insufficient_credits_witness :
  trace (after (makeApiCall ConfigurableUrl (healthy (FetchResolves (mkResponse true (Some generated)))))
           (world 0 "401658" 10 12 2028))
    = [Toast insufficient_credits] ∧
  db (after (makeApiCall ConfigurableUrl (healthy (FetchResolves (mkResponse true (Some generated)))))
        (world 0 "401658" 10 12 2028))
    = mkDatabase [alice_profile 0] [].
Proof.
  destruct (makeApiCall_insufficient_credits ConfigurableUrl
              (healthy (FetchResolves (mkResponse true (Some generated))))
              (world 0 "401658" 10 12 2028) (alice_profile 0) eq_refl)
    as (_ & Hd & _ & _ & _ & Ht & _).
  - simpl. lia.
  - split; [apply Ht; vm_compute; reflexivity | exact Hd].
Defined.

(** C1, as stated, fails: with the form as the component first renders it
    (an empty prefix) and a balance of 0, no insufficient-credit error is
    shown, nor any other notification. *)
Lemma makeApiCall_blank_form_shows_no_credit_error :
  profile (ui (world 0 "" 10 12 2028)) = Some (alice_profile 0) ∧
  Profile.credits (alice_profile 0) < 1 ∧
  toasts (trace (after (makeApiCall FixedUrl (healthy FetchRejects))
                   (world 0 "" 10 12 2028))) = [].
Proof. split; [reflexivity|]. split; [simpl; lia|]. vm_compute. reflexivity. Qed.

Lemma call_record_fields s success responseData :
  call_record s success responseData =
    mkApiCallInsert (user_id_of s) (bin s) (quantity s) 1 success
      (if success then responseData else JNull)
      (if success then JNull
       else js_or (opt_chain responseData "error") (JStr "Unknown error")).
Proof. reflexivity. Qed.

(** What the two columns keep of a call record. *)
Lemma text_column_not_null env v : is_null v = false → is_Some (text_column env v).
Proof. destruct v; simpl; intros H; by eauto. Qed.

Lemma stored_call_record env u s success responseData :
  let row := stored_call env u (call_record s success responseData) in
  ApiCall.user_id row = u ∧
  ApiCall.bin row = bin s ∧
  ApiCall.quantity row = quantity s ∧
  ApiCall.credits_used row = 1 ∧
  ApiCall.success row = success ∧
  ApiCall.response_data row = (if success then jsonb_column env responseData else JNull) ∧
  (if success then ApiCall.error_message row = None
   else is_Some (ApiCall.error_message row)).
Proof.
  cbv zeta. rewrite call_record_fields. unfold stored_call. simpl.
  repeat (split; [reflexivity|]). split.
  - by destruct success.
  - destruct success; [reflexivity|]. apply text_column_not_null, js_or_not_null.
Qed.

(** A served balance update, when the balance in memory is the stored one,
    takes 1 off each balance of the user. *)
Lemma credited_decrements env c u rows :
  Forall (λ q, Profile.user_id q = u → Profile.credits q = c) rows →
  credited env (c - 1) u rows
  = map (λ q, if bool_decide (Profile.user_id q = u)
              then set_credits env (Profile.credits q - 1) q else q) rows.
Proof.
  unfold credited. induction 1 as [|q rows Hq _ IH]; [reflexivity|].
  simpl. rewrite IH. f_equal. case_bool_decide; [|reflexivity]. by rewrite Hq.
Qed.

(** What a resolved call leaves in the tables when the user is signed in. *)
Lemma makeApiCall_resolved_tables rev env w u p response responseData :
  fst (validateInputs rev w) = Normal true →
  user (ui w) = Some u →
  profile (ui w) = Some p →
  1 ≤ Profile.credits p →
  http env = FetchResolves response →
  body response = Some responseData →
  store_fails env (InsertApiCall (call_record (ui w) (ok response) responseData)) = false →
  let w' := after (makeApiCall rev env) w in
  api_calls (db w')
    = api_calls (db w)
      ++ [stored_call env (AuthUser.id u) (call_record (ui w) (ok response) responseData)] ∧
  (ok response = false → profiles (db w') = profiles (db w)) ∧
  (ok response = true →
   store_fails env (UpdateCredits (Profile.credits p - 1) (Some (AuthUser.id u))) = false →
   profiles (db w')
     = credited env (Profile.credits p - 1) (AuthUser.id u) (profiles (db w))).
Proof.
  intros Hv Hus Hp Hc Hh Hb Hsi.
  destruct (makeApiCall_resolved rev env w p response responseData Hv Hp Hc Hh Hb)
    as (_ & _ & _ & _ & _ & Hd).
  cbv zeta. rewrite Hd.
  assert (Hid : user_id_of (ui w) = Some (AuthUser.id u))
    by (unfold user_id_of; by rewrite Hus).
  rewrite (answer_insert_api_call_served env _ (AuthUser.id u)) by
    (done || by rewrite call_record_fields).
  rewrite Hid. destruct (ok response); simpl.
  - split; [|split; [discriminate|]].
    + unfold answer, update_credits.
      destruct (store_fails env (UpdateCredits _ _)); reflexivity.
    + intros _ Hsu. by rewrite answer_update_credits_served.
  - split; [reflexivity|]. split; [reflexivity|discriminate].
Qed.

(** C2 (amended). With a valid form, a signed-in user whose balance in
    memory is at least 1 and is the stored one, a response of success status
    whose body parses as JSON, and a store that serves the two writes,
    [makeApiCall] decrements the balance by exactly 1: the one balance update
    it sends writes the balance minus 1, each stored balance of the user is 1
    less than before while the other profiles stay, and the profile in memory
    shows the new balance. It inserts exactly one call record: one insert is
    sent, and the call table gains one row after those it held, with the
    user, the submitted prefix and quantity, [credits_used = 1],
    [success = true] and no error message. *)
Theorem makeApiCall_success (rev : Revision) (env : Env) (w : World) (u : AuthUser.t)
  (p : Profile.t) (response : Response) (responseData : Json) :
  fst (validateInputs rev w) = Normal true →
  user (ui w) = Some u →
  profile (ui w) = Some p →
  1 ≤ Profile.credits p →
  in_sync w →
  http env = FetchResolves response →
  ok response = true →
  body response = Some responseData →
  store_fails env (InsertApiCall (call_record (ui w) true responseData)) = false →
  store_fails env (UpdateCredits (Profile.credits p - 1) (Some (AuthUser.id u))) = false →
  let w' := after (makeApiCall rev env) w in
  credit_updates (trace w')
    = credit_updates (trace w) ++ [(Profile.credits p - 1, Some (AuthUser.id u))] ∧
  profiles (db w')
    = map (λ q, if bool_decide (Profile.user_id q = AuthUser.id u)
                then set_credits env (Profile.credits q - 1) q else q)
        (profiles (db w)) ∧
  (∃ p', profile (ui w') = Some p' ∧ Profile.credits p' = Profile.credits p - 1) ∧
  call_inserts (trace w')
    = call_inserts (trace w) ++ [call_record (ui w) true responseData] ∧
  ∃ row, api_calls (db w') = api_calls (db w) ++ [row] ∧
         ApiCall.user_id row = AuthUser.id u ∧
         ApiCall.bin row = bin (ui w) ∧
         ApiCall.quantity row = quantity (ui w) ∧
         ApiCall.credits_used row = 1 ∧
         ApiCall.success row = true ∧
         ApiCall.error_message row = None.
Proof.
  intros Hv Hus Hp Hc Hsync Hh Hok Hb Hsi Hsu.
  destruct (makeApiCall_resolved rev env w p response responseData Hv Hp Hc Hh Hb)
    as (_ & _ & Hi & Hu & Hm & _).
  destruct (makeApiCall_resolved_tables rev env w u p response responseData
              Hv Hus Hp Hc Hh Hb) as (Hcalls & _ & Hprofiles);
    [by rewrite Hok|].
  rewrite Hok in *. cbv zeta.
  assert (Hid : user_id_of (ui w) = Some (AuthUser.id u))
    by (unfold user_id_of; by rewrite Hus).
  rewrite Hid in Hu.
  split; [exact Hu|]. split.
  - rewrite Hprofiles by done. apply credited_decrements. by apply Hsync.
  - split; [eexists; split; [exact Hm|reflexivity]|]. split; [exact Hi|].
    eexists. split; [exact Hcalls|].
    destruct (stored_call_record env (AuthUser.id u) (ui w) true responseData)
      as (H1 & H2 & H3 & H4 & H5 & _ & H7).
    auto 10.
Qed.

(** The example of the specification: prefix "401658", quantity 10 and a
    balance of 3. *)
Lemma makeApiCall_success_witness :
  Profile.credits <$> profile (ui (after (makeApiCall ConfigurableUrl
      (healthy (FetchResolves (mkResponse true (Some generated)))))
      (world 3 "401658" 10 12 2028))) = Some 2 ∧
  map Profile.credits (profiles (db (after (makeApiCall ConfigurableUrl
      (healthy (FetchResolves (mkResponse true (Some generated)))))
      (world 3 "401658" 10 12 2028)))) = [2] ∧
  map (λ r, (ApiCall.bin r, ApiCall.quantity r, ApiCall.credits_used r, ApiCall.success r))
    (api_calls (db (after (makeApiCall ConfigurableUrl
      (healthy (FetchResolves (mkResponse true (Some generated)))))
      (world 3 "401658" 10 12 2028)))) = [("401658"%string, 10, 1, true)].
Proof.
  destruct (makeApiCall_success ConfigurableUrl
              (healthy (FetchResolves (mkResponse true (Some generated))))
              (world 3 "401658" 10 12 2028) alice (alice_profile 3)
              (mkResponse true (Some generated)) generated)
    as (_ & Hprofiles & (p' & Hp' & Hc') & _ & (row & Hcalls & _ & Hb & Hq & Hu & Hs & _));
    [vm_compute; reflexivity | reflexivity | reflexivity | simpl; lia
    | intros u p [= <-] [= <-]; repeat constructor
    | reflexivity | reflexivity | reflexivity | reflexivity | reflexivity |].
  rewrite Hp', Hprofiles, Hcalls. simpl.
  rewrite Hc', Hb, Hq, Hu, Hs. repeat split.
Defined.

(** C2, as stated, fails: a response of success status whose body is not
    JSON makes [response.json()] throw; no call record and no balance update
    are sent, and the balance stays 3. *)
Lemma makeApiCall_ok_status_unparsed_body :
  fst (validateInputs FixedUrl (world 3 "401658" 10 12 2028)) = Normal true ∧
  1 ≤ Profile.credits (alice_profile 3) ∧
  ok (mkResponse true None) = true ∧
  call_inserts (trace (after (makeApiCall FixedUrl
      (healthy (FetchResolves (mkResponse true None))))
      (world 3 "401658" 10 12 2028))) = [] ∧
  credit_updates (trace (after (makeApiCall FixedUrl
      (healthy (FetchResolves (mkResponse true None))))
      (world 3 "401658" 10 12 2028))) = [] ∧
  Profile.credits <$> profile (ui (after (makeApiCall FixedUrl
      (healthy (FetchResolves (mkResponse true None))))
      (world 3 "401658" 10 12 2028))) = Some 3.
Proof.
  split; [vm_compute; reflexivity|]. split; [simpl; lia|].
  split; [reflexivity|]. vm_compute. auto.
Qed.

(** Why C2 (amended) asks for a balance in memory that is the stored one:
    the update writes the balance in memory minus 1, not the stored balance
    minus 1. With 3 in memory and 103 stored, a successful call leaves 2 in
    the store. *)
Lemma makeApiCall_stale_balance_overwritten :
  fst (validateInputs FixedUrl stale) = Normal true ∧
  Profile.credits <$> profile (ui stale) = Some 3 ∧
  map Profile.credits (profiles (db stale)) = [103] ∧
  map Profile.credits (profiles (db (after (makeApiCall FixedUrl
      (healthy (FetchResolves (mkResponse true (Some generated))))) stale))) = [2].
Proof. split; [vm_compute; reflexivity|]. vm_compute. auto. Qed.

(** Why C2, C3 and C4 (amended) ask for a store that serves the insert: its
    answer is not looked at. When the store refuses the call record, nothing
    is logged, whatever the status, and after a success the balance is
    written all the same. *)
Lemma makeApiCall_refused_insert_not_logged :
  fst (validateInputs FixedUrl (world 3 "401658" 10 12 2028)) = Normal true ∧
  api_calls (db (after (makeApiCall FixedUrl
      (unlogged (FetchResolves (mkResponse true (Some generated)))))
      (world 3 "401658" 10 12 2028))) = [] ∧
  map Profile.credits (profiles (db (after (makeApiCall FixedUrl
      (unlogged (FetchResolves (mkResponse true (Some generated)))))
      (world 3 "401658" 10 12 2028)))) = [2] ∧
  api_calls (db (after (makeApiCall FixedUrl
      (unlogged (FetchResolves (mkResponse false (Some refused)))))
      (world 3 "401658" 10 12 2028))) = [].
Proof. split; [vm_compute; reflexivity|]. vm_compute. auto. Qed.

(** Why C2, C3 and C4 (amended) ask for a signed-in user: [user?.id] is the
    owner of the call record and the filter of the update. Without one the
    store takes neither write. *)
Lemma makeApiCall_signed_out_not_logged :
  fst (validateInputs FixedUrl signed_out) = Normal true ∧
  db (after (makeApiCall FixedUrl
        (healthy (FetchResolves (mkResponse true (Some generated))))) signed_out)
    = db signed_out ∧
  db (after (makeApiCall FixedUrl
        (healthy (FetchResolves (mkResponse false (Some refused))))) signed_out)
    = db signed_out.
Proof. split; [vm_compute; reflexivity|]. vm_compute. auto. Qed.

(** C3 (amended). With a valid form, a signed-in user with a balance of at
    least 1, a response of non-success status whose body parses as JSON, and
    a store that serves the insert, [makeApiCall] leaves the balance
    unchanged: it sends no balance update, and the profile table and the
    profile in memory are as before. It inserts exactly one call record: one
    insert is sent, and the call table gains one row after those it held,
    with the user, the submitted prefix and quantity, [success = false] and
    an error message that is not NULL. *)
Theorem makeApiCall_failure_status (rev : Revision) (env : Env) (w : World)
  (u : AuthUser.t) (p : Profile.t) (response : Response) (responseData : Json) :
  fst (validateInputs rev w) = Normal true →
  user (ui w) = Some u →
  profile (ui w) = Some p →
  1 ≤ Profile.credits p →
  http env = FetchResolves response →
  ok response = false →
  body response = Some responseData →
  store_fails env (InsertApiCall (call_record (ui w) false responseData)) = false →
  let w' := after (makeApiCall rev env) w in
  credit_updates (trace w') = credit_updates (trace w) ∧
  profiles (db w') = profiles (db w) ∧
  profile (ui w') = Some p ∧
  call_inserts (trace w')
    = call_inserts (trace w) ++ [call_record (ui w) false responseData] ∧
  ∃ row, api_calls (db w') = api_calls (db w) ++ [row] ∧
         ApiCall.user_id row = AuthUser.id u ∧
         ApiCall.bin row = bin (ui w) ∧
         ApiCall.quantity row = quantity (ui w) ∧
         ApiCall.success row = false ∧
         is_Some (ApiCall.error_message row).
Proof.
  intros Hv Hus Hp Hc Hh Hok Hb Hsi.
  destruct (makeApiCall_resolved rev env w p response responseData Hv Hp Hc Hh Hb)
    as (_ & _ & Hi & Hu & Hm & _).
  destruct (makeApiCall_resolved_tables rev env w u p response responseData
              Hv Hus Hp Hc Hh Hb) as (Hcalls & Hprofiles & _);
    [by rewrite Hok|].
  rewrite Hok in *. cbv zeta. rewrite app_nil_r in Hu.
  split; [exact Hu|]. split; [by apply Hprofiles|]. split; [exact Hm|].
  split; [exact Hi|].
  eexists. split; [exact Hcalls|].
  destruct (stored_call_record env (AuthUser.id u) (ui w) false responseData)
    as (H1 & H2 & H3 & _ & H5 & _ & H7).
  auto 10.
Qed.

(** The generator refuses with status 400 and an [error] field. *)
Lemma makeApiCall_failure_status_witness :
  map Profile.credits (profiles (db (after (makeApiCall FixedUrl
      (healthy (FetchResolves (mkResponse false (Some refused)))))
      (world 3 "401658" 10 12 2028)))) = [3] ∧
  map (λ r, (ApiCall.success r, ApiCall.error_message r))
    (api_calls (db (after (makeApiCall FixedUrl
      (healthy (FetchResolves (mkResponse false (Some refused)))))
      (world 3 "401658" 10 12 2028)))) = [(false, Some "BIN not supported"%string)].
Proof.
  destruct (makeApiCall_failure_status FixedUrl
              (healthy (FetchResolves (mkResponse false (Some refused))))
              (world 3 "401658" 10 12 2028) alice (alice_profile 3)
              (mkResponse false (Some refused)) refused)
    as (_ & Hpr & _ & _ & _);
    [vm_compute; reflexivity | reflexivity | reflexivity | simpl; lia | reflexivity
    | reflexivity | reflexivity | reflexivity |].
  rewrite Hpr. split; [reflexivity|]. vm_compute. reflexivity.
Defined.

(** C3, as stated, fails: a response of non-success status whose body is not
    JSON (an HTML error page, say) makes [response.json()] throw, and no call
    record is sent to the store. *)
Lemma makeApiCall_error_status_unparsed_body :
  fst (validateInputs FixedUrl (world 3 "401658" 10 12 2028)) = Normal true ∧
  1 ≤ Profile.credits (alice_profile 3) ∧
  ok (mkResponse false None) = false ∧
  call_inserts (trace (after (makeApiCall FixedUrl
      (healthy (FetchResolves (mkResponse false None))))
      (world 3 "401658" 10 12 2028))) = [] ∧
  api_calls (db (after (makeApiCall FixedUrl
      (healthy (FetchResolves (mkResponse false None))))
      (world 3 "401658" 10 12 2028))) = [].
Proof.
  split; [vm_compute; reflexivity|]. split; [simpl; lia|].
  split; [reflexivity|]. vm_compute. auto.
Qed.

(** C4 (amended). Once validation and the credit check have passed,
    [makeApiCall] ends normally and
    - when the generator's response arrives and its body parses as JSON,
      whatever the status, it sends the store exactly one call record; with a
      signed-in user and a store that serves the insert, the call table
      keeps the rows it held and gains exactly one row after them, which
      records the outcome: the user, the submitted prefix and quantity, the
      charge of 1, [success] as the status was, and an error message exactly
      when the status was not a success;
    - when the request throws, or the body does not parse, no call record is
      inserted: the error is caught at the boundary, the only notification
      is the generic one, nothing is sent to the store, and the tables and
      the profile in memory are as before. *)
Theorem makeApiCall_logs_resolved_calls (rev : Revision) (env : Env) (w : World)
  (p : Profile.t) :
  fst (validateInputs rev w) = Normal true →
  profile (ui w) = Some p →
  1 ≤ Profile.credits p →
  let w' := after (makeApiCall rev env) w in
  fst (makeApiCall rev env w) = Normal () ∧
  (∀ response responseData,
     http env = FetchResolves response →
     body response = Some responseData →
     call_inserts (trace w')
       = call_inserts (trace w) ++ [call_record (ui w) (ok response) responseData] ∧
     ∀ u, user (ui w) = Some u →
          store_fails env
            (InsertApiCall (call_record (ui w) (ok response) responseData)) = false →
          ∃ row, api_calls (db w') = api_calls (db w) ++ [row] ∧
                 ApiCall.user_id row = AuthUser.id u ∧
                 ApiCall.bin row = bin (ui w) ∧
                 ApiCall.quantity row = quantity (ui w) ∧
                 ApiCall.credits_used row = 1 ∧
                 ApiCall.success row = ok response ∧
                 (ApiCall.error_message row = None ↔ ok response = true)) ∧
  (∀ e, call_exception (http env) = Some e →
        call_inserts (trace w') = call_inserts (trace w) ∧
        store_requests (trace w') = store_requests (trace w) ∧
        toasts (trace w') = toasts (trace w) ++ [request_failed] ∧
        db w' = db w ∧
        profile (ui w') = Some p).
Proof.
  intros Hv Hp Hc. cbv zeta.
  destruct (call_exception (http env)) as [e|] eqn:He.
  - unfold after. rewrite (makeApiCall_throws rev env w p e Hv Hp Hc He). simpl.
    split; [reflexivity|]. split.
    + intros response responseData Hh Hb. unfold call_exception in He.
      rewrite Hh, Hb in He. discriminate.
    + intros e' _. read_trace. auto.
  - unfold call_exception in He.
    destruct (http env) as [|response] eqn:Hh; [discriminate|].
    destruct (body response) as [responseData|] eqn:Hb; [|discriminate].
    destruct (makeApiCall_resolved rev env w p response responseData Hv Hp Hc Hh Hb)
      as (Hn & _ & Hi & _).
    split; [exact Hn|]. split; [|intros e' He'; discriminate].
    intros response' responseData' [= <-] Hb'.
    rewrite Hb in Hb'. injection Hb' as <-.
    split; [exact Hi|]. intros u Hus Hsi.
    destruct (makeApiCall_resolved_tables rev env w u p response responseData
                Hv Hus Hp Hc Hh Hb Hsi) as (Hcalls & _).
    eexists. split; [exact Hcalls|].
    destruct (stored_call_record env (AuthUser.id u) (ui w) (ok response) responseData)
      as (H1 & H2 & H3 & H4 & H5 & _ & H7).
    repeat (split; [assumption|]).
    destruct (ok response); [by split|].
    split; [intros Hnone; rewrite Hnone in H7; by destruct H7|discriminate].
Qed.

(** A refused prefix is logged as a failure, with the generator's message;
    a transport failure is not logged. *)
Lemma makeApiCall_logs_resolved_calls_witness :
  map (λ r, (ApiCall.user_id r, ApiCall.bin r, ApiCall.success r, ApiCall.error_message r))
    (api_calls (db (after (makeApiCall ConfigurableUrl
       (healthy (FetchResolves (mkResponse false (Some refused)))))
       (world 3 "401658" 10 12 2028))))
    = [("u-1"%string, "401658"%string, false, Some "BIN not supported"%string)] ∧
  call_inserts (trace (after (makeApiCall ConfigurableUrl (healthy FetchRejects))
                         (world 3 "401658" 10 12 2028))) = [] ∧
  toasts (trace (after (makeApiCall ConfigurableUrl (healthy FetchRejects))
                   (world 3 "401658" 10 12 2028))) = [request_failed].
Proof.
  split.
  - destruct (makeApiCall_logs_resolved_calls ConfigurableUrl
                (healthy (FetchResolves (mkResponse false (Some refused))))
                (world 3 "401658" 10 12 2028) (alice_profile 3))
      as (_ & Hlogged & _); [vm_compute; reflexivity | reflexivity | simpl; lia |].
    destruct (Hlogged (mkResponse false (Some refused)) refused eq_refl eq_refl)
      as (_ & Hrow).
    destruct (Hrow alice eq_refl eq_refl) as (row & Hcalls & _).
    vm_compute. reflexivity.
  - destruct (makeApiCall_logs_resolved_calls ConfigurableUrl (healthy FetchRejects)
                (world 3 "401658" 10 12 2028) (alice_profile 3))
      as (_ & _ & Ht); [vm_compute; reflexivity | reflexivity | simpl; lia |].
    destruct (Ht NetworkError eq_refl) as (Hi & _ & Htoast & _).
    split; [exact Hi|exact Htoast].
Defined.

(** C4, as stated, fails: when [fetch] itself throws, after validation and
    the credit check have passed, no call record is sent to the store and the
    call table stays empty. *)
Lemma makeApiCall_transport_failure_not_logged :
  fst (validateInputs ConfigurableUrl (world 3 "401658" 10 12 2028)) = Normal true ∧
  1 ≤ Profile.credits (alice_profile 3) ∧
  call_inserts (trace (after (makeApiCall ConfigurableUrl (healthy FetchRejects))
                         (world 3 "401658" 10 12 2028))) = [] ∧
  api_calls (db (after (makeApiCall ConfigurableUrl (healthy FetchRejects))
                   (world 3 "401658" 10 12 2028))) = [].
Proof.
  split; [vm_compute; reflexivity|]. split; [simpl; lia|]. vm_compute. auto.
Qed.

(** ** The profile accessor *)

Lemma profiles_of_none u d :
  (∀ p, p ∈ profiles d → Profile.user_id p ≠ u) → profiles_of u d = [].
Proof.
  unfold profiles_of. induction (profiles d) as [|a l IH]; intros H; [reflexivity|].
  rewrite filter_cons_False by (apply H; left).
  apply IH. intros p Hp. apply H. by right.
Qed.

Lemma profiles_of_unique u p d :
  unique_user_ids d → p ∈ profiles d → Profile.user_id p = u → profiles_of u d = [p].
Proof.
  unfold unique_user_ids, profiles_of. intros Hnd Hin <-.
  induction (profiles d) as [|a l IH]; [by apply elem_of_nil in Hin|].
  rewrite fmap_cons in Hnd. apply NoDup_cons in Hnd as [Ha Hnd].
  apply elem_of_cons in Hin as [->|Hin].
  - rewrite filter_cons_True by done. f_equal.
    clear IH Hnd. induction l as [|b l IH]; [reflexivity|].
    rewrite fmap_cons in Ha. apply not_elem_of_cons in Ha as [Hab Ha].
    rewrite filter_cons_False by congruence. by apply IH.
  - rewrite filter_cons_False; [by apply IH|].
    intros E. apply Ha. rewrite E. by apply list_elem_of_fmap_2.
Qed.

Lemma user_id_of_signed_in s u : user s = Some u → user_id_of s = Some (AuthUser.id u).
Proof. unfold user_id_of. by intros ->. Qed.

Lemma profile_record_signed_in s u :
  user s = Some u →
  profile_record s =
    mkProfileInsert (Some (AuthUser.id u)) (AuthUser.email u)
      (or_null (AuthUser.full_name u)) 0.
Proof. unfold profile_record, user_id_of. by intros ->. Qed.

Lemma fetchProfile_run env w u :
  user (ui w) = Some u →
  let sel := SelectProfile (Some (AuthUser.id u)) in
  let x := mkProfileInsert (Some (AuthUser.id u)) (AuthUser.email u)
             (or_null (AuthUser.full_name u)) 0 in
  let row := stored_profile env (AuthUser.id u) x in
  let failed reqs e :=
    mkWorld (db w) (ui w)
      (trace w ++ reqs ++ [ConsoleError "Error fetching profile:" (PgError e);
                           Toast profile_load_failed]) in
  fetchProfile env w =
    (Normal (),
     if store_fails env sel then failed [StoreRequest sel] Unavailable
     else
       match profiles_of (AuthUser.id u) (db w) with
       | [] =>
           if store_fails env (InsertProfile x)
           then failed [StoreRequest sel; StoreRequest (InsertProfile x)] Unavailable
           else mkWorld (mkDatabase (profiles (db w) ++ [row]) (api_calls (db w)))
                  (with_profile (λ _, Some row) (ui w))
                  (trace w ++ [StoreRequest sel; StoreRequest (InsertProfile x)])
       | [p] =>
           mkWorld (db w) (with_profile (λ _, Some p) (ui w))
             (trace w ++ [StoreRequest sel])
       | _ :: _ :: _ => failed [StoreRequest sel] MultipleRows
       end).
Proof.
  intros Hu. cbv zeta.
  unfold fetchProfile, try_catch, mbind, M_bind, get_ui.
  rewrite supabase_run, answer_read_only.
  rewrite (user_id_of_signed_in _ _ Hu), (profile_record_signed_in _ _ Hu).
  unfold answer at 1 2.
  destruct (store_fails env (SelectProfile _)); simpl.
  { unfold console_error, toast, emit; simpl. by rewrite <- !app_assoc. }
  destruct (profiles_of (AuthUser.id u) (db w)) as [|p1 [|p2 l]] eqn:Hof; simpl.
  - rewrite supabase_run; simpl. unfold answer, insert_profile; simpl. rewrite Hof.
    destruct (store_fails env (InsertProfile _)); simpl;
      unfold console_error, toast, setProfile, set_ui, emit; simpl;
      by rewrite <- ?app_assoc.
  - reflexivity.
  - unfold console_error, toast, emit; simpl. by rewrite <- !app_assoc.
Qed.

(** C7. For a signed-in user [fetchProfile] ends normally and
    - when the profile table, with its unique [user_id], holds a row of that
      user and the store serves the lookup, puts that row in the [profile]
      cell, after one request and with the tables unchanged;
    - when the table holds no row of that user and the store serves the
      lookup and the insert, appends one row with [credits = 0], the user's
      email and display name (null when empty or missing) and the user's id,
      and puts that row in the [profile] cell;
    - when the store fails the lookup, or the insert, leaves the component's
      state and the tables as they were and shows the generic
      "Failed to load profile data" notification; the failed request is
      sent once and not again. *)
Theorem fetchProfile_get_or_create (env : Env) (w : World) (u : AuthUser.t) :
  user (ui w) = Some u →
  let w' := after (fetchProfile env) w in
  let sel := SelectProfile (Some (AuthUser.id u)) in
  let x := mkProfileInsert (Some (AuthUser.id u)) (AuthUser.email u)
             (or_null (AuthUser.full_name u)) 0 in
  let row := stored_profile env (AuthUser.id u) x in
  let absent := ∀ p, p ∈ profiles (db w) → Profile.user_id p ≠ AuthUser.id u in
  fst (fetchProfile env w) = Normal () ∧
  (∀ p, store_fails env sel = false →
        unique_user_ids (db w) → p ∈ profiles (db w) →
        Profile.user_id p = AuthUser.id u →
        profile (ui w') = Some p ∧ db w' = db w ∧
        trace w' = trace w ++ [StoreRequest sel]) ∧
  (store_fails env sel = false → store_fails env (InsertProfile x) = false → absent →
     profile (ui w') = Some row ∧
     db w' = mkDatabase (profiles (db w) ++ [row]) (api_calls (db w)) ∧
     trace w' = trace w ++ [StoreRequest sel; StoreRequest (InsertProfile x)] ∧
     Profile.credits row = 0 ∧
     Profile.user_id row = AuthUser.id u ∧
     Profile.email row = AuthUser.email u ∧
     Profile.full_name row = or_null (AuthUser.full_name u)) ∧
  (store_fails env sel = true →
     ui w' = ui w ∧ db w' = db w ∧
     trace w' = trace w ++ [StoreRequest sel;
                            ConsoleError "Error fetching profile:" (PgError Unavailable);
                            Toast profile_load_failed]) ∧
  (store_fails env sel = false → store_fails env (InsertProfile x) = true → absent →
     ui w' = ui w ∧ db w' = db w ∧
     trace w' = trace w ++ [StoreRequest sel; StoreRequest (InsertProfile x);
                            ConsoleError "Error fetching profile:" (PgError Unavailable);
                            Toast profile_load_failed]).
Proof.
  intros Hu. cbv zeta. unfold after.
  rewrite (fetchProfile_run env w u Hu). cbv zeta. simpl.
  split; [reflexivity|].
  destruct (store_fails env (SelectProfile _)) eqn:Hsel; simpl.
  { repeat split; intros; (discriminate || auto). }
  destruct (profiles_of (AuthUser.id u) (db w)) as [|p1 [|p2 l]] eqn:Hof.
  - split.
    { intros p _ Hnd Hin Hid. rewrite (profiles_of_unique _ p _ Hnd Hin Hid) in Hof.
      discriminate. }
    destruct (store_fails env (InsertProfile _)) eqn:Hins; simpl;
      repeat split; intros; (discriminate || auto).
  - split.
    { intros p _ Hnd Hin Hid. rewrite (profiles_of_unique _ p _ Hnd Hin Hid) in Hof.
      injection Hof as <-. auto. }
    repeat split; intros; try discriminate;
      match goal with H : ∀ p, _ → _ ≠ _ |- _ =>
        rewrite (profiles_of_none _ _ H) in Hof; discriminate end.
  - split.
    { intros p _ Hnd Hin Hid. rewrite (profiles_of_unique _ p _ Hnd Hin Hid) in Hof.
      discriminate. }
    repeat split; intros; try discriminate;
      match goal with H : ∀ p, _ → _ ≠ _ |- _ =>
        rewrite (profiles_of_none _ _ H) in Hof; discriminate end.
Qed.

(** A first visit creates the profile; a later one finds it; with the store
    out of reach nothing is loaded and the notification is shown. *)
Lemma fetchProfile_get_or_create_witness :
  profile (ui (after (fetchProfile (healthy FetchRejects)) newcomer))
    = Some (Profile.mk "c-1" "u-1" (Some "alice@example.org") (Some "Alice") 0 false
              200 200) ∧
  profile (ui (after (fetchProfile (healthy FetchRejects)) (world 3 "" 10 12 2028)))
    = Some (alice_profile 3) ∧
  (profile (ui (after (fetchProfile offline) newcomer)) = None ∧
   toasts (trace (after (fetchProfile offline) newcomer)) = [profile_load_failed]).
Proof.
  split; [|split].
  3: { destruct (fetchProfile_get_or_create offline newcomer alice eq_refl)
         as (_ & _ & _ & Hfail & _).
       destruct (Hfail eq_refl) as (-> & _ & ->). split; reflexivity. }
  - destruct (fetchProfile_get_or_create (healthy FetchRejects) newcomer alice eq_refl)
      as (_ & _ & Habsent & _).
    destruct Habsent as (Hp & _); [reflexivity | reflexivity | | exact Hp].
    intros p Hp. apply list_elem_of_singleton in Hp. subst p. discriminate.
  - destruct (fetchProfile_get_or_create (healthy FetchRejects)
                (world 3 "" 10 12 2028) alice eq_refl) as (_ & Hexists & _).
    destruct (Hexists (alice_profile 3)) as (Hp & _);
      [reflexivity | apply NoDup_singleton | apply list_elem_of_singleton; reflexivity
      | reflexivity | exact Hp].
Defined.

(** ** The authorization predicate *)

(** C8. [is_admin(user_id)] is true exactly when the profile table holds a
    row whose [user_id] is the given one and whose admin flag is set; it is
    false for a user without a row, for a user all of whose rows have the
    flag unset, and for a NULL argument. *)
Theorem is_admin_iff (d : Database) (u : uuid) :
  (is_admin d (Some u) = true ↔
     ∃ p, p ∈ profiles d ∧ Profile.user_id p = u ∧ Profile.is_admin p = true) ∧
  ((∀ p, p ∈ profiles d → Profile.user_id p ≠ u) → is_admin d (Some u) = false) ∧
  ((∀ p, p ∈ profiles d → Profile.user_id p = u → Profile.is_admin p = false) →
     is_admin d (Some u) = false) ∧
  is_admin d None = false.
Proof.
  assert (Hiff : is_admin d (Some u) = true ↔
            ∃ p, p ∈ profiles d ∧ Profile.user_id p = u ∧ Profile.is_admin p = true).
  { unfold is_admin. rewrite existsb_exists. split.
    - intros (p & Hin & Hp). apply andb_true_iff in Hp as [Hu Ha].
      apply bool_decide_eq_true in Hu, Ha. exists p.
      by rewrite list_elem_of_In.
    - intros (p & Hin & Hu & Ha). exists p. rewrite <- list_elem_of_In.
      split; [done|]. apply andb_true_iff. by rewrite !bool_decide_eq_true. }
  split; [exact Hiff|]. split; [|split; [|reflexivity]].
  - intros Hno. apply not_true_is_false. rewrite Hiff.
    intros (p & Hin & Hu & _). by apply (Hno p).
  - intros Hno. apply not_true_is_false. rewrite Hiff.
    intros (p & Hin & Hu & Ha). rewrite (Hno p Hin Hu) in Ha. discriminate.
Qed.

(** ** The admin statistics *)

Lemma fold_left_tally rows acc :
  fold_left tally rows acc =
    mkStats
      (total_calls acc + Z.of_nat (length rows))
      (successful_calls acc
         + Z.of_nat (length (filter (λ r, StatRow.success r = true) rows)))
      (failed_calls acc
         + Z.of_nat (length (filter (λ r, StatRow.success r = false) rows)))
      (total_credits_used acc + foldr Z.add 0 (StatRow.credits_used <$> rows)).
Proof.
  revert acc. induction rows as [|r rows IH]; intros acc.
  - simpl. rewrite !Z.add_0_r. by destruct acc.
  - simpl fold_left. rewrite IH, fmap_cons. unfold tally.
    destruct (StatRow.success r) eqn:Hs; cbn [foldr length total_calls
      successful_calls failed_calls total_credits_used].
    + rewrite filter_cons_True, filter_cons_False by (rewrite Hs; done).
      cbn [length]. f_equal; lia.
    + rewrite filter_cons_False, filter_cons_True by (rewrite Hs; done).
      cbn [length]. f_equal; lia.
Qed.

(** C9. On a list of call records [fetchStats] stores counters with
    [total_calls] the length of the list, [successful_calls] and
    [failed_calls] the numbers of records with [success] true and false
    (which add up to [total_calls]) and [total_credits_used] the sum of the
    [credits_used] fields; on the empty list all four are 0. *)
Theorem fetchStats_counts (rows : list StatRow.t) (stats : option ApiCallStats) :
  (∃ s, fetchStats (pg_ok (Some rows)) stats = (Some s, []) ∧
        total_calls s = Z.of_nat (length rows) ∧
        successful_calls s
          = Z.of_nat (length (filter (λ r, StatRow.success r = true) rows)) ∧
        failed_calls s
          = Z.of_nat (length (filter (λ r, StatRow.success r = false) rows)) ∧
        successful_calls s + failed_calls s = total_calls s ∧
        total_credits_used s = foldr Z.add 0 (StatRow.credits_used <$> rows)) ∧
  fetchStats (pg_ok (Some [])) stats = (Some (mkStats 0 0 0 0), []).
Proof.
  split; [|reflexivity].
  eexists. split; [reflexivity|]. simpl.
  rewrite fold_left_tally. simpl.
  repeat split.
  clear stats. induction rows as [|r rows IH]; [reflexivity|].
  destruct (StatRow.success r) eqn:Hs.
  - rewrite filter_cons_True, filter_cons_False by (rewrite Hs; done).
    simpl length. lia.
  - rewrite filter_cons_False, filter_cons_True by (rewrite Hs; done).
    simpl length. lia.
Qed.

(** ** Recent activity *)

Global Instance newer_first_total : Total newer_first.
Proof. intros a b. unfold newer_first. lia. Qed.

Global Instance newer_first_trans : Transitive newer_first.
Proof. intros a b c. unfold newer_first. lia. Qed.

Lemma calls_of_spec u d c :
  c ∈ calls_of u d ↔ c ∈ api_calls d ∧ ApiCall.user_id c = u.
Proof. unfold calls_of. by rewrite list_elem_of_filter, (comm and). Qed.

(** C10. For a signed-in user [fetchRecentCalls] ends normally and leaves
    the tables alone. When the store serves the query, the [recentCalls] cell
    holds at most 5 records, all of them call records of that user, newest
    first, and they are the newest: together with some records no newer than
    any of them they make up all of the user's call records. When the store
    answers with an error, the component's state, and with it the displayed
    list, is unchanged. *)
Theorem fetchRecentCalls_newest_five (env : Env) (w : World) (u : AuthUser.t) :
  user (ui w) = Some u →
  let w' := after (fetchRecentCalls env) w in
  let q := SelectRecentCalls (Some (AuthUser.id u)) in
  fst (fetchRecentCalls env w) = Normal () ∧
  db w' = db w ∧
  (store_fails env q = false →
     (length (recentCalls (ui w')) ≤ 5)%nat ∧
     Forall (λ c, c ∈ api_calls (db w) ∧ ApiCall.user_id c = AuthUser.id u)
       (recentCalls (ui w')) ∧
     StronglySorted newer_first (recentCalls (ui w')) ∧
     ∃ older,
       recentCalls (ui w') ++ older ≡ₚ calls_of (AuthUser.id u) (db w) ∧
       ∀ c o, c ∈ recentCalls (ui w') → o ∈ older →
              ApiCall.created_at o ≤ ApiCall.created_at c) ∧
  (store_fails env q = true →
     ui w' = ui w ∧ recentCalls (ui w') = recentCalls (ui w)).
Proof.
  intros Hu. cbv zeta. unfold after.
  rewrite fetchRecentCalls_run. unfold recent_answer, answer.
  rewrite (user_id_of_signed_in _ _ Hu).
  destruct (store_fails env (SelectRecentCalls _)); simpl.
  { repeat split; intros; (discriminate || auto). }
  split; [reflexivity|]. split; [reflexivity|]. split; [|discriminate].
  intros _.
  set (sorted := merge_sort newer_first (calls_of (AuthUser.id u) (db w))).
  assert (Hs : StronglySorted newer_first (take 5 sorted ++ drop 5 sorted)).
  { rewrite take_drop. apply StronglySorted_merge_sort; apply _. }
  assert (Hperm : take 5 sorted ++ drop 5 sorted ≡ₚ calls_of (AuthUser.id u) (db w)).
  { rewrite take_drop. apply merge_sort_Permutation. }
  split; [rewrite length_take; lia|]. split; [|split].
  - apply Forall_forall. intros c Hc. apply calls_of_spec.
    rewrite <- Hperm. apply elem_of_app. by left.
  - by apply StronglySorted_app_1_l in Hs.
  - exists (drop 5 sorted). split; [exact Hperm|].
    intros c o Hc Ho. exact (StronglySorted_app_1_elem_of _ _ _ _ _ Hs Hc Ho).
Qed.

(** Alice has six calls among seven: the five newest of hers are shown,
    newest first. With the store out of reach the list stays as it was. *)
Lemma fetchRecentCalls_newest_five_witness :
  ApiCall.id <$> recentCalls (ui (after (fetchRecentCalls (healthy FetchRejects)) busy))
    = ["c-6"; "c-7"; "c-3"; "c-4"; "c-1"]%string ∧
  db (after (fetchRecentCalls (healthy FetchRejects)) busy) = db busy ∧
  recentCalls (ui (after (fetchRecentCalls offline) busy)) = recentCalls (ui busy).
Proof.
  destruct (fetchRecentCalls_newest_five (healthy FetchRejects) busy alice eq_refl)
    as (_ & Hd & _).
  destruct (fetchRecentCalls_newest_five offline busy alice eq_refl)
    as (_ & _ & _ & Hoff).
  split; [vm_compute; reflexivity|]. split; [exact Hd|].
  by destruct (Hoff eq_refl) as [_ ->].
Defined.

(** ** Invariants of the profile table *)

Lemma credited_user_ids e c u rows :
  Profile.user_id <$> credited e c u rows = Profile.user_id <$> rows.
Proof.
  unfold credited. induction rows as [|q rows IH]; [reflexivity|].
  rewrite map_cons, !fmap_cons. f_equal; [|exact IH]. by case_bool_decide.
Qed.

Lemma credited_balance e c u rows :
  0 ≤ c →
  Forall (λ q, 0 ≤ Profile.credits q) rows →
  Forall (λ q, 0 ≤ Profile.credits q) (credited e c u rows).
Proof.
  intros Hc Hrows. unfold credited. apply Forall_map.
  eapply Forall_impl; [exact Hrows|]. intros q Hq. simpl. by case_bool_decide.
Qed.

Lemma answer_update_credits_profiles env c uid d :
  profiles (snd (answer env (UpdateCredits c uid) (update_credits env c uid) d))
    = profiles d ∨
  ∃ u, profiles (snd (answer env (UpdateCredits c uid) (update_credits env c uid) d))
         = credited env c u (profiles d).
Proof.
  unfold answer, update_credits.
  destruct (store_fails env _); [by left|]. destruct uid; simpl; eauto.
Qed.

(** What [makeApiCall] can do to the profile table: nothing, or set the
    balance of one user's rows to the balance in memory minus 1, which only
    happens when that balance is at least 1. *)
Lemma makeApiCall_profiles rev env w :
  profiles (db (after (makeApiCall rev env) w)) = profiles (db w) ∨
  ∃ p u, profile (ui w) = Some p ∧ 1 ≤ Profile.credits p ∧
         profiles (db (after (makeApiCall rev env) w))
           = credited env (Profile.credits p - 1) u (profiles (db w)).
Proof.
  destruct (validateInputs_decides rev w) as [Hv|Hv].
  2: { left. unfold after. by rewrite (makeApiCall_rejected rev env w Hv). }
  destruct (profile (ui w)) as [p|] eqn:Hp.
  2: { left. unfold after. rewrite (makeApiCall_insufficient rev env w Hv); [done|].
       intros p Hp'. congruence. }
  destruct (Z.lt_ge_cases (Profile.credits p) 1) as [Hc|Hc].
  { left. unfold after. rewrite (makeApiCall_insufficient rev env w Hv); [done|].
    intros p' Hp'. congruence. }
  destruct (call_exception (http env)) as [e|] eqn:He.
  { left. unfold after. by rewrite (makeApiCall_throws rev env w p e Hv Hp Hc He). }
  unfold call_exception in He.
  destruct (http env) as [|response] eqn:Hh; [discriminate|].
  destruct (body response) as [responseData|] eqn:Hb; [|discriminate].
  destruct (makeApiCall_resolved rev env w p response responseData Hv Hp Hc Hh Hb)
    as (_ & _ & _ & _ & _ & Hd).
  rewrite Hd. destruct (ok response); [|left; apply answer_insert_api_call_profiles].
  destruct (answer_update_credits_profiles env (Profile.credits p - 1)
              (user_id_of (ui w))
              (snd (answer env (InsertApiCall (call_record (ui w) true responseData))
                      (insert_api_call env (call_record (ui w) true responseData))
                      (db w)))) as [->|[u ->]];
    rewrite answer_insert_api_call_profiles; [by left|].
  right. by exists p, u.
Qed.

(** X9. The ledger never drives a balance of the profile table below 0. *)
Lemma makeApiCall_balance_nonneg rev env w :
  Forall (λ q, 0 ≤ Profile.credits q) (profiles (db w)) →
  Forall (λ q, 0 ≤ Profile.credits q) (profiles (db (after (makeApiCall rev env) w))).
Proof.
  intros H. destruct (makeApiCall_profiles rev env w) as [->|(p & u & _ & Hc & ->)];
    [exact H|]. apply credited_balance; [lia|exact H].
Qed.

(** [makeApiCall] keeps [user_id] unique in the profile table. *)
Lemma makeApiCall_unique_user_ids rev env w :
  unique_user_ids (db w) → unique_user_ids (db (after (makeApiCall rev env) w)).
Proof.
  unfold unique_user_ids.
  destruct (makeApiCall_profiles rev env w) as [->|(p & u & _ & _ & ->)]; [done|].
  by rewrite credited_user_ids.
Qed.

(** X10. [fetchProfile] keeps [user_id] unique in the profile table: it inserts a
    row only when the user has none. *)
Lemma fetchProfile_unique_user_ids env w u :
  user (ui w) = Some u →
  unique_user_ids (db w) → unique_user_ids (db (after (fetchProfile env) w)).
Proof.
  intros Hu Hnd. unfold after. rewrite (fetchProfile_run env w u Hu). cbv zeta. simpl.
  destruct (store_fails env (SelectProfile _)); [exact Hnd|].
  destruct (profiles_of (AuthUser.id u) (db w)) as [|p1 [|p2 l]] eqn:Hof; try exact Hnd.
  destruct (store_fails env (InsertProfile _)); [exact Hnd|].
  unfold unique_user_ids in *. simpl. rewrite fmap_app. simpl.
  apply NoDup_app. split; [exact Hnd|]. split; [|apply NoDup_singleton].
  intros i Hi Hi'. apply list_elem_of_singleton in Hi'. subst i.
  apply list_elem_of_fmap in Hi as (q & Hq & Hin).
  assert (q ∈ profiles_of (AuthUser.id u) (db w)) as Hq'.
  { unfold profiles_of. apply list_elem_of_filter. done. }
  rewrite Hof in Hq'. by apply elem_of_nil in Hq'.
Qed.

(** ** What the ledger operation never does *)

Lemma makeApiCall_resolved_loading rev env w p response responseData :
  fst (validateInputs rev w) = Normal true →
  profile (ui w) = Some p →
  1 ≤ Profile.credits p →
  http env = FetchResolves response →
  body response = Some responseData →
  isLoading (ui (after (makeApiCall rev env) w)) = false.
Proof.
  intros Hv%validateInputs_passes Hp Hc Hh Hb.
  step_component. rewrite validateInputs_run, Hv. simpl. rewrite Hp.
  destruct (Z.ltb_spec (Profile.credits p) 1); [lia|].
  simpl. rewrite Hh. simpl. rewrite Hb. simpl.
  rewrite !supabase_run. simpl.
  destruct (ok response); simpl.
  - rewrite !supabase_run. simpl.
    destruct (is_null responseData); simpl; [reflexivity|].
    rewrite fetchRecentCalls_run. by destruct (error _).
  - rewrite fetchRecentCalls_run. by destruct (error _).
Qed.

(** The five ways a run of [makeApiCall] can go. *)
Lemma makeApiCall_cases rev env w :
  fst (validateInputs rev w) = Normal false ∨
  (fst (validateInputs rev w) = Normal true ∧
   ∀ p, profile (ui w) = Some p → Profile.credits p < 1) ∨
  (∃ p e, fst (validateInputs rev w) = Normal true ∧ profile (ui w) = Some p ∧
          1 ≤ Profile.credits p ∧ call_exception (http env) = Some e) ∨
  (∃ p response responseData,
     fst (validateInputs rev w) = Normal true ∧ profile (ui w) = Some p ∧
     1 ≤ Profile.credits p ∧ http env = FetchResolves response ∧
     body response = Some responseData).
Proof.
  destruct (validateInputs_decides rev w) as [Hv|Hv]; [|by left]. right.
  destruct (profile (ui w)) as [p|] eqn:Hp; [|left; split; [done|]; intros; discriminate].
  destruct (Z.lt_ge_cases (Profile.credits p) 1) as [Hc|Hc].
  { left. split; [done|]. intros p' [= <-]. exact Hc. }
  right. destruct (call_exception (http env)) as [e|] eqn:He.
  { left. by exists p, e. }
  right. unfold call_exception in He.
  destruct (http env) as [|response] eqn:Hh; [discriminate|].
  destruct (body response) as [responseData|] eqn:Hb; [|discriminate].
  by exists p, response, responseData.
Qed.

(** X1. [makeApiCall] never throws, whatever the generator and the store do, and
    it does not leave the loading flag set. *)
Theorem makeApiCall_never_throws (rev : Revision) (env : Env) (w : World) :
  fst (makeApiCall rev env w) = Normal () ∧
  (isLoading (ui w) = false → isLoading (ui (after (makeApiCall rev env) w)) = false).
Proof.
  destruct (makeApiCall_cases rev env w)
    as [Hv|[[Hv Hp]|[(p & e & Hv & Hp & Hc & He)|(p & r & d & Hv & Hp & Hc & Hh & Hb)]]].
  - unfold after. by rewrite (makeApiCall_rejected rev env w Hv).
  - unfold after. by rewrite (makeApiCall_insufficient rev env w Hv Hp).
  - unfold after. by rewrite (makeApiCall_throws rev env w p e Hv Hp Hc He).
  - split.
    + by destruct (makeApiCall_resolved rev env w p r d Hv Hp Hc Hh Hb) as [? _].
    + intros _. by apply (makeApiCall_resolved_loading rev env w p r d).
Qed.

(** What a resolved call sends, in order. *)
Lemma makeApiCall_resolved_sent rev env w p response responseData :
  fst (validateInputs rev w) = Normal true →
  profile (ui w) = Some p →
  1 ≤ Profile.credits p →
  http env = FetchResolves response →
  body response = Some responseData →
  sent (trace (after (makeApiCall rev env) w))
  = sent (trace w)
    ++ [ToGenerator (request_url rev (ui w));
        CallRecord (call_record (ui w) (ok response) responseData)]
    ++ (if ok response
        then [BalanceUpdate (Profile.credits p - 1) (user_id_of (ui w))] else []).
Proof.
  intros Hv%validateInputs_passes Hp Hc Hh Hb.
  step_component. rewrite validateInputs_run, Hv. simpl. rewrite Hp.
  destruct (Z.ltb_spec (Profile.credits p) 1); [lia|].
  simpl. rewrite Hh. simpl. rewrite Hb. simpl.
  rewrite !supabase_run. simpl.
  destruct (ok response); simpl.
  - rewrite !supabase_run. simpl.
    destruct (is_null responseData); simpl.
    + unfold sent. rewrite ?omap_app. simpl. by rewrite ?app_nil_r, <- ?app_assoc.
    + rewrite fetchRecentCalls_run.
      destruct (error _); simpl; unfold sent; rewrite ?omap_app; simpl;
        by rewrite ?app_nil_r, <- ?app_assoc.
  - rewrite fetchRecentCalls_run.
    destruct (error _); simpl; unfold sent; rewrite ?omap_app; simpl;
      by rewrite ?app_nil_r, <- ?app_assoc.
Qed.

(** X2. What one run of [makeApiCall] sends to the generator and writes to the
    store, in the order of sending, is one of: nothing; one request to the
    generator; that request and then one call record with [success = false];
    that request, then one call record with [success = true], then one
    balance update. So there is at most one of each, a balance update is
    sent only after a call record of a success, and a call record only after
    the request to the generator. *)
Theorem makeApiCall_one_of_each (rev : Revision) (env : Env) (w : World) :
  ∃ new,
    sent (trace (after (makeApiCall rev env) w)) = sent (trace w) ++ new ∧
    (new = [] ∨
     (∃ url, new = [ToGenerator url]) ∨
     (∃ url x, new = [ToGenerator url; CallRecord x] ∧ ci_success x = false) ∨
     (∃ url x c uid,
        new = [ToGenerator url; CallRecord x; BalanceUpdate c uid] ∧
        ci_success x = true)).
Proof.
  destruct (makeApiCall_cases rev env w)
    as [Hv|[[Hv Hp]|[(p & e & Hv & Hp & Hc & He)|(p & r & d & Hv & Hp & Hc & Hh & Hb)]]].
  - exists []. unfold after. rewrite (makeApiCall_rejected rev env w Hv). simpl.
    rewrite app_nil_r. split; [reflexivity|by left].
  - exists []. unfold after. rewrite (makeApiCall_insufficient rev env w Hv Hp).
    simpl. unfold sent. rewrite ?omap_app. simpl. split; [reflexivity|by left].
  - exists [ToGenerator (request_url rev (ui w))]. unfold after.
    rewrite (makeApiCall_throws rev env w p e Hv Hp Hc He). simpl.
    unfold sent. rewrite ?omap_app. simpl. split; [reflexivity|]. right. left. by eexists.
  - eexists. split; [exact (makeApiCall_resolved_sent rev env w p r d Hv Hp Hc Hh Hb)|].
    right. right. destruct (ok r) eqn:Hok; simpl.
    + right. eexists _, _, _, _. split; [reflexivity|]. by rewrite call_record_fields.
    + left. eexists _, _. split; [reflexivity|]. by rewrite call_record_fields.
Qed.

(** X3. The call log is append-only under [makeApiCall]: the rows it held are
    still there, in place, followed by at most one new row. *)
Theorem makeApiCall_appends_to_log (rev : Revision) (env : Env) (w : World) :
  ∃ new, api_calls (db (after (makeApiCall rev env) w)) = api_calls (db w) ++ new ∧
         (length new ≤ 1)%nat.
Proof.
  destruct (makeApiCall_cases rev env w)
    as [Hv|[[Hv Hp]|[(p & e & Hv & Hp & Hc & He)|(p & r & d & Hv & Hp & Hc & Hh & Hb)]]].
  - exists []. unfold after. rewrite (makeApiCall_rejected rev env w Hv). simpl.
    rewrite app_nil_r. split; [done|simpl; lia].
  - exists []. unfold after. rewrite (makeApiCall_insufficient rev env w Hv Hp). simpl.
    rewrite app_nil_r. split; [done|simpl; lia].
  - exists []. unfold after. rewrite (makeApiCall_throws rev env w p e Hv Hp Hc He). simpl.
    rewrite app_nil_r. split; [done|simpl; lia].
  - destruct (makeApiCall_resolved rev env w p r d Hv Hp Hc Hh Hb)
      as (_ & _ & _ & _ & _ & Hd).
    rewrite Hd.
    assert (Hins : ∀ x, ∃ new,
      api_calls (snd (answer env (InsertApiCall x) (insert_api_call env x) (db w)))
        = api_calls (db w) ++ new ∧ (length new ≤ 1)%nat).
    { intros x. unfold answer, insert_api_call.
      destruct (store_fails env _);
        [exists []; rewrite app_nil_r; split; [done|simpl; lia]|].
      destruct (ci_user_id x); simpl; [eexists [_]; split; [done|simpl; lia]|].
      exists []. rewrite app_nil_r. split; [done|simpl; lia]. }
    destruct (ok r); [|apply Hins].
    unfold answer at 1, update_credits.
    destruct (store_fails env (UpdateCredits _ _)); [apply Hins|].
    destruct (user_id_of (ui w)); simpl; apply Hins.
Qed.

Lemma makeApiCall_resolved_cells rev env w p response responseData :
  fst (validateInputs rev w) = Normal true →
  profile (ui w) = Some p →
  1 ≤ Profile.credits p →
  http env = FetchResolves response →
  body response = Some responseData →
  let w' := after (makeApiCall rev env) w in
  user (ui w') = user (ui w) ∧
  (ok response && is_null responseData = false →
   recentCalls (ui w') =
     match error (recent_answer env w') with
     | Some _ => recentCalls (ui w)
     | None => default [] (data (recent_answer env w'))
     end).
Proof.
  intros Hv%validateInputs_passes Hp Hc Hh Hb.
  step_component. rewrite validateInputs_run, Hv. simpl. rewrite Hp.
  destruct (Z.ltb_spec (Profile.credits p) 1); [lia|].
  simpl. rewrite Hh. simpl. rewrite Hb. simpl.
  rewrite !supabase_run. simpl.
  destruct (ok response); simpl.
  - rewrite !supabase_run. simpl.
    destruct (is_null responseData); simpl; [split; [done|discriminate]|].
    rewrite fetchRecentCalls_run. unfold recent_answer, user_id_of. simpl.
    match goal with
    | |- context [match error ?a with _ => _ end] => destruct (error a) eqn:E
    end; simpl; rewrite E; by split.
  - rewrite fetchRecentCalls_run. unfold recent_answer, user_id_of. simpl.
    match goal with
    | |- context [match error ?a with _ => _ end] => destruct (error a) eqn:E
    end; simpl; rewrite E; by split.
Qed.



Lemma credited_sets_balance e c u rows :
  Forall (λ q, Profile.user_id q = u → Profile.credits q = c) (credited e c u rows).
Proof.
  unfold credited. apply Forall_map, Forall_forall. intros q _. simpl.
  case_bool_decide; [done|]. simpl. intros Hq. done.
Qed.

(** X5. When the store serves what it is sent, [makeApiCall] keeps the balance
    in memory equal to the stored balance of the signed-in user. *)
Theorem makeApiCall_keeps_in_sync (rev : Revision) (env : Env) (w : World) :
  (∀ q, store_fails env q = false) →
  in_sync w →
  in_sync (after (makeApiCall rev env) w).
Proof.
  intros Hs Hsync.
  destruct (makeApiCall_cases rev env w)
    as [Hv|[[Hv Hp]|[(p & e & Hv & Hp & Hc & He)|(p & r & d & Hv & Hp & Hc & Hh & Hb)]]].
  - unfold after. rewrite (makeApiCall_rejected rev env w Hv). exact Hsync.
  - unfold after. rewrite (makeApiCall_insufficient rev env w Hv Hp). exact Hsync.
  - unfold after. rewrite (makeApiCall_throws rev env w p e Hv Hp Hc He). exact Hsync.
  - destruct (makeApiCall_resolved rev env w p r d Hv Hp Hc Hh Hb)
      as (_ & _ & _ & _ & Hm & Hd).
    destruct (makeApiCall_resolved_cells rev env w p r d Hv Hp Hc Hh Hb) as [Hu _].
    intros u p'. rewrite Hu, Hm, Hd. intros Hus [= <-].
    rewrite (user_id_of_signed_in _ _ Hus).
    destruct (ok r).
    + unfold answer at 1, update_credits. rewrite Hs. simpl.
      apply credited_sets_balance.
    + rewrite answer_insert_api_call_profiles. by apply Hsync.
Qed.

(** A run in sync: the example of the specification again. *)
Lemma makeApiCall_keeps_in_sync_witness :
  in_sync (after (makeApiCall ConfigurableUrl
                    (healthy (FetchResolves (mkResponse true (Some generated)))))
             (world 3 "401658" 10 12 2028)).
Proof.
  apply makeApiCall_keeps_in_sync; [reflexivity|].
  intros u p [= <-] [= <-]. apply Forall_cons. split; [reflexivity|constructor].
Defined.

(** X6. A served [fetchProfile] leaves the component in sync with the store:
    the [profile] cell holds the user's stored row. *)
Theorem fetchProfile_in_sync (env : Env) (w : World) (u : AuthUser.t) :
  user (ui w) = Some u →
  unique_user_ids (db w) →
  (∀ q, store_fails env q = false) →
  is_Some (profile (ui (after (fetchProfile env) w))) ∧
  in_sync (after (fetchProfile env) w).
Proof.
  intros Hu Hnd Hs. unfold after. rewrite (fetchProfile_run env w u Hu). cbv zeta.
  rewrite !Hs. simpl.
  destruct (profiles_of (AuthUser.id u) (db w)) as [|p1 [|p2 l]] eqn:Hof.
  - split; [by eexists|]. intros u' p'. simpl. rewrite Hu. intros [= <-] [= <-].
    apply Forall_app. split; [|by apply Forall_singleton].
    apply Forall_forall. intros q Hq Hid. exfalso.
    assert (q ∈ profiles_of (AuthUser.id u) (db w))
      by (by apply list_elem_of_filter).
    rewrite Hof in *. by eapply elem_of_nil.
  - split; [by eexists|]. intros u' p'. simpl. rewrite Hu. intros [= <-] [= <-].
    apply Forall_forall. intros q Hq Hid.
    assert (Hq' : q ∈ profiles_of (AuthUser.id u) (db w))
      by (by apply list_elem_of_filter).
    rewrite Hof in Hq'. apply list_elem_of_singleton in Hq'. by subst q.
  - exfalso.
    assert (Hp1 : p1 ∈ profiles_of (AuthUser.id u) (db w)) by (rewrite Hof; left).
    apply list_elem_of_filter in Hp1 as [Hid Hin].
    rewrite (profiles_of_unique _ p1 _ Hnd Hin Hid) in Hof. discriminate.
Qed.

(** A newcomer's first visit. *)
Lemma fetchProfile_in_sync_witness :
  is_Some (profile (ui (after (fetchProfile (healthy FetchRejects)) newcomer))) ∧
  in_sync (after (fetchProfile (healthy FetchRejects)) newcomer).
Proof.
  apply (fetchProfile_in_sync (healthy FetchRejects) newcomer alice);
    [reflexivity | apply NoDup_singleton | reflexivity].
Defined.

Lemma credited_admin_flags e c u rows :
  Profile.is_admin <$> credited e c u rows = Profile.is_admin <$> rows.
Proof.
  unfold credited. induction rows as [|q rows IH]; [reflexivity|].
  rewrite map_cons, !fmap_cons. f_equal; [|exact IH]. by case_bool_decide.
Qed.

Lemma is_admin_credited e c u d uid :
  is_admin (mkDatabase (credited e c u (profiles d)) (api_calls d)) uid = is_admin d uid.
Proof.
  unfold is_admin. destruct uid as [v|]; [|reflexivity]. simpl.
  unfold credited. induction (profiles d) as [|q rows IH]; [reflexivity|].
  rewrite map_cons. simpl. rewrite IH.
  by destruct (bool_decide (Profile.user_id q = u)).
Qed.

Lemma is_admin_profiles d d' uid :
  profiles d' = profiles d → is_admin d' uid = is_admin d uid.
Proof. unfold is_admin. by intros ->. Qed.

(** X7. [makeApiCall] touches balances only: it adds and removes no profile,
    changes no profile's owner or admin flag, and so leaves the answer of
    [is_admin] as it was for everybody. *)
Theorem makeApiCall_touches_balances_only (rev : Revision) (env : Env) (w : World) :
  Profile.user_id <$> profiles (db (after (makeApiCall rev env) w))
    = Profile.user_id <$> profiles (db w) ∧
  Profile.is_admin <$> profiles (db (after (makeApiCall rev env) w))
    = Profile.is_admin <$> profiles (db w) ∧
  ∀ uid, is_admin (db (after (makeApiCall rev env) w)) uid = is_admin (db w) uid.
Proof.
  destruct (makeApiCall_profiles rev env w) as [E|(p & u & _ & _ & E)].
  - rewrite E. repeat split. intros uid. by apply is_admin_profiles.
  - rewrite E, credited_user_ids, credited_admin_flags. repeat split.
    intros uid. rewrite <- (is_admin_credited env (Profile.credits p - 1) u (db w) uid).
    by apply is_admin_profiles.
Qed.

(** A record newer than all the others sorts first. *)
Lemma newest_sorts_first (l : list ApiCall.t) (row : ApiCall.t) :
  Forall (λ c, ApiCall.created_at c < ApiCall.created_at row) l →
  head (merge_sort newer_first (l ++ [row])) = Some row.
Proof.
  intros Hold.
  pose proof (merge_sort_Permutation newer_first (l ++ [row])) as Hperm.
  pose proof (StronglySorted_merge_sort newer_first (l ++ [row])) as Hs.
  destruct (merge_sort newer_first (l ++ [row])) as [|h t] eqn:E.
  { apply Permutation_nil_l in Hperm. by destruct l. }
  simpl. f_equal.
  assert (Hh : h ∈ l ++ [row]) by (rewrite <- Hperm; left).
  apply elem_of_app in Hh as [Hh|Hh]; [|by apply list_elem_of_singleton in Hh].
  exfalso. rewrite Forall_forall in Hold. specialize (Hold h Hh).
  assert (Hr : row ∈ h :: t) by (rewrite Hperm; apply elem_of_app; right; left).
  apply StronglySorted_cons in Hs as [Ht _].
  apply elem_of_cons in Hr as [->|Hr]; [lia|].
  rewrite Forall_forall in Ht. specialize (Ht row Hr). unfold newer_first in Ht. lia.
Qed.

(** X8. After a call that is logged, and unless the success toast has thrown on
    a [null] body, the recent-activity list is reloaded: with a store that
    serves its requests and stamps the insert later than every earlier call
    of the user, the list is headed by the new row, as the store keeps it
    (the response in the normal form of its JSONB column, the error message
    as the text of its TEXT column). *)
Theorem makeApiCall_shows_new_call (rev : Revision) (env : Env) (w : World)
  (u : AuthUser.t) (p : Profile.t) (response : Response) (responseData : Json) :
  fst (validateInputs rev w) = Normal true →
  user (ui w) = Some u →
  profile (ui w) = Some p →
  1 ≤ Profile.credits p →
  http env = FetchResolves response →
  body response = Some responseData →
  ok response && is_null responseData = false →
  (∀ q, store_fails env q = false) →
  Forall (λ c, ApiCall.created_at c
               < clock env (InsertApiCall (call_record (ui w) (ok response) responseData)))
    (calls_of (AuthUser.id u) (db w)) →
  head (recentCalls (ui (after (makeApiCall rev env) w)))
    = Some (stored_call env (AuthUser.id u)
              (call_record (ui w) (ok response) responseData)).
Proof.
  intros Hv Hu Hp Hc Hh Hb Hnull Hs Hold.
  destruct (makeApiCall_resolved rev env w p response responseData Hv Hp Hc Hh Hb)
    as (_ & _ & _ & _ & _ & Hd).
  destruct (makeApiCall_resolved_cells rev env w p response responseData Hv Hp Hc Hh Hb)
    as [Hu' Hr].
  rewrite (Hr Hnull). unfold recent_answer, answer. rewrite Hs.
  unfold user_id_of. rewrite Hu', Hu. simpl. unfold select_recent_calls. simpl.
  set (x := call_record (ui w) (ok response) responseData) in *.
  assert (Hcalls : api_calls (db (after (makeApiCall rev env) w))
                   = api_calls (db w) ++ [stored_call env (AuthUser.id u) x]).
  { rewrite Hd.
    assert (Hins : snd (answer env (InsertApiCall x) (insert_api_call env x) (db w))
                   = mkDatabase (profiles (db w))
                       (api_calls (db w) ++ [stored_call env (AuthUser.id u) x])).
    { apply answer_insert_api_call_served; [apply Hs|].
      subst x. rewrite call_record_fields. simpl. by apply user_id_of_signed_in. }
    destruct (ok response); [|by rewrite Hins].
    unfold answer at 1, update_credits. rewrite Hs.
    rewrite (user_id_of_signed_in _ _ Hu). simpl. by rewrite Hins. }
  unfold calls_of. rewrite Hcalls, filter_app, filter_cons_True by done.
  rewrite filter_nil.
  pose proof (newest_sorts_first (calls_of (AuthUser.id u) (db w))
                (stored_call env (AuthUser.id u) x) Hold) as Hhead.
  unfold calls_of in Hhead.
  destruct (merge_sort newer_first _) as [|h t]; [discriminate|]. exact Hhead.
Qed.

(** Alice's seventh call goes to the top of her list. *)
Lemma makeApiCall_shows_new_call_witness :
  ApiCall.id <$> head (recentCalls (ui (after (makeApiCall ConfigurableUrl
      (later (FetchResolves (mkResponse true (Some generated)))))
      busy))) = Some "c-8"%string.
Proof.
  rewrite (makeApiCall_shows_new_call ConfigurableUrl
             (later (FetchResolves (mkResponse true (Some generated))))
             busy alice (alice_profile 3) (mkResponse true (Some generated)) generated);
    [reflexivity | vm_compute; reflexivity | reflexivity | reflexivity | simpl; lia
    | reflexivity | reflexivity | reflexivity | reflexivity |].
  vm_compute. repeat constructor.
Defined.

(** Balances of 3 and 5 stay non-negative. *)
Lemma makeApiCall_balance_nonneg_witness :
  Forall (λ q, 0 ≤ Profile.credits q)
    (profiles (db (after (makeApiCall FixedUrl
       (healthy (FetchResolves (mkResponse true (Some generated)))))
       busy))).
Proof.
  apply makeApiCall_balance_nonneg.
  repeat (apply Forall_cons; split; [simpl; lia|]). constructor.
Defined.

(** The newcomer's profile is created once. *)
Lemma fetchProfile_unique_user_ids_witness :
  unique_user_ids (db (after (fetchProfile (healthy FetchRejects)) newcomer)).
Proof.
  apply (fetchProfile_unique_user_ids (healthy FetchRejects) newcomer alice);
    [reflexivity | apply NoDup_singleton].
Defined.

(** * The admin panel, the settings and the page shell *)

(** ** The store under the policies *)

Lemma update_profiles_calls uid target f st :
  api_calls (tables (update_profiles uid target f st)) = api_calls (tables st).
Proof. reflexivity. Qed.

Lemma update_profiles_settings uid target f st :
  api_settings (update_profiles uid target f st) = api_settings st.
Proof. reflexivity. Qed.

Lemma update_profiles_user_ids uid target f st :
  (∀ p, Profile.user_id (f p) = Profile.user_id p) →
  Profile.user_id <$> profiles (tables (update_profiles uid target f st))
    = Profile.user_id <$> profiles (tables st).
Proof.
  intros Hf. unfold update_profiles. simpl.
  induction (profiles (tables st)) as [|q rows IH]; [reflexivity|].
  rewrite map_cons, !fmap_cons. f_equal; [|exact IH].
  destruct (_ && _); [apply Hf|reflexivity].
Qed.

Lemma update_profiles_nonneg uid target f st :
  (∀ p, 0 ≤ Profile.credits p → 0 ≤ Profile.credits (f p)) →
  balances_nonneg (profiles (tables st)) →
  balances_nonneg (profiles (tables (update_profiles uid target f st))).
Proof.
  intros Hf H. unfold update_profiles, balances_nonneg. simpl.
  apply Forall_map. eapply Forall_impl; [exact H|]. intros q Hq. simpl.
  destruct (_ && _); [by apply Hf|exact Hq].
Qed.

(** A session that is neither the owner nor an administrator changes
    nothing. *)
Lemma update_profiles_denied uid target f st :
  is_admin (tables st) uid = false →
  uid ≠ Some target →
  update_profiles uid target f st = st.
Proof.
  intros Ha Hu. unfold update_profiles. destruct st as [[rows calls] settings]. simpl in *.
  f_equal. f_equal. rewrite <- (map_id rows) at 2. apply map_ext_in. intros p _.
  unfold profile_updatable, is_own. simpl. rewrite Ha, orb_false_r.
  destruct (bool_decide (Profile.user_id p = target)) eqn:E; [|reflexivity].
  apply bool_decide_eq_true in E. subst target.
  by rewrite bool_decide_eq_false_2.
Qed.

Lemma update_setting_tables cond uid v key st :
  tables (update_setting cond uid v key st) = tables st.
Proof. unfold update_setting. destruct v; [|reflexivity]. by destruct (settings_allowed _ _). Qed.

Lemma update_setting_keys cond uid v key st :
  Setting.setting_key <$> api_settings (update_setting cond uid v key st)
    = Setting.setting_key <$> api_settings st.
Proof.
  unfold update_setting. destruct v as [v|]; [|reflexivity].
  destruct (settings_allowed _ _); [|reflexivity]. simpl.
  induction (api_settings st) as [|s rows IH]; [reflexivity|].
  rewrite map_cons, !fmap_cons. f_equal; [|exact IH]. by case_bool_decide.
Qed.

Lemma select_users_visible uid st :
  select_users uid st ≡ₚ visible_profiles uid (tables st).
Proof. apply merge_sort_Permutation. Qed.

Lemma select_users_nonneg uid st :
  balances_nonneg (profiles (tables st)) → balances_nonneg (select_users uid st).
Proof.
  unfold balances_nonneg. intros H. rewrite select_users_visible.
  unfold visible_profiles. rewrite !Forall_forall in *.
  intros q Hq. apply list_elem_of_filter in Hq as [_ Hq]. by apply H.
Qed.

(** ** Running the panel's operations *)

Lemma set_users_same (c : AdminPanel.Panel) : AdminPanel.set_users (AdminPanel.users c) c = c.
Proof. by destruct c. Qed.

Lemma fetchUsers_run uid cond (w : Site AdminPanel.Panel) :
  AdminPanel.fetchUsers uid cond w =
    (Done (),
     if refuses cond SelectUsers then
       mkSite (store w) (cells w)
         (notes w ++ [Asked SelectUsers;
                      Complained "Error fetching users:" (Rejected Unavailable);
                      Notified (Plain "Error" "Failed to load users" true)])
     else
       mkSite (store w) (AdminPanel.set_users (select_users uid (store w)) (cells w))
         (notes w ++ [Asked SelectUsers])).
Proof.
  step_panel. destruct (refuses cond SelectUsers); simpl; [|reflexivity].
  by rewrite <- !app_assoc.
Qed.


Ltac refresh_users :=
  rewrite fetchUsers_run;
  match goal with
  | |- context [refuses ?c SelectUsers] => destruct (refuses c SelectUsers)
  end; simpl.

(** A balance update is written as asked, or turned down with nothing
    changed. *)
Lemma update_profile_credits_cases t uid target amount st :
  update_profile_credits t uid target amount st
    = (pg_ok None, update_profiles uid target (stamp_credits t amount) st) ∨
  update_profile_credits t uid target amount st = (pg_err OutOfRange, st).
Proof. unfold update_profile_credits. destruct (_ && _); [by right|by left]. Qed.

Lemma update_profile_credits_in_range t uid target amount st :
  int4 amount = true →
  update_profile_credits t uid target amount st
    = (pg_ok None, update_profiles uid target (stamp_credits t amount) st).
Proof. intros Hr. unfold update_profile_credits. by rewrite Hr. Qed.

Lemma update_profile_credits_no_row t uid target amount st :
  is_admin (tables st) uid = false → uid ≠ Some target →
  update_profile_credits t uid target amount st
    = (pg_ok None, update_profiles uid target (stamp_credits t amount) st).
Proof.
  intros Ha Hother. unfold update_profile_credits.
  replace (existsb _ _) with false; [by rewrite andb_false_r|].
  symmetry. apply not_true_is_false. intros Hex.
  apply existsb_exists in Hex as (p & _ & Hp).
  apply andb_true_iff in Hp as [Hid Hup]. apply bool_decide_eq_true in Hid.
  unfold profile_updatable, is_own in Hup. rewrite Ha, orb_false_r in Hup.
  apply bool_decide_eq_true in Hup. congruence.
Qed.

Lemma perform_step uid cond a w : store_step uid cond w (ending (perform uid cond a) w).
Proof.
  unfold store_step. destruct a as [v|n|k v| | |target amount|target flag| |key]; simpl.
  - split; left; reflexivity.
  - split; left; reflexivity.
  - split; left; reflexivity.
  - unfold ending. refresh_users; split; (by left) || (by right).
  - unfold ending, AdminPanel.addCredits, mbind, Act_bind, cell.
    destruct (_ || _) eqn:Hguard; [split; by left|].
    apply orb_false_iff in Hguard as [_ Hn]. apply Z.leb_gt in Hn.
    unfold attempt_finally, attempt, assign, notify, complain, entry, raise, ask,
      mbind, Act_bind. simpl.
    destruct (list_find _ _) as [[i u]|] eqn:Hfind; simpl; [|split; by left].
    apply list_find_Some in Hfind as (Hi & _ & _).
    destruct (refuses cond (UpdateProfileCredits _ _)); simpl; [split; by left|].
    assert (Hamount : balances_nonneg (AdminPanel.users (cells w)) →
                      0 ≤ Profile.credits u + AdminPanel.creditsToAdd (cells w)).
    { intros Hnn. unfold balances_nonneg in Hnn. rewrite Forall_forall in Hnn.
      specialize (Hnn u (list_elem_of_lookup_2 _ _ _ Hi)). lia. }
    destruct (update_profile_credits_cases (now cond) uid
                (AdminPanel.selectedUser (cells w))
                (Profile.credits u + AdminPanel.creditsToAdd (cells w)) (store w))
      as [-> | ->]; simpl; [|split; by left].
    refresh_users; (split; [right; left; eauto|]); (by left) || (by right).
  - unfold ending, AdminPanel.setCreditsToAmount.
    destruct (Z.ltb_spec amount 0); [split; by left|].
    unfold attempt_finally, attempt, assign, notify, complain, entry, raise, ask,
      mbind, Act_bind. simpl.
    destruct (refuses cond (UpdateProfileCredits _ _)); simpl; [split; by left|].
    destruct (update_profile_credits_cases (now cond) uid target amount (store w))
      as [-> | ->]; simpl; [|split; by left].
    refresh_users; (split; [right; left; eauto|]); (by left) || (by right).
  - unfold ending, AdminPanel.toggleAdmin.
    unfold attempt, assign, notify, complain, entry, raise, ask, mbind, Act_bind. simpl.
    destruct (refuses cond (UpdateProfileAdmin _ _)); simpl; [split; by left|].
    refresh_users; (split; [right; right; left; eauto|]); (by left) || (by right).
  - step_panel. destruct (refuses cond SelectSettings); simpl; split; by left.
  - step_panel. simpl.
    destruct (refuses cond (UpdateSetting _ _)); simpl; [split; by left|].
    destruct (refuses cond SelectSettings); simpl;
      (split; [right; right; right; eauto|by left]).
Qed.

(** X11. No sequence of operations at the admin panel, by any session and
    whatever the store answers, touches the call log, adds or removes a
    profile or a setting, or changes the owner of a profile or the key of a
    setting. *)
Theorem session_frames (uid : option uuid) (cond : Conditions) (acts : list Action)
  (w : Site AdminPanel.Panel) :
  api_calls (tables (store (session uid cond acts w))) = api_calls (tables (store w)) ∧
  Profile.user_id <$> profiles (tables (store (session uid cond acts w)))
    = Profile.user_id <$> profiles (tables (store w)) ∧
  Setting.setting_key <$> api_settings (store (session uid cond acts w))
    = Setting.setting_key <$> api_settings (store w).
Proof.
  revert w. induction acts as [|a acts IH]; intros w; [done|].
  simpl. destruct (IH (ending (perform uid cond a) w)) as (-> & -> & ->).
  destruct (perform_step uid cond a w)
    as [[->|[(t & n & _ & ->)|[(t & b & ->)|(v & k & ->)]]] _].
  - done.
  - by rewrite update_profiles_user_ids.
  - by rewrite update_profiles_user_ids.
  - by rewrite update_setting_tables, update_setting_keys.
Qed.

(** X12. No sequence of operations at the admin panel makes a balance negative:
    [addCredits] adds a positive amount to a listed balance and
    [setCreditsToAmount] refuses a negative one. *)
Theorem session_balances_nonneg (uid : option uuid) (cond : Conditions)
  (acts : list Action) (w : Site AdminPanel.Panel) :
  balances_nonneg (profiles (tables (store w))) →
  balances_nonneg (AdminPanel.users (cells w)) →
  balances_nonneg (profiles (tables (store (session uid cond acts w)))) ∧
  balances_nonneg (AdminPanel.users (cells (session uid cond acts w))).
Proof.
  revert w. induction acts as [|a acts IH]; intros w Hs Hu; [done|].
  simpl. apply IH.
  - destruct (perform_step uid cond a w)
      as [[->|[(t & n & Hn & ->)|[(t & b & ->)|(v & k & ->)]]] _].
    + done.
    + apply update_profiles_nonneg; [|done]. intros p _. simpl. by apply Hn.
    + by apply update_profiles_nonneg.
    + by rewrite update_setting_tables.
  - destruct (perform_step uid cond a w) as [Hstore [->| ->]]; [done|].
    apply select_users_nonneg.
    destruct Hstore as [->|[(t & n & Hn & ->)|[(t & b & ->)|(v & k & ->)]]].
    + done.
    + apply update_profiles_nonneg; [|done]. intros p _. simpl. by apply Hn.
    + by apply update_profiles_nonneg.
    + by rewrite update_setting_tables.
Qed.

(** Alice sets her amount field to -5, asks to set her own credits to -5,
    then adds 4 to herself and lets Bob's be toggled: no balance is
    negative. *)
Lemma session_balances_nonneg_witness :
  balances_nonneg
    (profiles (tables (store (session (Some "u-2") calm
       [Select "u-1"; TypeAmount (-5); SetCredits "u-1" (-5); AddCredits;
        TypeAmount 4; AddCredits; ToggleAdmin "u-2" true]
       (admin_site "" 0))))) ∧
  map Profile.credits
    (profiles (tables (store (session (Some "u-2") calm
       [Select "u-1"; TypeAmount (-5); SetCredits "u-1" (-5); AddCredits;
        TypeAmount 4; AddCredits; ToggleAdmin "u-2" true]
       (admin_site "" 0))))) = [7; 5].
Proof.
  split; [|vm_compute; reflexivity].
  apply session_balances_nonneg;
    repeat (apply Forall_cons; split; [simpl; lia|]); constructor.
Defined.

(** ** Adding and setting credits *)

(** X13. [addCredits] sends nothing to the store unless a user is selected, the
    amount is positive and the selected user is in the list shown: otherwise
    the tables, the selection and the list stay as they are and one alarm is
    shown. *)
Theorem addCredits_refused (uid : option uuid) (cond : Conditions)
  (w : Site AdminPanel.Panel) :
  AdminPanel.selectedUser (cells w) = "" ∨
  AdminPanel.creditsToAdd (cells w) ≤ 0 ∨
  (∀ u, u ∈ AdminPanel.users (cells w) →
        Profile.user_id u ≠ AdminPanel.selectedUser (cells w)) →
  let w' := ending (AdminPanel.addCredits uid cond) w in
  store w' = store w ∧
  requests (notes w') = requests (notes w) ∧
  AdminPanel.selectedUser (cells w') = AdminPanel.selectedUser (cells w) ∧
  AdminPanel.creditsToAdd (cells w') = AdminPanel.creditsToAdd (cells w) ∧
  AdminPanel.users (cells w') = AdminPanel.users (cells w) ∧
  ∃ heading text, notices (notes w') = notices (notes w) ++ [Plain heading text true].
Proof.
  intros H. cbv zeta.
  unfold ending, AdminPanel.addCredits, mbind, Act_bind, cell.
  destruct (_ || _) eqn:Hguard.
  { unfold notify, entry; simpl. unfold requests, notices. rewrite !omap_app. simpl.
    rewrite app_nil_r. repeat split; eauto. }
  apply orb_false_iff in Hguard as [Hsel Hn].
  apply String.eqb_neq in Hsel. apply Z.leb_gt in Hn.
  destruct H as [H|[H|H]]; [done|lia|].
  unfold attempt_finally, attempt, assign, notify, complain, entry, raise, ask,
    mbind, Act_bind. simpl.
  destruct (list_find _ _) as [[i u]|] eqn:Hfind; simpl.
  { apply list_find_Some in Hfind as (Hi & Hu & _).
    by destruct (H u (list_elem_of_lookup_2 _ _ _ Hi)). }
  unfold requests, notices. rewrite !omap_app. simpl. rewrite !app_nil_r.
  repeat split; eauto.
Qed.

(** An amount of 0. *)
Lemma addCredits_refused_witness :
  store (ending (AdminPanel.addCredits (Some "u-2") calm) (admin_site "u-1" 0)) = office ∧
  notices (notes (ending (AdminPanel.addCredits (Some "u-2") calm) (admin_site "u-1" 0)))
    = [Plain "Invalid input" "Please select a user and enter a valid credit amount" true].
Proof.
  destruct (addCredits_refused (Some "u-2") calm (admin_site "u-1" 0)) as (Hs & _);
    [right; left; simpl; lia|].
  split; [exact Hs | vm_compute; reflexivity].
Defined.

Lemma unique_row d p q :
  unique_user_ids d → p ∈ profiles d → q ∈ profiles d →
  Profile.user_id q = Profile.user_id p → q = p.
Proof.
  intros Hnd Hp Hq Hid.
  pose proof (profiles_of_unique (Profile.user_id p) p d Hnd Hp eq_refl) as Hof.
  assert (Hq' : q ∈ profiles_of (Profile.user_id p) d)
    by (by apply list_elem_of_filter).
  rewrite Hof in Hq'. by apply list_elem_of_singleton in Hq'.
Qed.

(** X14. [addCredits] by an administrator, on a user picked from a list that is
    as [fetchUsers] left it, with a sum that fits the INTEGER column and a
    store that serves its requests and keeps [user_id] unique: the balance
    of the selected user goes up by exactly the amount typed, every other
    profile is as before, the form is reset and the success notice is
    shown. *)
Theorem addCredits_adds (uid : option uuid) (cond : Conditions)
  (w : Site AdminPanel.Panel) (p : Profile.t) :
  is_admin (tables (store w)) uid = true →
  unique_user_ids (tables (store w)) →
  AdminPanel.users (cells w) = select_users uid (store w) →
  p ∈ profiles (tables (store w)) →
  AdminPanel.selectedUser (cells w) = Profile.user_id p →
  Profile.user_id p ≠ "" →
  0 < AdminPanel.creditsToAdd (cells w) →
  int4 (Profile.credits p + AdminPanel.creditsToAdd (cells w)) = true →
  (∀ r, refuses cond r = false) →
  let w' := ending (AdminPanel.addCredits uid cond) w in
  let n := AdminPanel.creditsToAdd (cells w) in
  profiles (tables (store w')) =
    map (λ q, if bool_decide (Profile.user_id q = Profile.user_id p)
              then stamp_credits (now cond) (Profile.credits q + n) q else q)
        (profiles (tables (store w))) ∧
  api_calls (tables (store w')) = api_calls (tables (store w)) ∧
  notices (notes w') = notices (notes w) ++ [CreditsAdded n] ∧
  AdminPanel.selectedUser (cells w') = "" ∧
  AdminPanel.creditsToAdd (cells w') = 0 ∧
  AdminPanel.isLoading (cells w') = false ∧
  AdminPanel.users (cells w') = select_users uid (store w').
Proof.
  intros Ha Hnd Hlist Hp Hsel Hne Hn Hfits Hserved. cbv zeta.
  unfold ending, AdminPanel.addCredits, mbind, Act_bind, cell.
  rewrite Hsel. apply String.eqb_neq in Hne. rewrite Hne.
  destruct (Z.leb_spec (AdminPanel.creditsToAdd (cells w)) 0); [lia|]. simpl.
  unfold attempt_finally, attempt, assign, notify, complain, entry, raise, ask,
    mbind, Act_bind. simpl.
  destruct (list_find _ _) as [[i u]|] eqn:Hfind; simpl.
  2: { exfalso. apply list_find_None in Hfind. rewrite Forall_forall in Hfind.
       apply (Hfind p); [|done]. rewrite Hlist, select_users_visible.
       apply list_elem_of_filter. split; [|done].
       unfold profile_visible. by rewrite Ha, orb_true_r. }
  apply list_find_Some in Hfind as (Hi & Hu & _).
  assert (u = p) as ->.
  { apply list_elem_of_lookup_2 in Hi. rewrite Hlist, select_users_visible in Hi.
    apply list_elem_of_filter in Hi as [_ Hi]. by apply (unique_row (tables (store w))). }
  rewrite Hserved, update_profile_credits_in_range by done. simpl.
  rewrite fetchUsers_run, Hserved. simpl.
  unfold notices. rewrite !omap_app. simpl. rewrite !app_nil_r.
  repeat split.
  unfold update_profiles. simpl. apply map_ext_in. intros q Hq.
  unfold profile_updatable. rewrite Ha, orb_true_r, andb_true_r.
  case_bool_decide as Hid; [|done].
  apply list_elem_of_In in Hq.
  by rewrite (unique_row (tables (store w)) p q Hnd Hp Hq Hid).
Qed.

(** Bob, the administrator, adds 4 credits to Alice's 3. *)
Lemma addCredits_adds_witness :
  map (λ q, (Profile.user_id q, Profile.credits q))
    (profiles (tables (store (ending (AdminPanel.addCredits (Some "u-2") calm)
       (ending (AdminPanel.fetchUsers (Some "u-2") calm) (admin_site "u-1" 4))))))
    = [("u-1"%string, 7); ("u-2"%string, 5)].
Proof.
  destruct (addCredits_adds (Some "u-2") calm
              (ending (AdminPanel.fetchUsers (Some "u-2") calm) (admin_site "u-1" 4))
              (alice_profile 3)) as (Hp & _);
    [reflexivity
    | unfold unique_user_ids; simpl; apply NoDup_cons; split;
        [by intros ?%list_elem_of_singleton | apply NoDup_singleton]
    | reflexivity | left | reflexivity | done | simpl; lia | reflexivity
    | reflexivity |].
  rewrite Hp. reflexivity.
Defined.

(** [setCreditsToAmount] turns a negative amount down before anything is
    sent: the site is as before but for one alarm. *)
Theorem setCreditsToAmount_negative (uid : option uuid) (cond : Conditions)
  (w : Site AdminPanel.Panel) (userId : uuid) (amount : Z) :
  amount < 0 →
  AdminPanel.setCreditsToAmount uid cond userId amount w =
    (Done (),
     mkSite (store w) (cells w)
       (notes w ++ [Notified (Plain "Invalid input" "Credits cannot be negative" true)])).
Proof.
  intros H. unfold AdminPanel.setCreditsToAmount.
  by destruct (Z.ltb_spec amount 0); [|lia].
Qed.

Lemma setCreditsToAmount_negative_witness :
  store (ending (AdminPanel.setCreditsToAmount (Some "u-2") calm "u-1" (-1))
           (admin_site "u-1" (-1))) = office.
Proof.
  unfold ending.
  rewrite (setCreditsToAmount_negative (Some "u-2") calm (admin_site "u-1" (-1)) "u-1" (-1));
    [reflexivity | lia].
Defined.

(** X15. [setCreditsToAmount] by an administrator, or by the user on their own
    id, with an amount from 0 to 2147483647, the largest the INTEGER column
    holds, and a store that serves its requests: every profile of that user
    gets exactly the amount, every other profile is as before, the call log
    is untouched, and the list of users is reloaded. *)
Theorem setCreditsToAmount_sets (uid : option uuid) (cond : Conditions)
  (w : Site AdminPanel.Panel) (userId : uuid) (amount : Z) :
  0 ≤ amount ≤ 2147483647 →
  is_admin (tables (store w)) uid = true ∨ uid = Some userId →
  (∀ r, refuses cond r = false) →
  let w' := ending (AdminPanel.setCreditsToAmount uid cond userId amount) w in
  profiles (tables (store w')) =
    map (λ q, if bool_decide (Profile.user_id q = userId)
              then stamp_credits (now cond) amount q else q)
        (profiles (tables (store w))) ∧
  api_calls (tables (store w')) = api_calls (tables (store w)) ∧
  notices (notes w') = notices (notes w) ++ [CreditsSet amount] ∧
  AdminPanel.isLoading (cells w') = false ∧
  AdminPanel.users (cells w') = select_users uid (store w').
Proof.
  intros Hn Hmay Hserved. cbv zeta.
  assert (Hfits : int4 amount = true)
    by (unfold int4; apply andb_true_iff; split; apply Z.leb_le; lia).
  unfold ending, AdminPanel.setCreditsToAmount.
  destruct (Z.ltb_spec amount 0); [lia|].
  unfold attempt_finally, attempt, assign, notify, complain, entry, raise, ask,
    mbind, Act_bind. simpl.
  rewrite Hserved, update_profile_credits_in_range by done. simpl.
  rewrite fetchUsers_run, Hserved. simpl.
  unfold notices. rewrite !omap_app. simpl. rewrite !app_nil_r.
  repeat split.
  unfold update_profiles. simpl. apply map_ext_in. intros q _.
  case_bool_decide as Hid; [|done]. simpl.
  unfold profile_updatable, is_own. destruct Hmay as [->| ->].
  - by rewrite orb_true_r.
  - by rewrite Hid, bool_decide_eq_true_2.
Qed.

Lemma setCreditsToAmount_sets_witness :
  map (λ q, (Profile.user_id q, Profile.credits q))
    (profiles (tables (store (ending
       (AdminPanel.setCreditsToAmount (Some "u-2") calm "u-1" 0) (admin_site "u-1" 0)))))
    = [("u-1"%string, 0); ("u-2"%string, 5)].
Proof.
  destruct (setCreditsToAmount_sets (Some "u-2") calm (admin_site "u-1" 0) "u-1" 0)
    as (Hp & _); [lia | left; reflexivity | reflexivity |].
  rewrite Hp. reflexivity.
Defined.

(** The amount that does not fit: an administrator asks for 2147483648 or
    more for a user who has a profile. The store turns the update down,
    nothing is written, and the panel shows its alarm. *)
Lemma setCreditsToAmount_out_of_range (uid : option uuid) (cond : Conditions)
  (w : Site AdminPanel.Panel) (userId : uuid) (amount : Z) :
  2147483647 < amount →
  is_admin (tables (store w)) uid = true →
  (∃ p, p ∈ profiles (tables (store w)) ∧ Profile.user_id p = userId) →
  refuses cond (UpdateProfileCredits amount userId) = false →
  let w' := ending (AdminPanel.setCreditsToAmount uid cond userId amount) w in
  store w' = store w ∧
  notices (notes w') = notices (notes w) ++ [Plain "Error" "Failed to set credits" true].
Proof.
  intros Hbig Ha (p & Hp & Hid) Hserved. cbv zeta.
  assert (Hrefused : update_profile_credits (now cond) uid userId amount (store w)
                     = (pg_err OutOfRange, store w)).
  { unfold update_profile_credits.
    replace (int4 amount) with false
      by (symmetry; unfold int4; apply andb_false_iff; right; apply Z.leb_gt; lia).
    replace (existsb _ _) with true; [reflexivity|].
    symmetry. apply existsb_exists. exists p. split; [by apply list_elem_of_In|].
    unfold profile_updatable. by rewrite Ha, orb_true_r, bool_decide_eq_true_2. }
  unfold ending, AdminPanel.setCreditsToAmount.
  destruct (Z.ltb_spec amount 0); [lia|].
  unfold attempt_finally, attempt, assign, notify, complain, entry, raise, ask,
    mbind, Act_bind. simpl.
  rewrite Hserved, Hrefused. simpl. split; [reflexivity|].
  unfold notices. rewrite !omap_app. simpl. by rewrite !app_nil_r.
Qed.

(** X16. The policies at work: a session that is not an administrator cannot
    change another user's profile through the panel. Its updates find no row
    they may touch, the store answers without an error, and the panel shows
    the success notice all the same. *)
Theorem panel_cannot_change_others (uid : option uuid) (cond : Conditions)
  (w : Site AdminPanel.Panel) (userId : uuid) (amount : Z) (flag : bool) :
  is_admin (tables (store w)) uid = false →
  uid ≠ Some userId →
  store (ending (AdminPanel.setCreditsToAmount uid cond userId amount) w) = store w ∧
  store (ending (AdminPanel.toggleAdmin uid cond userId flag) w) = store w ∧
  (AdminPanel.selectedUser (cells w) = userId →
   store (ending (AdminPanel.addCredits uid cond) w) = store w) ∧
  (0 ≤ amount → refuses cond (UpdateProfileCredits amount userId) = false →
   CreditsSet amount
     ∈ notices (notes (ending (AdminPanel.setCreditsToAmount uid cond userId amount) w))).
Proof.
  intros Ha Hu.
  split; [|split; [|split]].
  - unfold ending, AdminPanel.setCreditsToAmount.
    destruct (Z.ltb_spec amount 0); [reflexivity|].
    unfold attempt_finally, attempt, assign, notify, complain, entry, raise, ask,
      mbind, Act_bind. simpl.
    destruct (refuses cond (UpdateProfileCredits _ _)); simpl; [reflexivity|].
    rewrite update_profile_credits_no_row by done. simpl.
    refresh_users; by apply update_profiles_denied.
  - unfold ending, AdminPanel.toggleAdmin.
    unfold attempt, assign, notify, complain, entry, raise, ask, mbind, Act_bind. simpl.
    destruct (refuses cond (UpdateProfileAdmin _ _)); simpl; [reflexivity|].
    refresh_users; by apply update_profiles_denied.
  - intros Hsel.
    unfold ending, AdminPanel.addCredits, mbind, Act_bind, cell.
    destruct (_ || _); [reflexivity|].
    unfold attempt_finally, attempt, assign, notify, complain, entry, raise, ask,
      mbind, Act_bind. simpl.
    destruct (list_find _ _) as [[i u]|]; simpl; [|reflexivity].
    destruct (refuses cond (UpdateProfileCredits _ _)); simpl; [reflexivity|].
    rewrite Hsel, update_profile_credits_no_row by done. simpl.
    refresh_users; by apply update_profiles_denied.
  - intros Hn Hserved.
    unfold ending, AdminPanel.setCreditsToAmount.
    destruct (Z.ltb_spec amount 0); [lia|].
    unfold attempt_finally, attempt, assign, notify, complain, entry, raise, ask,
      mbind, Act_bind. simpl.
    rewrite Hserved, update_profile_credits_no_row by done. simpl.
    refresh_users; unfold notices; rewrite !omap_app; simpl;
      rewrite ?app_nil_r; set_solver.
Qed.

(** Alice, who is no administrator, sets Bob's credits to 100 and is told
    "Credits updated"; Bob still has 5. *)
Lemma panel_cannot_change_others_witness :
  map (λ q, (Profile.user_id q, Profile.credits q))
    (profiles (tables (store (ending
       (AdminPanel.setCreditsToAmount (Some "u-1") calm "u-2" 100) (admin_site "u-2" 100)))))
    = [("u-1"%string, 3); ("u-2"%string, 5)] ∧
  CreditsSet 100
    ∈ notices (notes (ending (AdminPanel.setCreditsToAmount (Some "u-1") calm "u-2" 100)
                        (admin_site "u-2" 100))).
Proof.
  destruct (panel_cannot_change_others (Some "u-1") calm (admin_site "u-2" 100)
              "u-2" 100 true) as (Hs & _ & _ & Hn); [reflexivity | discriminate |].
  rewrite Hs. split; [reflexivity|]. apply Hn; [lia | reflexivity].
Defined.

(** ** The admin flag *)

Lemma existsb_admin_other (upd : Profile.t → bool) target flag t v rows :
  v ≠ target →
  existsb (λ p, bool_decide (Profile.user_id p = v) && bool_decide (Profile.is_admin p = true))
    (map (λ p, if bool_decide (Profile.user_id p = target) && upd p
               then stamp_admin t flag p else p) rows)
  = existsb (λ p, bool_decide (Profile.user_id p = v)
                  && bool_decide (Profile.is_admin p = true)) rows.
Proof.
  intros Hv. induction rows as [|p rows IH]; [reflexivity|].
  rewrite map_cons. simpl. rewrite IH. f_equal.
  destruct (bool_decide (Profile.user_id p = target)) eqn:E; [|reflexivity].
  apply bool_decide_eq_true in E.
  destruct (upd p); simpl; [|reflexivity].
  by rewrite (bool_decide_eq_false_2 (Profile.user_id p = v)) by congruence.
Qed.

Lemma is_admin_after_toggle uid target flag t d v :
  (is_admin d uid = true ∨ uid = Some target) →
  (∃ p, p ∈ profiles d ∧ Profile.user_id p = target) →
  is_admin
    (mkDatabase
       (map (λ p, if bool_decide (Profile.user_id p = target) && profile_updatable d uid p
                  then stamp_admin t flag p else p) (profiles d))
       (api_calls d)) (Some v)
  = if bool_decide (v = target) then flag else is_admin d (Some v).
Proof.
  intros Hmay Hrow.
  assert (Hupd : ∀ p, Profile.user_id p = target → profile_updatable d uid p = true).
  { intros p Hp. unfold profile_updatable, is_own. destruct Hmay as [->| ->].
    - apply orb_true_r.
    - by rewrite Hp, bool_decide_eq_true_2. }
  unfold is_admin at 1. simpl.
  case_bool_decide as Hv; [|by apply existsb_admin_other].
  subst v. destruct Hrow as (p0 & Hin & Hid).
  destruct flag.
  - apply existsb_exists. exists (stamp_admin t true p0). split.
    + apply in_map_iff. exists p0. split; [|by apply list_elem_of_In].
      by rewrite bool_decide_eq_true_2, Hupd.
    + simpl. by rewrite bool_decide_eq_true_2.
  - apply not_true_is_false. rewrite existsb_exists.
    intros (q & Hq & Hq'). apply in_map_iff in Hq as (p & <- & _).
    apply andb_true_iff in Hq' as [Hid' Hadm].
    apply bool_decide_eq_true in Hid', Hadm.
    destruct (bool_decide (Profile.user_id p = target)) eqn:E.
    + apply bool_decide_eq_true in E. rewrite (Hupd p E) in *. simpl in *. done.
    + apply bool_decide_eq_false in E. simpl in *. done.
Qed.

(** X17. [toggleAdmin(userId, currentAdminStatus)], run by an administrator or by
    the user on their own id, with the update served and a profile of that
    user in the table: afterwards [is_admin(userId)] is the negation of the
    status passed in, everybody else's answer is as before, and no balance
    has changed. As the policies let users update their own row, this covers
    a user granting the flag to themselves and an administrator removing
    their own. *)
Theorem toggleAdmin_sets_flag (uid : option uuid) (cond : Conditions)
  (w : Site AdminPanel.Panel) (userId : uuid) (currentAdminStatus : bool) :
  is_admin (tables (store w)) uid = true ∨ uid = Some userId →
  (∃ p, p ∈ profiles (tables (store w)) ∧ Profile.user_id p = userId) →
  refuses cond (UpdateProfileAdmin (negb currentAdminStatus) userId) = false →
  let w' := ending (AdminPanel.toggleAdmin uid cond userId currentAdminStatus) w in
  is_admin (tables (store w')) (Some userId) = negb currentAdminStatus ∧
  (∀ v, v ≠ userId →
        is_admin (tables (store w')) (Some v) = is_admin (tables (store w)) (Some v)) ∧
  Profile.credits <$> profiles (tables (store w'))
    = Profile.credits <$> profiles (tables (store w)).
Proof.
  intros Hmay Hrow Hserved. cbv zeta.
  assert (Hstore :
    store (ending (AdminPanel.toggleAdmin uid cond userId currentAdminStatus) w)
    = update_profiles uid userId
        (stamp_admin (now cond) (negb currentAdminStatus)) (store w)).
  { unfold ending, AdminPanel.toggleAdmin.
    unfold attempt, assign, notify, complain, entry, raise, ask, mbind, Act_bind. simpl.
    rewrite Hserved. simpl. refresh_users; reflexivity. }
  rewrite Hstore.
  assert (Hflags : ∀ v,
    is_admin (tables (update_profiles uid userId
                        (stamp_admin (now cond) (negb currentAdminStatus)) (store w)))
      (Some v)
    = if bool_decide (v = userId) then negb currentAdminStatus
      else is_admin (tables (store w)) (Some v)).
  { intros v. unfold update_profiles. simpl. by apply is_admin_after_toggle. }
  split; [|split].
  - rewrite Hflags. by rewrite bool_decide_eq_true_2.
  - intros v Hv. rewrite Hflags. by rewrite bool_decide_eq_false_2.
  - unfold update_profiles. simpl.
    generalize (profile_updatable (tables (store w)) uid). intros upd.
    clear. induction (profiles (tables (store w))) as [|q rows IH]; [reflexivity|].
    rewrite map_cons, !fmap_cons. f_equal.
    + by destruct (_ && _).
    + apply IH.
Qed.

(** Alice, who is no administrator, runs [toggleAdmin] on her own id and is
    one afterwards. *)
Lemma toggleAdmin_sets_flag_witness :
  is_admin (tables office) (Some "u-1") = false ∧
  is_admin (tables (store (ending (AdminPanel.toggleAdmin (Some "u-1") calm "u-1" false)
                             (admin_site "" 0)))) (Some "u-1") = true.
Proof.
  split; [reflexivity|].
  destruct (toggleAdmin_sets_flag (Some "u-1") calm (admin_site "" 0) "u-1" false)
    as (H & _); [by right | exists (alice_profile 3); split; [left|reflexivity]
                | reflexivity | exact H].
Defined.

(** ** What a session can read *)

Global Instance newest_profile_first_total : Total newest_profile_first.
Proof. intros a b. unfold newest_profile_first. lia. Qed.

Global Instance newest_profile_first_trans : Transitive newest_profile_first.
Proof. intros a b c. unfold newest_profile_first. lia. Qed.

Lemma visible_profiles_admin uid d :
  is_admin d uid = true → visible_profiles uid d = profiles d.
Proof.
  intros Ha. unfold visible_profiles.
  induction (profiles d) as [|p rows IH]; [reflexivity|].
  rewrite filter_cons_True, IH; [done|].
  unfold profile_visible. by rewrite Ha, orb_true_r.
Qed.

Lemma visible_profiles_user uid d p :
  is_admin d uid = false →
  p ∈ visible_profiles uid d ↔ p ∈ profiles d ∧ uid = Some (Profile.user_id p).
Proof.
  intros Ha. unfold visible_profiles, profile_visible, is_own.
  rewrite list_elem_of_filter, Ha, orb_false_r, bool_decide_eq_true. tauto.
Qed.

(** X18. [fetchUsers] leaves the store alone. Served, it lists profiles newest
    first: all of them for an administrator, and for anybody else exactly
    the profiles that are their own. Refused, it keeps the cells and shows
    the alarm. *)
Theorem fetchUsers_lists (uid : option uuid) (cond : Conditions)
  (w : Site AdminPanel.Panel) :
  store (ending (AdminPanel.fetchUsers uid cond) w) = store w ∧
  (refuses cond SelectUsers = false →
     StronglySorted newest_profile_first
       (AdminPanel.users (cells (ending (AdminPanel.fetchUsers uid cond) w))) ∧
     (is_admin (tables (store w)) uid = true →
        AdminPanel.users (cells (ending (AdminPanel.fetchUsers uid cond) w))
          ≡ₚ profiles (tables (store w))) ∧
     (is_admin (tables (store w)) uid = false →
        ∀ p, p ∈ AdminPanel.users (cells (ending (AdminPanel.fetchUsers uid cond) w))
             ↔ p ∈ profiles (tables (store w)) ∧ uid = Some (Profile.user_id p))) ∧
  (refuses cond SelectUsers = true →
     cells (ending (AdminPanel.fetchUsers uid cond) w) = cells w ∧
     notices (notes (ending (AdminPanel.fetchUsers uid cond) w))
       = notices (notes w) ++ [Plain "Error" "Failed to load users" true]).
Proof.
  unfold ending. rewrite fetchUsers_run.
  destruct (refuses cond SelectUsers); simpl.
  - split; [reflexivity|]. split; [discriminate|]. intros _. split; [reflexivity|].
    unfold notices. rewrite omap_app. reflexivity.
  - split; [reflexivity|]. split; [|discriminate]. intros _.
    split; [apply StronglySorted_merge_sort; apply _|]. split.
    + intros Ha. by rewrite select_users_visible, visible_profiles_admin.
    + intros Ha p. rewrite select_users_visible. by apply visible_profiles_user.
Qed.

Lemma visible_calls_admin uid d :
  is_admin d uid = true → visible_calls uid d = api_calls d.
Proof.
  intros Ha. unfold visible_calls.
  induction (api_calls d) as [|c rows IH]; [reflexivity|].
  rewrite filter_cons_True, IH; [done|].
  unfold call_visible. by rewrite Ha, orb_true_r.
Qed.

Lemma visible_calls_user u d :
  is_admin d (Some u) = false → visible_calls (Some u) d = calls_of u d.
Proof.
  intros Ha. unfold visible_calls, calls_of.
  induction (api_calls d) as [|c rows IH]; [reflexivity|].
  unfold call_visible, is_own in *. rewrite Ha in *.
  destruct (decide (ApiCall.user_id c = u)) as [E|E].
  - rewrite !filter_cons_True, IH; [done|done|].
    by rewrite orb_false_r, bool_decide_eq_true_2 by congruence.
  - rewrite !filter_cons_False, IH; [done|done|].
    rewrite orb_false_r, bool_decide_eq_false_2; [done|congruence].
Qed.

(** X19. The statistics count what the session may read: fed with the rows the
    store returns for its query, [fetchStats] counts every call record and
    sums every charge for an administrator, and only the session's own
    records for anybody else. *)
Theorem fetchStats_covers_visible_calls (uid : option uuid) (st : Store)
  (stats : option ApiCallStats) :
  ∃ s, fetchStats (pg_ok (Some (call_stats uid st))) stats = (Some s, []) ∧
       total_calls s = Z.of_nat (length (visible_calls uid (tables st))) ∧
       total_credits_used s
         = foldr Z.add 0 (ApiCall.credits_used <$> visible_calls uid (tables st)) ∧
       (is_admin (tables st) uid = true →
          visible_calls uid (tables st) = api_calls (tables st)) ∧
       (∀ u, uid = Some u → is_admin (tables st) uid = false →
          visible_calls uid (tables st) = calls_of u (tables st)).
Proof.
  eexists. split; [reflexivity|]. simpl. rewrite fold_left_tally. simpl.
  unfold call_stats. rewrite length_fmap, <- list_fmap_compose.
  split; [reflexivity|]. split; [reflexivity|]. split.
  - apply visible_calls_admin.
  - intros u -> Ha. by apply visible_calls_user.
Qed.

(** ** Settings *)

Lemma fold_values_other rows (m : gmap string string) k :
  k ∉ Setting.setting_key <$> rows →
  fold_left AdminPanel.record_value rows m !! k = m !! k.
Proof.
  revert m. induction rows as [|a rows IH]; intros m Hk; [reflexivity|].
  rewrite fmap_cons, not_elem_of_cons in Hk. destruct Hk as [Hne Hk].
  simpl. rewrite IH by done. unfold AdminPanel.record_value.
  case_bool_decide; [done|]. by rewrite lookup_insert_ne.
Qed.

Lemma fold_values_lookup rows (m : gmap string string) s :
  NoDup (Setting.setting_key <$> rows) → s ∈ rows →
  Setting.setting_key s ≠ "__proto__" →
  fold_left AdminPanel.record_value rows m !! Setting.setting_key s
    = Some (Setting.setting_value s).
Proof.
  revert m. induction rows as [|a rows IH]; intros m Hnd Hs Hk.
  - by apply elem_of_nil in Hs.
  - rewrite fmap_cons, NoDup_cons in Hnd. destruct Hnd as [Ha Hnd].
    simpl. apply elem_of_cons in Hs as [->|Hs].
    + rewrite fold_values_other by done. unfold AdminPanel.record_value.
      rewrite bool_decide_eq_false_2 by done. apply lookup_insert_eq.
    + by apply IH.
Qed.

Lemma initial_values_stored rows s :
  NoDup (Setting.setting_key <$> rows) → s ∈ rows →
  Setting.setting_key s ≠ "__proto__" →
  AdminPanel.initial_values rows !! Setting.setting_key s = Some (Setting.setting_value s).
Proof. apply fold_values_lookup. Qed.


Lemma select_settings_visible cond uid st :
  select_settings cond uid st ≡ₚ visible_settings uid st.
Proof. apply merge_sort_Permutation. Qed.

Lemma visible_settings_admin uid st :
  is_admin (tables st) uid = true → visible_settings uid st = api_settings st.
Proof. intros Ha. unfold visible_settings, settings_allowed. by rewrite Ha. Qed.

Lemma visible_settings_user uid st :
  is_admin (tables st) uid = false → visible_settings uid st = [].
Proof. intros Ha. unfold visible_settings, settings_allowed. by rewrite Ha. Qed.


Lemma fetchApiSettings_run uid cond (w : Site AdminPanel.Panel) :
  AdminPanel.fetchApiSettings uid cond w =
    (Done (),
     if refuses cond SelectSettings then
       mkSite (store w) (cells w)
         (notes w ++ [Asked SelectSettings;
                      Complained "Error fetching API settings:" (Rejected Unavailable);
                      Notified (Plain "Error" "Failed to load API settings" true)])
     else
       mkSite (store w)
         (AdminPanel.set_editingSettings
            (AdminPanel.initial_values (select_settings cond uid (store w)))
            (AdminPanel.set_apiSettings (select_settings cond uid (store w)) (cells w)))
         (notes w ++ [Asked SelectSettings])).
Proof.
  step_panel. destruct (refuses cond SelectSettings); simpl; [|reflexivity].
  by rewrite <- !app_assoc.
Qed.



Lemma update_setting_admin cond uid v key st :
  is_admin (tables st) uid = true →
  update_setting cond uid (Some v) key st
  = mkStore (tables st)
      ((λ s, if bool_decide (Setting.setting_key s = key)
             then stamp_value (now cond) v s else s) <$> api_settings st).
Proof. intros Ha. unfold update_setting, settings_allowed. by rewrite Ha. Qed.

Lemma update_setting_user cond uid v key st :
  is_admin (tables st) uid = false → update_setting cond uid v key st = st.
Proof.
  intros Ha. unfold update_setting, settings_allowed. rewrite Ha. by destruct v.
Qed.

Lemma updateApiSetting_run uid cond (w : Site AdminPanel.Panel) settingKey :
  refuses cond (UpdateSetting (AdminPanel.editingSettings (cells w) !! settingKey)
                  settingKey) = false →
  AdminPanel.updateApiSetting uid cond settingKey w
  = AdminPanel.fetchApiSettings uid cond
      (mkSite
         (update_setting cond uid (AdminPanel.editingSettings (cells w) !! settingKey)
            settingKey (store w))
         (cells w)
         (notes w ++ [Asked (UpdateSetting
                               (AdminPanel.editingSettings (cells w) !! settingKey)
                               settingKey);
                      Notified (Plain "Setting updated"
                                  "API setting has been updated successfully" false)])).
Proof.
  intros Hserved. rewrite !fetchApiSettings_run.
  unfold AdminPanel.updateApiSetting, attempt, cell, ask, notify, entry, raise,
    mbind, Act_bind. simpl. rewrite Hserved. simpl.
  rewrite fetchApiSettings_run. simpl. rewrite <- !app_assoc. simpl.
  by destruct (refuses cond SelectSettings).
Qed.

(** X21. [updateApiSetting(settingKey)] by an administrator, with both requests
    served and the stored keys distinct: the setting of that key gets the
    value typed for it, the other settings and the tables stay, and the
    reload puts the stored values back into every editing field, so that
    what was typed for another setting and not saved is gone. *)
Theorem updateApiSetting_saves (uid : option uuid) (cond : Conditions)
  (w : Site AdminPanel.Panel) (settingKey v : string) :
  is_admin (tables (store w)) uid = true →
  AdminPanel.editingSettings (cells w) !! settingKey = Some v →
  refuses cond (UpdateSetting (Some v) settingKey) = false →
  refuses cond SelectSettings = false →
  NoDup (Setting.setting_key <$> api_settings (store w)) →
  let w' := ending (AdminPanel.updateApiSetting uid cond settingKey) w in
  tables (store w') = tables (store w) ∧
  api_settings (store w')
    = (λ s, if bool_decide (Setting.setting_key s = settingKey)
            then stamp_value (now cond) v s else s) <$> api_settings (store w) ∧
  (∀ s, s ∈ api_settings (store w) → Setting.setting_key s ≠ "__proto__" →
        AdminPanel.editingSettings (cells w') !! Setting.setting_key s
        = Some (if bool_decide (Setting.setting_key s = settingKey) then v
                else Setting.setting_value s)).
Proof.
  intros Ha Hv Hup Hsel Hkeys. cbv zeta. unfold ending.
  rewrite updateApiSetting_run; rewrite Hv; [|done].
  rewrite update_setting_admin by done.
  set (upd := λ s, if bool_decide (Setting.setting_key s = settingKey)
                   then stamp_value (now cond) v s else s).
  assert (Hsame : Setting.setting_key <$> (upd <$> api_settings (store w))
                  = Setting.setting_key <$> api_settings (store w)).
  { rewrite <- list_fmap_compose. apply list_fmap_ext. intros i s _. unfold upd. simpl.
    by case_bool_decide. }
  rewrite fetchApiSettings_run. simpl. rewrite Hsel. simpl.
  split; [reflexivity|]. split; [reflexivity|].
  intros s Hs Hk.
  set (st' := mkStore (tables (store w)) (upd <$> api_settings (store w))).
  assert (Hperm : select_settings cond uid st' ≡ₚ upd <$> api_settings (store w))
    by (by rewrite select_settings_visible, visible_settings_admin).
  assert (Hkey : Setting.setting_key (upd s) = Setting.setting_key s)
    by (unfold upd; by case_bool_decide).
  assert (Hlook : AdminPanel.initial_values (select_settings cond uid st')
                    !! Setting.setting_key (upd s) = Some (Setting.setting_value (upd s))).
  { apply initial_values_stored.
    - by rewrite Hperm, Hsame.
    - rewrite Hperm. by apply list_elem_of_fmap_2.
    - by rewrite Hkey. }
  rewrite Hkey in Hlook. rewrite Hlook. unfold upd. by case_bool_decide.
Qed.

(** Bob types a new base URL and saves it. *)
Lemma updateApiSetting_saves_witness :
  Setting.setting_value
    <$> api_settings
          (store (ending (AdminPanel.updateApiSetting (Some "u-2") calm "api_base_url")
                    (ending (perform (Some "u-2") calm
                               (EditSetting "api_base_url" "https://gen.example/v2"))
                       (admin_site "" 0))))
  = ["https://gen.example/v2"].
Proof.
  destruct (updateApiSetting_saves (Some "u-2") calm
              (ending (perform (Some "u-2") calm
                         (EditSetting "api_base_url" "https://gen.example/v2"))
                 (admin_site "" 0))
              "api_base_url" "https://gen.example/v2")
    as (_ & Hsettings & _);
    [reflexivity | apply lookup_insert_eq | reflexivity | reflexivity
    | apply NoDup_singleton |].
  rewrite Hsettings. reflexivity.
Defined.

(** X22. [updateApiSetting] by somebody who is no administrator changes nothing
    in the store, and when the store serves the update (which matches no row
    it may touch) the notification of success is shown all the same. *)
Theorem updateApiSetting_denied (uid : option uuid) (cond : Conditions)
  (w : Site AdminPanel.Panel) (settingKey : string) :
  is_admin (tables (store w)) uid = false →
  let w' := ending (AdminPanel.updateApiSetting uid cond settingKey) w in
  store w' = store w ∧
  (refuses cond (UpdateSetting (AdminPanel.editingSettings (cells w) !! settingKey)
                   settingKey) = false →
   Plain "Setting updated" "API setting has been updated successfully" false
     ∈ notices (notes w')).
Proof.
  intros Ha. cbv zeta.
  destruct (refuses cond (UpdateSetting
              (AdminPanel.editingSettings (cells w) !! settingKey) settingKey)) eqn:Hup.
  - split; [|discriminate].
    unfold ending, AdminPanel.updateApiSetting, attempt, cell, ask, notify, complain,
      entry, raise, mbind, Act_bind. simpl. rewrite Hup. reflexivity.
  - unfold ending. rewrite updateApiSetting_run by done.
    rewrite fetchApiSettings_run, update_setting_user by done. simpl.
    split; [by destruct (refuses cond SelectSettings)|]. intros _.
    unfold notices.
    destruct (refuses cond SelectSettings); simpl; rewrite !omap_app; simpl;
      set_solver.
Qed.

(** Alice saves a setting: the store is as before, the notification says
    otherwise. *)
Lemma updateApiSetting_denied_witness :
  store (ending (AdminPanel.updateApiSetting (Some "u-1") calm "api_base_url")
           (admin_site "" 0)) = office.
Proof.
  destruct (updateApiSetting_denied (Some "u-1") calm (admin_site "" 0) "api_base_url")
    as (H & _); [reflexivity | exact H].
Defined.

(** ** The dashboard's base URL *)

Lemma filter_key_unique (rows : list Setting.t) s :
  NoDup (Setting.setting_key <$> rows) → s ∈ rows →
  filter (λ x, Setting.setting_key x = Setting.setting_key s) rows = [s].
Proof.
  induction rows as [|a rows IH]; intros Hnd Hs.
  - by apply elem_of_nil in Hs.
  - rewrite fmap_cons, NoDup_cons in Hnd. destruct Hnd as [Ha Hnd].
    apply elem_of_cons in Hs as [->|Hs].
    + rewrite filter_cons_True by done. f_equal.
      apply elem_of_nil_inv. intros x Hx.
      apply list_elem_of_filter in Hx as [Hkey Hx]. apply Ha.
      rewrite <- Hkey. by apply list_elem_of_fmap_2.
    + rewrite filter_cons_False, IH; [done|done|done|].
      intros Hkey. apply Ha. rewrite Hkey. by apply list_elem_of_fmap_2.
Qed.

(** X23. [fetchApiUrl] never writes to the store and touches no cell but
    [apiUrl]. For somebody who is no administrator the settings table is
    empty, so the dashboard keeps the URL it has; for an administrator, with
    the request served and the stored keys distinct, the URL becomes the
    stored value of [api_base_url] unless that value is the empty string. *)
Theorem fetchApiUrl_reads (uid : option uuid) (cond : Conditions) (w : Site Dash) :
  let w' := ending (fetchApiUrl uid cond) w in
  store w' = store w ∧
  (∃ v, cells w' = with_apiUrl v (cells w)) ∧
  (is_admin (tables (store w)) uid = false → apiUrl (cells w') = apiUrl (cells w)) ∧
  (is_admin (tables (store w)) uid = true →
   refuses cond SelectApiUrl = false →
   NoDup (Setting.setting_key <$> api_settings (store w)) →
   ∀ s, s ∈ api_settings (store w) → Setting.setting_key s = "api_base_url" →
        apiUrl (cells w')
        = if String.eqb (Setting.setting_value s) "" then apiUrl (cells w)
          else Setting.setting_value s).
Proof.
  cbv zeta.
  assert (Hsame : cells w = with_apiUrl (apiUrl (cells w)) (cells w)) by (by destruct (cells w)).
  unfold ending, fetchApiUrl, attempt, ask, complain, entry, raise, assign,
    mbind, Act_bind, mret, Act_ret.
  destruct (refuses cond SelectApiUrl) eqn:Hsel; simpl.
  { split; [reflexivity|]. split; [by eexists|]. split; [reflexivity|]. discriminate. }
  destruct (is_admin (tables (store w)) uid) eqn:Ha.
  - unfold select_api_url. rewrite visible_settings_admin by done.
    split; [|split; [|split; [discriminate|]]].
    + destruct (filter _ _) as [|s [|s' rest]]; simpl; try reflexivity.
      by destruct (String.eqb _ _).
    + destruct (filter _ _) as [|s [|s' rest]]; simpl; try (by eexists).
      destruct (String.eqb _ _); simpl; by eexists.
    + intros _ _ Hkeys s Hs Hkey.
      pose proof (filter_key_unique _ s Hkeys Hs) as Hone. rewrite Hkey in Hone.
      rewrite Hone. simpl. by destruct (String.eqb _ _).
  - unfold select_api_url. rewrite visible_settings_user by done. simpl.
    split; [reflexivity|]. split; [by eexists|]. split; [reflexivity|discriminate].
Qed.

(** ** The page shell *)

Lemma visible_flag_is_admin uid u d p rest :
  filter (λ q, Profile.user_id q = u) (visible_profiles uid d) = p :: rest →
  Profile.is_admin p = true → is_admin d (Some u) = true.
Proof.
  intros Hrows Hflag.
  assert (Hp : p ∈ filter (λ q, Profile.user_id q = u) (visible_profiles uid d))
    by (rewrite Hrows; left).
  apply list_elem_of_filter in Hp as [Hu Hp].
  unfold visible_profiles in Hp. apply list_elem_of_filter in Hp as [_ Hp].
  simpl. apply existsb_exists. exists p. split; [by apply list_elem_of_In|].
  by rewrite !bool_decide_eq_true_2.
Qed.

Lemma activeTab_admin tab : Index.activeTab tab = "admin" → tab = Some "admin".
Proof.
  unfold Index.activeTab. destruct tab as [t|]; [|discriminate].
  destruct (String.eqb_spec t "") as [->|_]; [discriminate|congruence].
Qed.

Lemma page_admin_panel flag tab :
  Index.AdminPanelView ∈ Index.page flag tab → flag = Some true ∧ tab = Some "admin".
Proof.
  unfold Index.page. destruct flag as [[|]|]; simpl.
  - destruct (String.eqb_spec (Index.activeTab tab) "admin") as [Hadmin|_].
    + intros _. split; [reflexivity|by apply activeTab_admin].
    + destruct (String.eqb (Index.activeTab tab) "settings"),
        (String.eqb (Index.activeTab tab) "dashboard" || String.eqb (Index.activeTab tab) "");
        simpl; intros Hin;
        repeat (apply elem_of_cons in Hin as [Hin|Hin]; [discriminate|]);
        by apply elem_of_nil in Hin.
  - intros Hin. apply list_elem_of_singleton in Hin. discriminate.
  - intros Hin. apply list_elem_of_singleton in Hin. discriminate.
Qed.

Lemma page_dashboard_only flag tab :
  flag ≠ Some true → Index.page flag tab = [Index.DashboardView].
Proof. unfold Index.page. by destruct flag as [[|]|]. Qed.

(** X24. The page shows the admin panel only to an administrator: starting with
    no profile loaded, after [fetchProfile] the admin panel is among the
    views only if [is_admin] holds of the session's user in the store and
    the tab is [admin]; for everybody else, and whenever the request fails,
    the page is the dashboard alone. The store is as before. *)
Theorem Index_admin_panel_for_admins_only (uid : option uuid) (cond : Conditions)
  (w : Site (option bool)) (tab : option string) :
  cells w = None →
  let w' := ending (Index.fetchProfile uid cond) w in
  store w' = store w ∧
  (Index.AdminPanelView ∈ Index.page (cells w') tab →
     is_admin (tables (store w)) uid = true ∧ tab = Some "admin") ∧
  (is_admin (tables (store w)) uid = false ∨ refuses cond (SelectAdminFlag uid) = true →
     Index.page (cells w') tab = [Index.DashboardView]).
Proof.
  intros Hnone. cbv zeta.
  assert (Hflag : store (ending (Index.fetchProfile uid cond) w) = store w ∧
    (cells (ending (Index.fetchProfile uid cond) w) = Some true →
       is_admin (tables (store w)) uid = true ∧
       refuses cond (SelectAdminFlag uid) = false)).
  { unfold ending, Index.fetchProfile, attempt, ask, complain, entry, raise, assign,
      mbind, Act_bind.
    destruct (refuses cond (SelectAdminFlag uid)) eqn:Hsel; simpl.
    { rewrite Hnone. by split. }
    unfold select_admin_flag. destruct uid as [u|]; simpl; [|rewrite Hnone; by split].
    destruct (filter _ _) as [|p [|p' rest]] eqn:Hrows; simpl;
      [by split | | rewrite Hnone; by split].
    split; [reflexivity|]. intros [= Hp]. split; [|reflexivity].
    by eapply visible_flag_is_admin. }
  destruct Hflag as [Hstore Hflag]. split; [exact Hstore|]. split.
  - intros Hin. apply page_admin_panel in Hin as [Htrue ->].
    split; [by apply Hflag|reflexivity].
  - intros Hno. apply page_dashboard_only. intros Htrue.
    destruct (Hflag Htrue) as [Ha Hr]. destruct Hno; congruence.
Qed.

(** Bob, on the [admin] tab, is shown the admin panel; Alice is shown the
    dashboard. *)
Lemma Index_admin_panel_for_admins_only_witness :
  Index.page (cells (ending (Index.fetchProfile (Some "u-2") calm) (mkSite office None [])))
    (Some "admin") = [Index.AdminPanelView] ∧
  Index.page (cells (ending (Index.fetchProfile (Some "u-1") calm) (mkSite office None [])))
    (Some "admin") = [Index.DashboardView].
Proof.
  split; [reflexivity|].
  destruct (Index_admin_panel_for_admins_only (Some "u-1") calm (mkSite office None [])
              (Some "admin")) as (_ & _ & H); [reflexivity|].
  apply H. by left.
Defined.

(** ** The sidebar *)

(** X25. The sidebar marks at most one of its items as active, whatever the
    current path; the first item is active on [/] and on [/?tab=dashboard],
    and every item is active on its own URL. *)
Theorem sidebar_marks_at_most_one (currentPath : string) :
  (length (filter (λ item, AppSidebar.isActive currentPath item.2 = true)
             AppSidebar.items) ≤ 1)%nat ∧
  (AppSidebar.isActive currentPath "/" = true
     ↔ currentPath = "/" ∨ currentPath = "/?tab=dashboard") ∧
  Forall (λ item, AppSidebar.isActive item.2 item.2 = true) AppSidebar.items.
Proof.
  split; [|split].
  - unfold AppSidebar.items, AppSidebar.isActive.
    rewrite !filter_cons, filter_nil. simpl.
    destruct (String.eqb_spec currentPath "/") as [->|H1]; [simpl; lia|].
    destruct (String.eqb_spec currentPath "/?tab=dashboard") as [->|H2]; [simpl; lia|].
    destruct (String.eqb_spec currentPath "/?tab=admin") as [->|H3]; [simpl; lia|].
    destruct (String.eqb_spec currentPath "/?tab=settings") as [->|H4]; simpl; lia.
  - unfold AppSidebar.isActive. simpl.
    rewrite orb_true_iff, !String.eqb_eq. done.
  - unfold AppSidebar.items. repeat constructor.
Qed.
